(** * sen2like: SMAC atmospheric correction and product packaging

    A shallow embedding of
      - sen2like/s2l_processes/S2L_Atmcor.py   (smac_correction, S2L_Atmcor)
      - sen2like/s2l_processes/S2L_Packager.py (S2L_Packager)
    and the properties of these two processing blocks.

    Layout: IEEE-754 numbers, Python strings and values, the interpreter
    state with its exceptions, the collaborators that live outside the two
    files, then the two processing blocks, then the theorems. *)

From Stdlib Require Import ZArith String Ascii List Bool Lia.
From Stdlib Require Import Floats.SpecFloat.
From stdpp Require Import base option list strings gmap.

Local Open Scope string_scope.
Local Open Scope Z_scope.

(* ===================================================================== *)
(** ** IEEE-754 binary floating point

    NumPy computes in binary64 (float64) and binary32 (float32).  Numbers
    are [spec_float] values and every operation is the correctly rounded
    one of the Standard Library, at the precision of the format. *)

Module Float.

Record format := Format { prec : Z; emax : Z }.

Definition binary32 : format := Format 24 128.
Definition binary64 : format := Format 53 1024.

Definition float := spec_float.

Definition pzero : float := S754_zero false.

Definition add (f : format) : float -> float -> float := SFadd (prec f) (emax f).
Definition mul (f : format) : float -> float -> float := SFmul (prec f) (emax f).
Definition div (f : format) : float -> float -> float := SFdiv (prec f) (emax f).
Definition leb : float -> float -> bool := SFleb.
Definition ltb : float -> float -> bool := SFltb.
Definition opp : float -> float := SFopp.
Definition valid (f : format) : float -> bool := valid_binary (prec f) (emax f).

(** An integer, rounded to the format (exact for the small integers of
    this program). *)
Definition of_Z (f : format) (z : Z) : float :=
  binary_normalize (prec f) (emax f) z 0 false.

(** Conversion to a format, e.g. [np.float32(x)]: round to nearest even,
    overflow to infinity; zeros, infinities and NaN keep their class. *)
Definition cast (f : format) (x : float) : float :=
  match x with
  | S754_finite s m e => binary_round (prec f) (emax f) s m e
  | _ => x
  end.

(** A decimal literal [m]e-[k] of the Python source, e.g. [0.331] is
    [dec 331 3]: the binary64 number nearest to m / 10^k. *)
Definition dec (m : Z) (k : nat) : float :=
  div binary64 (of_Z binary64 m) (of_Z binary64 (10 ^ Z.of_nat k)).

(** Python's [int(x)]: truncation toward zero; NaN and infinities have
    no integer value. *)
Definition trunc (x : float) : option Z :=
  match x with
  | S754_zero _ => Some 0
  | S754_finite s m (Zneg p) => Some (cond_Zopp s (Z.shiftr (Zpos m) (Zpos p)))
  | S754_finite s m e => Some (cond_Zopp s (Z.shiftl (Zpos m) e))
  | S754_infinity _ | S754_nan => None
  end.

Definition is_zero (x : float) : bool :=
  match x with S754_zero _ => true | _ => false end.

Definition is_finite (x : float) : bool :=
  match x with S754_zero _ | S754_finite _ _ _ => true | _ => false end.

Definition eqb_format (a b : format) : bool :=
  (prec a =? prec b) && (emax a =? emax b).

(** The wider of two formats: the type of an operation between an array
    of the one and an array of the other. *)
Definition wider (a b : format) : format :=
  if prec a <? prec b then b else a.

(** A value of the format [from] where the format [to] is needed: as it
    is when the formats are the same, converted otherwise. *)
Definition convert (from to : format) (x : float) : float :=
  if eqb_format from to then x else cast to x.

(** The exact value of a finite number, as a fraction [n / 2^k] given by
    numerator and log-denominator; used to measure rounding errors. *)
Definition exact (x : float) : option (Z * Z) :=
  match x with
  | S754_zero _ => Some (0, 0)
  | S754_finite s m (Zneg p) => Some (cond_Zopp s (Zpos m), Zpos p)
  | S754_finite s m e => Some (cond_Zopp s (Z.shiftl (Zpos m) e), 0)
  | _ => None
  end.

End Float.

Abbreviation float := Float.float.
#[global] Instance float_inhabited : Inhabited spec_float := populate Float.pzero.
Abbreviation f32 := Float.binary32.
Abbreviation f64 := Float.binary64.

(* ===================================================================== *)
(** ** Python strings *)

Module Py.

Definition digit (n : Z) : ascii := ascii_of_nat (48 + Z.to_nat (n mod 10)).

(** Decimal digits of a non-negative integer, most significant first.
    [fuel] bounds the number of digits. *)
Fixpoint digits (fuel : nat) (n : Z) (acc : string) : string :=
  match fuel with
  | O => acc
  | S fuel' =>
      let acc' := String (digit n) acc in
      if n / 10 =? 0 then acc' else digits fuel' (n / 10) acc'
  end.

(** [str(n)] for an int. *)
Definition str_int (n : Z) : string :=
  if n <? 0 then String "-" (digits (S (Z.to_nat (Z.log2 (- n)))) (- n) "")
  else digits (S (Z.to_nat (Z.log2 n))) n "".

Fixpoint repeat_char (c : ascii) (n : nat) : string :=
  match n with O => "" | S n' => String c (repeat_char c n') end.

(** A text is held as its UTF-8 encoding.  [len(s)] counts the characters
    of the text: the bytes that do not continue a character. *)
Definition is_continuation (c : ascii) : bool :=
  let n := nat_of_ascii c in ((128 <=? n) && (n <? 192))%nat.

Fixpoint len (s : string) : nat :=
  match s with
  | "" => O
  | String c rest => if is_continuation c then len rest else S (len rest)
  end.

(** [s.rjust(width, fill)], which is what the format spec
    [{:<fill>><width>}] does to the text of its argument: the padding
    makes up for the characters that are missing. *)
Definition rjust (width : nat) (fill : ascii) (s : string) : string :=
  repeat_char fill (width - len s) ++ s.

(** [sep.join(parts)] *)
Fixpoint join (sep : string) (parts : list string) : string :=
  match parts with
  | [] => ""
  | [p] => p
  | p :: rest => p ++ sep ++ join sep rest
  end.

(** [s.startswith(p)] *)
Definition startswith (p s : string) : bool := String.prefix p s.

Fixpoint endswith_char (c : ascii) (s : string) : bool :=
  match s with
  | "" => false
  | String a "" => Ascii.eqb a c
  | String _ rest => endswith_char c rest
  end.

(** [s[1:]] *)
Definition tail1 (s : string) : string :=
  match s with "" => "" | String _ rest => rest end.

(** [posixpath.join(a, *p)]: an absolute component restarts the path, a
    separator is inserted unless the path so far is empty or ends in one. *)
Definition path_join2 (path b : string) : string :=
  if startswith "/" b then b
  else if (String.length path =? 0)%nat || endswith_char "/" path then path ++ b
  else path ++ "/" ++ b.

Definition path_join (a : string) (p : list string) : string :=
  fold_left path_join2 p a.

(** [posixpath.basename(p)]: what follows the last separator. *)
Fixpoint basename_aux (s acc : string) : string :=
  match s with
  | "" => acc
  | String c rest =>
      if Ascii.eqb c "/" then basename_aux rest "" else basename_aux rest (acc ++ String c "")
  end.

Definition basename (p : string) : string := basename_aux p "".

(** [int(s)] for a string of ASCII characters: surrounding white space
    is dropped, then an optional sign and decimal digits, where single
    underscores may separate digits.  [None] stands for [ValueError]. *)
Definition is_space (c : ascii) : bool :=
  let n := nat_of_ascii c in
  ((9 <=? n) && (n <=? 13) || (28 <=? n) && (n <=? 32))%nat.

Definition is_digit (c : ascii) : bool :=
  let n := nat_of_ascii c in ((48 <=? n) && (n <=? 57))%nat.

Fixpoint lstrip (l : list ascii) : list ascii :=
  match l with
  | c :: rest => if is_space c then lstrip rest else l
  | [] => []
  end.

Definition strip (l : list ascii) : list ascii := rev (lstrip (rev (lstrip l))).

Fixpoint digits_value (l : list ascii) (acc : Z) (after_digit : bool) : option Z :=
  match l with
  | [] => if after_digit then Some acc else None
  | c :: rest =>
      if is_digit c then
        digits_value rest (10 * acc + Z.of_nat (nat_of_ascii c - 48)) true
      else if Ascii.eqb c "_" && after_digit then digits_value rest acc false
      else None
  end.

Definition int_of_string (s : string) : option Z :=
  match strip (list_ascii_of_string s) with
  | "-"%char :: rest => Z.opp <$> digits_value rest 0 false
  | "+"%char :: rest => digits_value rest 0 false
  | l => digits_value l 0 false
  end.

End Py.

(* ===================================================================== *)
(** ** Python values and dictionaries *)

(** The values the configuration store and the quality indicators hold. *)
Inductive pyval :=
  | VNone
  | VBool (b : bool)
  | VInt (n : Z)
  | VFloat (x : float)
  | VStr (s : string).

(** A Python [dict] with string keys: keys are unique and listed in
    insertion order; assigning to a key that is present keeps its place. *)
Module Dict.
Section Ops.
Context {V : Type}.

Definition t := list (string * V).

Definition empty : t := [].

Fixpoint get (k : string) (d : t) : option V :=
  match d with
  | [] => None
  | (k', v) :: rest => if String.eqb k' k then Some v else get k rest
  end.

Definition contains (k : string) (d : t) : bool :=
  match get k d with Some _ => true | None => false end.

(** [d[k] = v] *)
Fixpoint set (k : string) (v : V) (d : t) : t :=
  match d with
  | [] => [(k, v)]
  | (k', v') :: rest =>
      if String.eqb k' k then (k, v) :: rest else (k', v') :: set k v rest
  end.

(** [del d[k]] (the caller has checked [k in d]) *)
Fixpoint del (k : string) (d : t) : t :=
  match d with
  | [] => []
  | (k', v') :: rest =>
      if String.eqb k' k then rest else (k', v') :: del k rest
  end.

(** [list(d.keys())] *)
Definition keys (d : t) : list string := map fst d.

(** [len(d.keys())] *)
Definition len (d : t) : nat := length (keys d).

(** [d.clear()] *)
Definition clear (d : t) : t := [].
End Ops.
Arguments t : clear implicits.
End Dict.

(* ===================================================================== *)
(** ** Products, images and arrays *)

(** [datetime] values: the acquisition date and the sensing time. *)
Record datetime := Datetime {
  year : Z; month : Z; day : Z;
  hour : Z; minute : Z; second : Z; microsecond : Z
}.

(** [strftime(d, '%Y%m%d')]: the year as a decimal number (the C library
    of the platform does not pad it: four digits from year 1000 on), month
    and day as zero-padded decimal numbers. *)
Definition strftime_Ymd (d : datetime) : string :=
  Py.str_int (year d) ++
  Py.rjust 2 "0" (Py.str_int (month d)) ++
  Py.rjust 2 "0" (Py.str_int (day d)).

(** A NumPy array of floating-point pixels, row after row. *)
Definition ndarray := list (list float).

(** References to arrays: Python passes and returns arrays by reference. *)
Definition ref := nat.

(** [core.image_file.S2L_ImageFile], as far as the two blocks read it. *)
Record S2L_ImageFile := ImageFile {
  xRes : float;
  filepath : string;
  dirpath : string;
  filename : string;
  array : ref
}.

(** The reader of the product metadata ([product.mtl]). *)
Record MTL := {
  observation_date : string;
  scene_center_time : string;
  sun_zenith_angle : float;
  sun_azimuth_angle : float;
  mgrs : string;
  mtl_file_name : string;
  tile_metadata : option string
}.

(** [core.products.product.S2L_Product], as far as the two blocks read
    it.  [image30m] is the dictionary of precomputed 30 m images that the
    Landsat products carry. *)
Record S2L_Product := {
  mtl : MTL;
  acqdate : datetime;
  sensor_name : string;
  sensor : string;
  name : string;
  angles_file : string;
  mask_filename : string;
  image30m : Dict.t S2L_ImageFile;
  get_smac_filename : string -> option string
}.

Definition set_image30m (p : S2L_Product) (d : Dict.t S2L_ImageFile) : S2L_Product :=
  {| mtl := mtl p; acqdate := acqdate p; sensor_name := sensor_name p;
     sensor := sensor p; name := name p; angles_file := angles_file p;
     mask_filename := mask_filename p; image30m := d;
     get_smac_filename := get_smac_filename p |}.

(* ===================================================================== *)
(** ** Observable effects, exceptions and the interpreter state *)

Inductive level := DEBUG | INFO | ERROR.

(** What a run does to the outside: log records and calls into the
    collaborators that read or write files. *)
Inductive Event :=
  | Log (l : level) (template : string) (args : list pyval)
  | LogFit (band : string) (c0 c1 c2 residual : float)
  | ImageWrite (img : S2L_ImageFile) (creation_options : list string)
               (DCmode : bool) (path : option string)
  | ImageOpen (path : string)
  | Resample (img : S2L_ImageFile) (res : Z) (path : string)
  | Copyfile (src dst : string)
  | Copy (src dst : string)
  | Makedirs (path : string)
  | Savetofile (path : string)
  | Quicklook (images : Dict.t string) (band_list : list string) (qlpath : string)
              (quality : pyval) (offset : Z).

(** Python's exceptions.  [Unreachable] is none of them: it is the answer
    of the model in a state the interpreter cannot be in (a reference to
    an array that is not alive). *)
Inductive exn :=
  | ValueError | TypeError | IndexError | KeyError | OverflowError | OSError
  | Unreachable.

(** The mutable objects the two blocks share with the rest of the run:
    - [config]: the module-level [S2L_config.config];
    - [qi]: the module-level [metadata.qi];
    - [images]: the class attribute [S2L_Packager.images], one dictionary
      for every instance of the class (no instance rebinds it);
    - [arrays]: the arrays alive in the interpreter, by reference;
    - [trace]: the effects so far, oldest first. *)
Record World := {
  config : gmap string pyval;
  qi : gmap string pyval;
  images : Dict.t string;
  arrays : gmap ref ndarray;
  trace : list Event
}.

Definition with_config (f : gmap string pyval -> gmap string pyval) (w : World) : World :=
  {| config := f (config w); qi := qi w; images := images w;
     arrays := arrays w; trace := trace w |}.
Definition with_qi (f : gmap string pyval -> gmap string pyval) (w : World) : World :=
  {| config := config w; qi := f (qi w); images := images w;
     arrays := arrays w; trace := trace w |}.
Definition with_images (f : Dict.t string -> Dict.t string) (w : World) : World :=
  {| config := config w; qi := qi w; images := f (images w);
     arrays := arrays w; trace := trace w |}.
Definition with_arrays (f : gmap ref ndarray -> gmap ref ndarray) (w : World) : World :=
  {| config := config w; qi := qi w; images := images w;
     arrays := f (arrays w); trace := trace w |}.
Definition with_trace (f : list Event -> list Event) (w : World) : World :=
  {| config := config w; qi := qi w; images := images w;
     arrays := arrays w; trace := f (trace w) |}.

(** A statement either completes with a value or raises; both leave a
    state behind. *)
Inductive res (A : Type) :=
  | Ok (a : A) (w : World)
  | Raise (e : exn) (w : World).
Arguments Ok {A} a w.
Arguments Raise {A} e w.

Definition M (A : Type) : Type := World -> res A.

#[global] Instance M_ret : MRet M := fun A a w => Ok a w.
#[global] Instance M_bind : MBind M := fun A B f m w =>
  match m w with
  | Ok a w' => f a w'
  | Raise e w' => Raise e w'
  end.

Definition ret {A} (a : A) : M A := mret a.
Definition raise {A} (e : exn) : M A := fun w => Raise e w.
Definition gets {A} (f : World -> A) : M A := fun w => Ok (f w) w.
Definition modify (f : World -> World) : M unit := fun w => Ok tt (f w).

(** An optional value that must be there, else the given exception. *)
Definition expect {A} (e : exn) (o : option A) : M A :=
  match o with Some a => ret a | None => raise e end.

Definition state_of {A} (r : res A) : World :=
  match r with Ok _ w => w | Raise _ w => w end.

Definition emit (ev : Event) : M unit := modify (with_trace (fun t => (t ++ [ev])%list)).

(** [log.debug], [log.info], [log.error] *)
Definition log (l : level) (template : string) (args : list pyval) : M unit :=
  emit (Log l template args).

(* ===================================================================== *)
(** ** The configuration store and the quality indicators *)

(** Modelled from the spec: [core.S2L_config.config], the run-wide
    configuration store with get/set (its module is not part of the two
    files).  [get] answers the value last [set] under the key, and the
    default where there is none. *)
Definition config_get (key : string) (dflt : pyval) : M pyval :=
  gets (fun w => default dflt (config w !! key)).

Definition config_set (key : string) (v : pyval) : M unit :=
  modify (with_config (insert key v)).

(** Modelled from the spec: [core.QI_MTD.mtd.metadata.qi], the dictionary
    of quality-indicator fields.  [metadata.qi[key] = v] *)
Definition qi_set (key : string) (v : pyval) : M unit :=
  modify (with_qi (insert key v)).

(* ===================================================================== *)
(** ** Arrays *)

Definition map2d {A B} (f : A -> B) (a : list (list A)) : list (list B) :=
  map (map f) a.

Definition zip2d {A B C} (f : A -> B -> C) (a : list (list A)) (b : list (list B))
  : list (list C) :=
  zip_with (zip_with f) a b.

(** Pixel [(i, j)] of a grid. *)
Definition pixel {A} (a : list (list A)) (i j : nat) : option A :=
  a !! i ≫= (fun row => row !! j).

Module np.
(** [np.arange(n)] *)
Definition arange (n : nat) : list Z := map Z.of_nat (seq 0 n).

(** [np.zeros(n)] *)
Definition zeros (n : nat) : list float := replicate n Float.pzero.

(** [np.float32(a)] *)
Definition float32 (a : ndarray) : ndarray := map2d (Float.cast f32) a.

(** How NumPy types an operation between a float64 scalar and an array:
    by the value of the scalar (NumPy 1, value-based casting) or by its
    type alone (NumPy 2, NEP 50). *)
Inductive promotion := value_based | nep50.

(** The literal [3.4e38] of [min_scalar_type]. *)
Definition float32_bound : float := Float.of_Z f64 (34 * 10 ^ 37).

(** [np.min_scalar_type(c)] is no wider than float32: [c] is not finite,
    or [-3.4e38 < c < 3.4e38]. *)
Definition fits_float32 (c : float) : bool :=
  negb (Float.is_finite c) ||
  (Float.ltb (Float.opp float32_bound) c && Float.ltb c float32_bound).

(** The type of [c (op) a] for a float64 scalar [c] and an array [a] of
    the type [fmt] (float32 or float64).  Value-based: the type of the
    array when the scalar fits float32, float64 otherwise.  NEP 50:
    float64. *)
Definition result_type (rule : promotion) (c : float) (fmt : Float.format) : Float.format :=
  match rule with
  | value_based => if fits_float32 c then fmt else f64
  | nep50 => f64
  end.

(** [c * a] and [c + a] for a float64 scalar [c] and an array [a] of the
    type [from], computed in the type [to] of the result: both operands
    are converted to it first. *)
Definition scalar_mul (from to : Float.format) (c : float) (a : ndarray) : ndarray :=
  map2d (fun x => Float.mul to (Float.convert f64 to c) (Float.convert from to x)) a.

Definition scalar_add (from to : Float.format) (c : float) (a : ndarray) : ndarray :=
  map2d (fun x => Float.add to (Float.convert f64 to c) (Float.convert from to x)) a.

(** [a + b] for an array of the type [fa] and one of the type [fb],
    computed in the wider of the two *)
Definition add (fa fb : Float.format) (a b : ndarray) : ndarray :=
  let to := Float.wider fa fb in
  zip2d (fun x y => Float.add to (Float.convert fa to x) (Float.convert fb to y)) a b.

(** [a ** 2] for a float32 array: the square, in float32 *)
Definition square32 (a : ndarray) : ndarray :=
  map2d (fun x => Float.mul f32 x x) a.

(** [a <= 0] *)
Definition le0 (a : ndarray) : list (list bool) :=
  map2d (fun x => Float.leb x Float.pzero) a.

(** [a[mask] = 0] *)
Definition mask_zero (a : ndarray) (mask : list (list bool)) : ndarray :=
  zip2d (fun x (m : bool) => if m then Float.pzero else x) a mask.
End np.

(** [a[i]] on a Python sequence *)
Definition getitem {A} (a : list A) (i : nat) : M A := expect IndexError (a !! i).

(** An array is reached through its reference; a reference a caller
    holds is alive. *)
Definition deref (r : ref) : M ndarray :=
  fun w => expect Unreachable (arrays w !! r) w.

(** A new array: a reference that no live array has. *)
Definition alloc (a : ndarray) : M ref :=
  fun w => let r := fresh (dom (arrays w)) in Ok r (with_arrays (insert r a) w).

(* ===================================================================== *)
(** ** Collaborators outside the two files *)

(** [atmcor.cams_data_reader.ECMWF_Product]: the handle on the
    atmospheric dataset, built from the source locations and the sensing
    time. *)
Record ECMWF_Product := {
  cams_config : Dict.t pyval;
  observation_datetime : datetime
}.

(** [atmcor.atmospheric_parameters.ATMO_parameter] after [project]: the
    sample at one corner. *)
Record ATMO_parameter := {
  getTotalColumnWaterVapor : float;
  getTotalOzone : float;
  getAirPressure : float;
  aod550 : float
}.

(** The result of [np.polyfit(x, y, deg, full=True)], as far as it is
    read: the coefficients, highest power first, and the residuals. *)
Record PolyFit := {
  pf_coefficients : list float;
  pf_residuals : list float
}.

(** Functions of the repository and of its libraries that the two files
    call and do not define.  What they compute is theirs; what the two
    blocks do with them is below. *)
Class External := {
  (** [datetime.strptime(text, format)]; [None] stands for [ValueError] *)
  strptime : string -> string -> option datetime;
  (** [ECMWF_Product(...).is_valid] *)
  is_valid : ECMWF_Product -> bool;
  (** [ATMO_parameter(ecmwf_data)] followed by [project(lat, lon)] *)
  ATMO_project : ECMWF_Product -> float -> float -> ATMO_parameter;
  (** [ATMO_parameter.compute_model(extent, values)]: the plane
      [c1 * lon + c2 * lat + c3] through the corner values *)
  compute_model : list float -> list float -> float * float * float;
  (** the directory of the [smac] module *)
  smac_directory : string;
  (** [os.path.exists] *)
  path_exists : string -> bool;
  (** [smac.coeff(file)] and [smac.smac_inv(r_toa, theta_s, phi_s, theta_v,
      phi_v, pressure, taup550, uo3, uh2o, coefs)] *)
  smac_coefs : Type;
  smac_coeff : string -> smac_coefs;
  smac_inv : float -> float -> float -> float -> float ->
             float -> float -> float -> float -> smac_coefs -> float;
  (** [np.polyfit] with [full=True] *)
  np_polyfit : list float -> list float -> nat -> PolyFit;
  (** the rule by which the NumPy at hand types a [float64 scalar (op)
      array] operation *)
  casting : np.promotion;
  (** [config.getboolean(key)], as a function of what the store holds
      under the key: a value, or nothing *)
  getboolean : option pyval -> bool;
  (** [S2L_ImageFile.write(...)]: the image object after the call *)
  image_written : S2L_ImageFile -> option string -> S2L_ImageFile;
  (** [S2L_ImageFile(path)] *)
  image_open : string -> S2L_ImageFile;
  (** [mgrs_framing.resample(image, res, path)] *)
  resample : S2L_ImageFile -> Z -> string -> S2L_ImageFile;
  (** [str(x)] for a float *)
  float_str : float -> string;
  (** whether a call that reads or writes files fails *)
  io_fails : Event -> bool
}.

Section Blocks.
Context `{ext : External}.

(** A call into a collaborator that touches files: it raises, or it
    happens and is recorded. *)
Definition io (ev : Event) : M unit :=
  if io_fails ev then raise OSError else emit ev.

Definition config_getboolean (key : string) : M bool :=
  gets (fun w => getboolean (config w !! key)).

(* ===================================================================== *)
(** ** S2L_Atmcor.py *)

(** [get_cams_configuration()] *)
Definition get_cams_configuration : M (Dict.t pyval) :=
  d ← config_get "cams_dir" VNone;
  h ← config_get "cams_hourly_dir" VNone;
  a ← config_get "cams_daily_dir" VNone;
  c ← config_get "cams_climatology_dir" VNone;
  ret [("default", d); ("hourly", h); ("daily", a); ("climatology", c)].

(** The dictionary it answers, as a function of the store. *)
Definition cams_of (cfg : gmap string pyval) : Dict.t pyval :=
  [("default", default VNone (cfg !! "cams_dir"));
   ("hourly", default VNone (cfg !! "cams_hourly_dir"));
   ("daily", default VNone (cfg !! "cams_daily_dir"));
   ("climatology", default VNone (cfg !! "cams_climatology_dir"))].

(** [get_smac_coefficients(product, band)] *)
Definition get_smac_coefficients (product : S2L_Product) (band : string) : option string :=
  match get_smac_filename product band with
  | None => None
  | Some filename =>
      let smac_file := Py.path_join smac_directory ["COEFS"; filename] in
      if path_exists smac_file then Some smac_file else None
  end.

(** The scene-level atmospheric state: uH2O, uO3, pressure, taup550. *)
Record AtmosphericState := {
  uH2O : float;
  uO3 : float;
  pressure : float;
  taup550 : float
}.

(** The constants of the [else] branch. *)
Definition constant_values : AtmosphericState :=
  {| uH2O := Float.dec 20 1;
     uO3 := Float.dec 331 3;
     pressure := Float.dec 1013095 3;
     taup550 := Float.dec 2 1 |}.

(** The state of the corner loop: the running scene centre and the four
    columns of corner values. *)
Record Corners := {
  lon_sc : float; lat_sc : float;
  v_ctwv : list float; v_gtc03 : list float; v_msl : list float; v_aot : list float
}.

Definition quarter : float := Float.dec 25 2.

(** One turn of [for index in range(4)] *)
Definition corner_step (ecmwf_data : ECMWF_Product) (extent : list float)
    (c : Corners) (i : nat) : M Corners :=
  x ← getitem extent (2 * i)%nat;
  let lon_sc' := Float.add f64 (lon_sc c) (Float.mul f64 x quarter) in
  y ← getitem extent (2 * i + 1)%nat;
  let lat_sc' := Float.add f64 (lat_sc c) (Float.mul f64 y quarter) in
  lon ← getitem extent (2 * i)%nat;
  lat ← getitem extent (2 * i + 1)%nat;
  let atmo := ATMO_project ecmwf_data lat lon in
  ret {| lon_sc := lon_sc'; lat_sc := lat_sc';
          v_ctwv := <[i := getTotalColumnWaterVapor atmo]> (v_ctwv c);
          v_gtc03 := <[i := getTotalOzone atmo]> (v_gtc03 c);
          v_msl := <[i := getAirPressure atmo]> (v_msl c);
          v_aot := <[i := aod550 atmo]> (v_aot c) |}.

(** A [for] loop over a list of indices, threading a value. *)
Fixpoint for_each {A B} (body : B -> A -> M B) (l : list A) (b : B) : M B :=
  match l with
  | [] => ret b
  | a :: rest => b' ← body b a; for_each body rest b'
  end.

(** The plane through the corner values, at the scene centre:
    [c1 * lon_sc + c2 * lat_sc + c3], then element [0]. *)
Definition estimate (extent : list float) (values : list float) (c : Corners) : float :=
  let '(c1, c2, c3) := compute_model extent values in
  Float.add f64 (Float.add f64 (Float.mul f64 c1 (lon_sc c)) (Float.mul f64 c2 (lat_sc c))) c3.

(** The [if ecmwf_data.is_valid: ... else: ...] statement.  The four
    columns start as [np.empty((4, 1))]; the loop assigns each of their
    cells before any is read, so what they hold at first, zeros here,
    does not matter. *)
Definition atmospheric_state (ecmwf_data : ECMWF_Product) (extent : list float)
  : M AtmosphericState :=
  if is_valid ecmwf_data then
    let start := {| lon_sc := Float.of_Z f64 0; lat_sc := Float.of_Z f64 0;
                    v_ctwv := np.zeros 4; v_gtc03 := np.zeros 4;
                    v_msl := np.zeros 4; v_aot := np.zeros 4 |} in
    c ← for_each (corner_step ecmwf_data extent) (seq 0 4) start;
    let estimate_ctwv := estimate extent (v_ctwv c) c in
    let estimate_gtc03 := estimate extent (v_gtc03 c) c in
    let estimate_msl := estimate extent (v_msl c) c in
    let estimate_aot := estimate extent (v_aot c) c in
    _ ← log INFO " Results : " [];
    _ ← log INFO "Estimate Total colum water vapor: {}" [VFloat estimate_ctwv];
    _ ← log INFO "Estimate Ozone content (cm-atm) : {}" [VFloat estimate_gtc03];
    _ ← log INFO "Estimate Pression (hpa)         : {}" [VFloat estimate_msl];
    _ ← log INFO "Estimate Aot 550 nm             : {}" [VFloat estimate_aot];
    ret {| uH2O := estimate_ctwv; uO3 := estimate_gtc03;
            pressure := estimate_msl; taup550 := estimate_aot |}
  else
    _ ← log ERROR "!! No cams data found" [];
    _ ← log ERROR "!! Use Constant values" [];
    ret constant_values.

(** [r_toa = np.arange(101) / 100.] *)
Definition r_toa : list float :=
  map (fun i => Float.div f64 (Float.of_Z f64 i) (Float.of_Z f64 100)) (np.arange 101).

(** The loop [for i in range(101): r_surf_SMAC[i] = smac.smac_inv(r_toa[i], ...)]
    over [r_surf_SMAC = np.zeros(101)]. *)
Definition r_surf_SMAC_loop (inv : float -> float) (toa : list float) : list float :=
  fold_left (fun r_surf i => <[i := inv (toa !!! i)]> r_surf) (seq 0 101) (np.zeros 101).

(** The correspondence between TOA and surface reflectance and its fit:
    [r_toa], [r_surf_SMAC] and [poly_coefs]. *)
Record CorrectionCurve := {
  curve_toa : list float;
  curve_surf : list float;
  poly_coefs : PolyFit
}.

Definition correction_curve (theta_s phi_s : float) (atm : AtmosphericState)
    (coefs : smac_coefs) : CorrectionCurve :=
  let theta_v := Float.of_Z f64 0 in
  let phi_v := Float.of_Z f64 0 in
  let r_surf_SMAC :=
    r_surf_SMAC_loop
      (fun r => smac_inv r theta_s phi_s theta_v phi_v
                  (pressure atm) (taup550 atm) (uO3 atm) (uH2O atm) coefs)
      r_toa in
  {| curve_toa := r_toa;
     curve_surf := r_surf_SMAC;
     poly_coefs := np_polyfit r_toa r_surf_SMAC 2 |}.

(** The last statements: the fitted relation applied to the image band,
    [surf_ref = c0 + c1 * Bands_toa + c2 * Bands_toa ** 2], and the mask.
    Python evaluates [(c0 + (c1 * Bands_toa)) + (c2 * (Bands_toa ** 2))];
    each of the four operations has the type NumPy gives it. *)
Definition apply_fit (c0 c1 c2 : float) (array_in : ndarray) : ndarray :=
  let Bands_toa := np.float32 array_in in
  (* c1 * Bands_toa *)
  let t1 := np.result_type casting c1 f32 in
  let linear := np.scalar_mul f32 t1 c1 Bands_toa in
  (* c0 + ... *)
  let t0 := np.result_type casting c0 t1 in
  let affine := np.scalar_add t1 t0 c0 linear in
  (* c2 * Bands_toa ** 2 *)
  let t2 := np.result_type casting c2 f32 in
  let square := np.scalar_mul f32 t2 c2 (np.square32 Bands_toa) in
  let surf_ref := np.add t0 t2 affine square in
  let mask := np.le0 Bands_toa in
  np.mask_zero surf_ref mask.

(** [smac_correction(product, array_in, extent, band)] *)
Definition smac_correction (product : S2L_Product) (array_in : ref)
    (extent : list float) (band : string) : M ref :=
  _ ← log DEBUG "SMAC Correction" [];
  let mtl := mtl product in
  let obs := observation_date mtl ++ "T" ++ scene_center_time mtl in
  obs_datetime ← expect ValueError (strptime obs "%Y-%m-%dT%H:%M:%S.%fZ");
  cams ← get_cams_configuration;
  let ecmwf_data := {| cams_config := cams; observation_datetime := obs_datetime |} in
  atm ← atmospheric_state ecmwf_data extent;
  _ ← config_set "uH2O" (VFloat (uH2O atm));
  _ ← config_set "uO3" (VFloat (uO3 atm));
  _ ← config_set "pressure" (VFloat (pressure atm));
  _ ← config_set "taup550" (VFloat (taup550 atm));
  let theta_s := sun_zenith_angle mtl in
  let phi_s := sun_azimuth_angle mtl in
  let coef_file := get_smac_coefficients product band in
  _ ← log DEBUG "{}" [from_option VStr VNone coef_file];
  match coef_file with
  | None =>
      _ ← log ERROR "No smac coefficients for {}" [VStr band];
      ret array_in
  | Some coef_file =>
      let curve := correction_curve theta_s phi_s atm (smac_coeff coef_file) in
      let p := pf_coefficients (poly_coefs curve) in
      a ← deref array_in;
      c0 ← getitem p 2;
      c1 ← getitem p 1;
      c2 ← getitem p 0;
      let surf_ref := apply_fit c0 c1 c2 a in
      residual ← getitem (pf_residuals (poly_coefs curve)) 0;
      _ ← emit (LogFit band c0 c1 c2 residual);
      alloc surf_ref
  end.

(** [S2L_Atmcor.postprocess(product)] *)
Definition S2L_Atmcor_postprocess (product : S2L_Product) : M unit :=
  use_sen2cor ← config_getboolean "use_sen2cor";
  if (use_sen2cor : bool) then
    qi_set "AC_PROCESSOR" (VStr "SEN2COR")
  else
    use_smac ← config_getboolean "use_smac";
    if (use_smac : bool) then
      _ ← qi_set "AC_PROCESSOR" (VStr "SMAC");
      wv ← config_get "uH2O" VNone;
      _ ← qi_set "GRANULE_MEAN_WV" wv;
      o3 ← config_get "uO3" VNone;
      _ ← qi_set "OZONE_VALUE" o3;
      p ← config_get "pressure" VNone;
      _ ← qi_set "PRESSURE" p;
      aot ← config_get "taup550" VNone;
      qi_set "GRANULE_MEAN_AOT" aot
    else ret tt.

(* ===================================================================== *)
(** ** S2L_Packager.py *)

(** [images = {}] in the body of the class: the dictionary that every
    instance shares, as it is when the module has been imported. *)
Definition S2L_Packager_images : Dict.t string := Dict.empty.

(** [int(v)] *)
Definition py_int (v : pyval) : M Z :=
  match v with
  | VInt n => ret n
  | VBool b => ret (if b then 1 else 0)
  | VFloat x =>
      match x with
      | S754_nan => raise ValueError
      | S754_infinity _ => raise OverflowError
      | _ => expect Unreachable (Float.trunc x)
      end
  | VStr s => expect ValueError (Py.int_of_string s)
  | VNone => raise TypeError
  end.

(** A value where a [str] is required (a path component). *)
Definition as_str (v : pyval) : M string :=
  match v with VStr s => ret s | _ => raise TypeError end.

(** ['{:0>3}'.format(v)]: the text of the value, right-aligned in a field
    of width 3 filled with zeros; [bool] formats as the [int] it is. *)
Definition format_0gt3 (v : pyval) : M string :=
  match v with
  | VStr s => ret (Py.rjust 3 "0" s)
  | VInt n => ret (Py.rjust 3 "0" (Py.str_int n))
  | VBool b => ret (Py.rjust 3 "0" (if b then "1" else "0"))
  | VFloat x => ret (Py.rjust 3 "0" (float_str x))
  | VNone => raise TypeError
  end.

(** [S2L_Packager.base_path(product)] *)
Definition base_path (product : S2L_Product) : M (string * string) :=
  relative_orbit ← config_get "relative_orbit" VNone;
  let acqdate := strftime_Ymd (acqdate product) in
  let tilecode := mgrs (mtl product) in
  let tilecode := if Py.startswith "T" tilecode then Py.tail1 tilecode else tilecode in
  orbit ← format_0gt3 relative_orbit;
  ret (Py.join "_" ["L2F"; tilecode; acqdate; sensor_name product; "R" ++ orbit], tilecode).

(** ["_".join([outdir, band, '{}m'.format(int(res))]) + '.TIF'] *)
Definition band_file (outdir band : string) (res : Z) : string :=
  Py.join "_" [outdir; band; Py.str_int res ++ "m"] ++ ".TIF".

(** [S2L_Packager.process(product, image, band)].  The product comes back
    with the image: [del product.image30m[band]] changes it. *)
Definition S2L_Packager_process (product : S2L_Product) (image : S2L_ImageFile)
    (band : string) : M (S2L_Product * S2L_ImageFile) :=
  let res := xRes image in
  '(outdir, tilecode) ← base_path product;
  res_int ← py_int (VFloat res);
  let outfile := band_file outdir band res_int in
  archive_dir ← config_get "archive_dir" VNone ≫= as_str;
  let tsdir := Py.path_join archive_dir [tilecode] in
  let newpath := Py.path_join tsdir [outdir; outfile] in
  _ ← log DEBUG ("New: " ++ newpath) [];
  _ ← io (ImageWrite image ["COMPRESS=LZW"] false (Some newpath));
  let image := image_written image (Some newpath) in
  _ ← modify (with_images (Dict.set band (filepath image)));
  _ ← config_set "imageout_dir" (VStr (dirpath image));
  _ ← config_set ("imageout_" ++ band) (VStr (filename image));
  hlsplus ← config_getboolean "hlsplus";
  product ←
    (if (hlsplus : bool) then
       let res := 30 in
       let outfile_30m := band_file outdir band res in
       let newpath_30m := Py.path_join tsdir [outdir; outfile_30m] in
       _ ← (if String.eqb (sensor product) "S2" then
              _ ← log INFO "Resampling to 30m: Start..." [];
              _ ← io (ImageOpen newpath);
              let source := image_open newpath in
              _ ← io (Resample source res newpath_30m);
              let image_30m := resample source res newpath_30m in
              _ ← io (ImageWrite image_30m ["COMPRESS=LZW"] true None);
              log INFO "Resampling to 30m: End" []
            else ret tt);
       if (String.eqb (sensor product) "L8" || String.eqb (sensor product) "L9")
          && Dict.contains band (image30m product) then
         precomputed ← expect KeyError (Dict.get band (image30m product));
         _ ← io (ImageWrite precomputed ["COMPRESS=LZW"] false (Some newpath_30m));
         ret (set_image30m product (Dict.del band (image30m product)))
       else ret product
     else ret product);
  ret (product, image).

(** The quicklook call of [postprocess]:
    [quicklook(product, self.images, band_list, qlpath,
               config.get("quicklook_jpeg_quality", 95),
               offset=int(config.get('offset')))] *)
Definition quicklook (band_list : list string) (qlpath : string) : M unit :=
  imgs ← gets images;
  quality ← config_get "quicklook_jpeg_quality" (VInt 95);
  offset ← config_get "offset" VNone ≫= py_int;
  io (Quicklook imgs band_list qlpath quality offset).

(** [if product.mtl.tile_metadata:] *)
Definition truthy (o : option string) : option string :=
  match o with
  | Some s => if (String.length s =? 0)%nat then None else Some s
  | None => None
  end.

(** [postprocess], lines 93 to 122: the metadata files, the angles file
    and the mask go to the product directory, the configuration and the
    correlation report to the QI directory. *)
Definition copy_auxiliary (product : S2L_Product) (outdir tsdir : string) : M unit :=
  (* MTL files *)
  let outfile := Py.basename (mtl_file_name (mtl product)) in
  _ ← io (Copyfile (mtl_file_name (mtl product)) (Py.path_join tsdir [outdir; outfile]));
  _ ← match truthy (tile_metadata (mtl product)) with
      | Some tile_md =>
          let outfile := Py.basename tile_md in
          io (Copyfile tile_md (Py.path_join tsdir [outdir; outfile]))
      | None => ret tt
      end;
  (* angles file *)
  let outfile := Py.join "_" [outdir; "ANG"] ++ ".TIF" in
  _ ← io (Copyfile (angles_file product) (Py.path_join tsdir [outdir; outfile]));
  (* valid pixel mask *)
  let outfile := Py.join "_" [outdir; "MSK"] ++ ".TIF" in
  _ ← io (Copyfile (mask_filename product) (Py.path_join tsdir [outdir; outfile]));
  (* QI directory *)
  let qipath := Py.path_join tsdir ["QI"] in
  _ ← (if path_exists qipath then ret tt else io (Makedirs qipath));
  (* config file in QI *)
  let cfgname := Py.join "_" [outdir; "INFO"] ++ ".cfg" in
  let cfgpath := Py.path_join tsdir ["QI"; cfgname] in
  wd ← config_get "wd" VNone ≫= as_str;
  _ ← io (Savetofile (Py.path_join wd [name product; cfgpath]));
  (* correl file in QI *)
  wd ← config_get "wd" VNone ≫= as_str;
  if path_exists (Py.path_join wd [name product; "correl_res.txt"]) then
    let corrname := Py.join "_" [outdir; "CORREL"] ++ ".csv" in
    let corrpath := Py.path_join tsdir ["QI"; corrname] in
    wd ← config_get "wd" VNone ≫= as_str;
    io (Copy (Py.path_join wd [name product; "correl_res.txt"]) corrpath)
  else ret tt.

(** [postprocess], lines 124 to 144: the quicklooks. *)
Definition quicklook_selection (outdir tsdir : string) : M unit :=
  imgs ← gets images;
  if (1 <? Dict.len imgs)%nat then
    (* true color QL *)
    let band_list := ["B04"; "B03"; "B02"] in
    let qlname := Py.join "_" [outdir; "QL"; "B432"] ++ ".jpg" in
    let qlpath := Py.path_join tsdir ["QI"; "QL_B432"; qlname] in
    _ ← quicklook band_list qlpath;
    (* false color QL *)
    let band_list := ["B12"; "B11"; "B8A"] in
    let qlname := Py.join "_" [outdir; "QL"; "B12118A"] ++ ".jpg" in
    let qlpath := Py.path_join tsdir ["QI"; "QL_B12118A"; qlname] in
    quicklook band_list qlpath
  else
    (* grayscale QL *)
    let band_list := Dict.keys imgs in
    b0 ← getitem band_list 0;
    let qlname := Py.join "_" [outdir; "QL"; b0] ++ ".jpg" in
    b0' ← getitem band_list 0;
    let qlpath := Py.path_join tsdir ["QI"; "QL_" ++ b0'; qlname] in
    quicklook band_list qlpath.

(** [S2L_Packager.postprocess(product)] *)
Definition S2L_Packager_postprocess (product : S2L_Product) : M unit :=
  '(outdir, tilecode) ← base_path product;
  archive_dir ← config_get "archive_dir" VNone ≫= as_str;
  let tsdir := Py.path_join archive_dir [tilecode] in
  _ ← copy_auxiliary product outdir tsdir;
  _ ← quicklook_selection outdir tsdir;
  (* the packager is the last process *)
  modify (with_images Dict.clear).

(** A product is packaged band after band and then finalized; products
    are packaged one after the other. *)
Fixpoint package_bands (product : S2L_Product) (bands : list (S2L_ImageFile * string))
  : M S2L_Product :=
  match bands with
  | [] => ret product
  | (image, band) :: rest =>
      '(product', _) ← S2L_Packager_process product image band;
      package_bands product' rest
  end.

Definition package_product (job : S2L_Product * list (S2L_ImageFile * string)) : M unit :=
  product ← package_bands (fst job) (snd job);
  S2L_Packager_postprocess product.

Fixpoint package_all (jobs : list (S2L_Product * list (S2L_ImageFile * string))) : M unit :=
  match jobs with
  | [] => ret tt
  | job :: rest => _ ← package_product job; package_all rest
  end.

End Blocks.

(* ===================================================================== *)
(** ** S2L_Atmcor.process *)

(** What [S2L_Atmcor.process] asks of the image and of its base class
    [S2L_Process], which the two files do not define. *)
Class Imaging := {
  (** [image.getCorners(outEPSG=4326)] *)
  getCorners : S2L_ImageFile -> list float;
  (** [self.output_file(product, band)] *)
  output_file : S2L_Product -> string -> string;
  (** [image.duplicate(filepath, array)] *)
  duplicate : S2L_ImageFile -> string -> ref -> S2L_ImageFile
}.

Section Process.
Context `{ext : External} `{img : Imaging}.

(** [S2L_Atmcor.process(product, image, band)] *)
Definition S2L_Atmcor_process (product : S2L_Product) (image : S2L_ImageFile)
    (band : string) : M S2L_ImageFile :=
  _ ← log INFO "Start" [];
  use_smac ← config_getboolean "use_smac";
  out_image ←
    (if (use_smac : bool) then
       (* SMAC correction *)
       let extent := getCorners image in
       let array_in := array image in
       array_out ← smac_correction product array_in extent band;
       let out_image := duplicate image (output_file product band) array_out in
       generate ← config_getboolean "generate_intermediate_products";
       _ ← (if (generate : bool)
            then io (ImageWrite image ["COMPRESS=LZW"] false None)
            else ret tt);
       ret out_image
     else
       _ ← log INFO "Atmo corr already done with sen2cor" [];
       ret image);
  _ ← log INFO "End" [];
  ret out_image.

End Process.

(* ===================================================================== *)
(** ** A concrete run

    Stand-ins for the collaborators, a product and an image, on which the
    blocks can be executed. *)

Module Sample.

Definition sensing_time : datetime := Datetime 2021 5 4 10 20 31 0.

Definition getboolean_of (v : option pyval) : bool :=
  match v with
  | Some (VBool b) => b
  | _ => false
  end.

Definition written (img : S2L_ImageFile) (path : option string) : S2L_ImageFile :=
  match path with
  | Some p => ImageFile (xRes img) p "" (Py.basename p) (array img)
  | None => img
  end.

Definition opened (path : string) : S2L_ImageFile :=
  ImageFile (Float.of_Z f64 10) path "" (Py.basename path) 0%nat.

Definition resampled (img : S2L_ImageFile) (res : Z) (path : string) : S2L_ImageFile :=
  ImageFile (Float.of_Z f64 res) path "" (Py.basename path) (array img).

(** The dataset is valid or not, files exist or not, as the arguments say. *)
Definition collaborators (cams_valid : bool) (present : string -> bool) : External :=
  {| strptime := fun _ _ => Some sensing_time;
     is_valid := fun _ => cams_valid;
     ATMO_project := fun _ lat lon =>
       {| getTotalColumnWaterVapor := Float.dec 15 1; getTotalOzone := Float.dec 3 1;
          getAirPressure := Float.of_Z f64 1000; aod550 := Float.dec 1 1 |};
     compute_model := fun _ values =>
       (Float.pzero, Float.pzero, values !!! 0%nat);
     smac_directory := "/opt/smac";
     path_exists := present;
     smac_coefs := unit;
     smac_coeff := fun _ => tt;
     smac_inv := fun r _ _ _ _ _ _ _ _ _ => r;
     np_polyfit := fun _ _ _ =>
       {| pf_coefficients := [Float.pzero; Float.of_Z f64 1; Float.dec (-1) 2];
          pf_residuals := [Float.pzero] |};
     casting := np.value_based;
     getboolean := getboolean_of;
     image_written := written;
     image_open := opened;
     resample := resampled;
     float_str := fun _ => "nan";
     io_fails := fun _ => false |}.

Definition metadata : MTL :=
  {| observation_date := "2021-05-04";
     scene_center_time := "10:20:31.000000Z";
     sun_zenith_angle := Float.of_Z f64 30;
     sun_azimuth_angle := Float.of_Z f64 150;
     mgrs := "T32TQM";
     mtl_file_name := "/in/S2A/MTD_MSIL1C.xml";
     tile_metadata := Some "/in/S2A/GRANULE/MTD_TL.xml" |}.

(** A product of sensor family [family] with the given precomputed 30 m
    images, for which only the listed bands have SMAC coefficients. *)
Definition product (family sensor_name : string) (coarse : Dict.t S2L_ImageFile)
    (supported : list string) : S2L_Product :=
  {| mtl := metadata;
     acqdate := sensing_time;
     sensor_name := sensor_name;
     sensor := family;
     name := "S2A_MSIL1C_20210504";
     angles_file := "/wd/angles.tif";
     mask_filename := "/wd/mask.tif";
     image30m := coarse;
     get_smac_filename := fun band =>
       if existsb (String.eqb band) supported then Some ("Coef_" ++ band ++ ".dat")
       else None |}.

Definition s2_product : S2L_Product := product "S2" "S2A" [] ["B04"].

(** A Landsat 8 product without precomputed 30 m images, and one that
    carries the image of band B04. *)
Definition l8_product : S2L_Product := product "L8" "LC08" [] [].

Definition l8_product_30m : S2L_Product :=
  product "L8" "LC08"
    [("B04", ImageFile (Float.of_Z f64 30) "/wd/B04_30m.tif" "/wd" "B04_30m.tif" 1%nat)] [].

Definition image (path : string) (a : ref) : S2L_ImageFile :=
  ImageFile (Float.of_Z f64 10) path "" (Py.basename path) a.

Definition settings : gmap string pyval :=
  list_to_map [("relative_orbit", VInt 7); ("archive_dir", VStr "/archive");
               ("wd", VStr "/wd"); ("offset", VStr "0")].

(** One 2 x 3 TOA array is alive, under reference 0. *)
Definition toa : ndarray :=
  [[Float.dec 5 1; Float.pzero; Float.dec (-1) 1];
   [Float.dec 25 2; S754_nan; Float.of_Z f64 1]].

Definition world (cfg : gmap string pyval) : World :=
  {| config := cfg; qi := ∅; images := Dict.empty;
     arrays := {[ 0%nat := toa ]}; trace := [] |}.

Definition extent : list float :=
  map (Float.of_Z f64) [10; 45; 11; 45; 11; 44; 10; 44].

(** The same state with bands already in the registry. *)
Definition packaged (bands : Dict.t string) (cfg : gmap string pyval) : World :=
  {| config := cfg; qi := ∅; images := bands;
     arrays := {[ 0%nat := toa ]}; trace := [] |}.

Definition hls_settings : gmap string pyval := <["hlsplus" := VBool true]> settings.

(** No CAMS data; CAMS data; every file is there in both. *)
Definition without_cams : External := collaborators false (fun _ => true).
Definition with_cams : External := collaborators true (fun _ => true).

(** Two products in a row: one band, then two bands. *)
Definition jobs : list (S2L_Product * list (S2L_ImageFile * string)) :=
  [(s2_product, [(image "/wd/B04.tif" 0%nat, "B04")]);
   (s2_product, [(image "/wd/B04.tif" 0%nat, "B04"); (image "/wd/B03.tif" 0%nat, "B03")])].

(** The coefficient file of band B04, and registries of one and of two
    bands. *)
Definition coef_B04 : string := "/opt/smac/COEFS/Coef_B04.dat".

Definition one_band : Dict.t string := [("B04", "/archive/32TQM/B04.TIF")].

Definition two_bands : Dict.t string :=
  [("B04", "/archive/32TQM/B04.TIF"); ("B8A", "/archive/32TQM/B8A.TIF")].

(** The corners of every image are the sample extent; the output file of
    a band is named after it; a duplicate is the image with another path
    and another array. *)
Definition imaging : Imaging :=
  {| getCorners := fun _ => extent;
     output_file := fun _ band => "/wd/atmcor_" ++ band ++ ".tif";
     duplicate := fun img path a => ImageFile (xRes img) path "/wd" (Py.basename path) a |}.

(** The same collaborators with another [strptime] and other failures of
    file operations. *)
Definition override (e : External) (parse : string -> string -> option datetime)
    (fails : Event -> bool) : External :=
  {| strptime := parse;
     is_valid := @is_valid e;
     ATMO_project := @ATMO_project e;
     compute_model := @compute_model e;
     smac_directory := @smac_directory e;
     path_exists := @path_exists e;
     smac_coefs := @smac_coefs e;
     smac_coeff := @smac_coeff e;
     smac_inv := @smac_inv e;
     np_polyfit := @np_polyfit e;
     casting := @casting e;
     getboolean := @getboolean e;
     image_written := @image_written e;
     image_open := @image_open e;
     resample := @resample e;
     float_str := @float_str e;
     io_fails := fails |}.

(** No sensing time can be parsed; no image can be written. *)
Definition unparsable : External := override without_cams (fun _ _ => None) (fun _ => false).

Definition failing_writes : External :=
  override without_cams (fun _ _ => Some sensing_time)
    (fun ev => match ev with ImageWrite _ _ _ _ => true | _ => false end).

(** The store with the SMAC correction switched on, and with intermediate
    products besides. *)
Definition smac_settings : gmap string pyval := <["use_smac" := VBool true]> settings.

Definition smac_settings_intermediate : gmap string pyval :=
  <["generate_intermediate_products" := VBool true]> smac_settings.

End Sample.

(* ===================================================================== *)
(** ** Vocabulary of the properties *)

(** [nearest num den x]: [x] is a binary64 number that differs from the
    fraction [num / den] by at most half a unit in its last place, as the
    correctly rounded value of the fraction does. *)
Definition nearest (num den : Z) (x : float) : bool :=
  Float.valid f64 x &&
  match Float.exact x with
  | Some (n, k) => 2 * Z.abs (n * den - num * 2 ^ k) <=? den
  | None => false
  end.

(** The store after the four [config.set] of [smac_correction]. *)
Definition record_state (atm : AtmosphericState) (cfg : gmap string pyval)
  : gmap string pyval :=
  <["taup550" := VFloat (taup550 atm)]>
    (<["pressure" := VFloat (pressure atm)]>
       (<["uO3" := VFloat (uO3 atm)]>
          (<["uH2O" := VFloat (uH2O atm)]> cfg))).

(** [c0 + c1 * t + c2 * t ** 2] for a float32 pixel [t] and float64
    coefficients, all of it in the arithmetic of one format [fmt]: the
    coefficients and the pixel are converted to it first. *)
Definition quadratic_in (fmt : Float.format) (c0 c1 c2 t : float) : float :=
  Float.add fmt
    (Float.add fmt (Float.convert f64 fmt c0)
       (Float.mul fmt (Float.convert f64 fmt c1) (Float.convert f32 fmt t)))
    (Float.mul fmt (Float.convert f64 fmt c2) (Float.convert f32 fmt (Float.mul f32 t t))).

(** The same polynomial as NumPy evaluates it under the rule [rule]:
    the product [c1 * t] in the type [t1] that [c1] and float32 give,
    the sum with [c0] in the type [t0] that [c0] and [t1] give, the
    product of [c2] and the float32 square in the type [t2] that [c2]
    and float32 give, and the last sum in the wider of [t0] and [t2]. *)
Definition quadratic (rule : np.promotion) (c0 c1 c2 t : float) : float :=
  let t1 := np.result_type rule c1 f32 in
  let t0 := np.result_type rule c0 t1 in
  let t2 := np.result_type rule c2 f32 in
  let to := Float.wider t0 t2 in
  Float.add to
    (Float.convert t0 to
       (Float.add t0 (Float.convert f64 t0 c0)
          (Float.convert t1 t0
             (Float.mul t1 (Float.convert f64 t1 c1) (Float.convert f32 t1 t)))))
    (Float.convert t2 to
       (Float.mul t2 (Float.convert f64 t2 c2) (Float.convert f32 t2 (Float.mul f32 t t)))).

(** The surface value of one TOA pixel: 0 where the float32 pixel is
    [<= 0], the fitted polynomial elsewhere. *)
Definition surface (rule : np.promotion) (c0 c1 c2 x : float) : float :=
  let t := Float.cast f32 x in
  if Float.leb t Float.pzero then Float.pzero else quadratic rule c0 c1 c2 t.

(** The sign of a number that has one. *)
Definition has_sign (sx : bool) (x : float) : Prop :=
  match x with
  | S754_zero s | S754_infinity s | S754_finite s _ _ => s = sx
  | S754_nan => False
  end.

(** The quicklook calls among the effects. *)
Definition is_quicklook (ev : Event) : bool :=
  match ev with Quicklook _ _ _ _ _ => true | _ => false end.

Definition quicklooks (t : list Event) : list Event := List.filter is_quicklook t.

(** The text of the sensing time handed to [strptime], and its format. *)
Definition obs_of (product : S2L_Product) : string :=
  observation_date (mtl product) ++ "T" ++ scene_center_time (mtl product).

Definition obs_format : string := "%Y-%m-%dT%H:%M:%S.%fZ".

(** The state in which [smac_correction] resolves the atmospheric state:
    its first log record has been emitted. *)
Definition entry (w : World) : World :=
  with_trace (fun t => (t ++ [Log DEBUG "SMAC Correction" []])%list) w.

(** The handle [ECMWF_Product(cams_config=get_cams_configuration(),
    observation_datetime=obs_datetime)]. *)
Definition ecmwf_data (w : World) (d : datetime) : ECMWF_Product :=
  {| cams_config := cams_of (config w); observation_datetime := d |}.

(** [smac.smac_inv] at the arguments [smac_correction] gives it: the sun
    angles of the metadata, the nadir view, the atmospheric state. *)
Definition inversion `{ext : External} (product : S2L_Product) (atm : AtmosphericState)
    (coefs : smac_coefs) (r : float) : float :=
  smac_inv r (sun_zenith_angle (mtl product)) (sun_azimuth_angle (mtl product))
    (Float.of_Z f64 0) (Float.of_Z f64 0)
    (pressure atm) (taup550 atm) (uO3 atm) (uH2O atm) coefs.

(** The curve [smac_correction] builds for a product, an atmospheric
    state and a coefficient file. *)
Definition curve_of `{ext : External} (product : S2L_Product) (atm : AtmosphericState)
    (f : string) : CorrectionCurve :=
  correction_curve (sun_zenith_angle (mtl product)) (sun_azimuth_angle (mtl product))
    atm (smac_coeff f).

(** NumPy's contract for a quadratic fit of 101 samples at distinct
    abscissas: three coefficients and one residual. *)
Definition fit_shape `{ext : External} : Prop :=
  forall ys, length ys = 101%nat ->
    length (pf_coefficients (np_polyfit r_toa ys 2)) = 3%nat /\
    length (pf_residuals (np_polyfit r_toa ys 2)) = 1%nat.

(** *** Names and paths of the packager *)

(** The text of the relative orbit the store holds: the decimal digits of
    an int that is not negative, or a string as it is. *)
Definition orbit_digits (v : pyval) : option string :=
  match v with
  | VInt n => if 0 <=? n then Some (Py.str_int n) else None
  | VStr s => Some s
  | _ => None
  end.

(** The tile code without its leading [T], if it has one. *)
Definition tile_token (tile : string) : string :=
  match tile with
  | String "T" rest => rest
  | _ => tile
  end.

(** The name of the product directory, token after token: the tag, the
    tile, the date, the sensor and the orbit on three characters. *)
Definition product_dir (tile : string) (d : datetime) (sensor digits : string) : string :=
  "L2F" ++ "_" ++ tile_token tile ++ "_" ++ strftime_Ymd d ++ "_" ++ sensor ++ "_" ++
  "R" ++ Py.rjust 3 "0" digits.

(** The name of a band file, token after token: the tokens of the
    directory, then the band and the resolution. *)
Definition band_file_name (tile : string) (d : datetime) (sensor digits band : string)
    (res : Z) : string :=
  product_dir tile d sensor digits ++ "_" ++ band ++ "_" ++ Py.str_int res ++ "m" ++ ".TIF".

(** [outdir], [tsdir] and [newpath] of [process] and [postprocess], for
    the orbit text and the archive directory of the store. *)
Definition outdir_of (product : S2L_Product) (digits : string) : string :=
  product_dir (mgrs (mtl product)) (acqdate product) (sensor_name product) digits.

Definition tsdir_of (product : S2L_Product) (archive : string) : string :=
  Py.path_join archive [tile_token (mgrs (mtl product))].

Definition band_path (product : S2L_Product) (archive digits band : string) (res : Z) : string :=
  Py.path_join (tsdir_of product archive)
    [outdir_of product digits;
     band_file_name (mgrs (mtl product)) (acqdate product) (sensor_name product) digits band res].

(** The store names the files: it holds a relative orbit that has a
    decimal text and an archive directory that is a string. *)
Definition packager_ready (w : World) (digits archive : string) : Prop :=
  (exists v, config w !! "relative_orbit" = Some v /\ orbit_digits v = Some digits) /\
  config w !! "archive_dir" = Some (VStr archive).

(** What [process] does first: it logs the path and writes the band. *)
Definition primary_write (image : S2L_ImageFile) (newpath : string) : list Event :=
  [Log DEBUG ("New: " ++ newpath) []; ImageWrite image ["COMPRESS=LZW"] false (Some newpath)].

(** The two tests on [product.sensor]. *)
Definition family_S2 (product : S2L_Product) : bool := String.eqb (sensor product) "S2".

Definition family_L8_L9 (product : S2L_Product) : bool :=
  String.eqb (sensor product) "L8" || String.eqb (sensor product) "L9".

(** The body of [if product.sensor == 'S2':], when nothing fails. *)
Definition resampled_output `{ext : External} (newpath newpath_30m : string) : list Event :=
  [Log INFO "Resampling to 30m: Start..." [];
   ImageOpen newpath;
   Resample (image_open newpath) 30 newpath_30m;
   ImageWrite (resample (image_open newpath) 30 newpath_30m) ["COMPRESS=LZW"] true None;
   Log INFO "Resampling to 30m: End" []].

(** The write of [if product.sensor in ('L8', 'L9') and band in
    product.image30m:], when the product holds the image. *)
Definition precomputed_output (product : S2L_Product) (band newpath_30m : string)
  : list Event :=
  match Dict.get band (image30m product) with
  | Some precomputed => [ImageWrite precomputed ["COMPRESS=LZW"] false (Some newpath_30m)]
  | None => []
  end.

(** What [process] does after the band itself, and the product it
    leaves, when nothing fails. *)
Definition secondary_output `{ext : External} (hlsplus : bool) (product : S2L_Product)
    (band newpath newpath_30m : string) : list Event :=
  if hlsplus then
    ((if family_S2 product then resampled_output newpath newpath_30m else []) ++
     (if family_L8_L9 product then precomputed_output product band newpath_30m else []))%list
  else [].

Definition product_after (hlsplus : bool) (product : S2L_Product) (band : string)
  : S2L_Product :=
  if hlsplus && family_L8_L9 product && Dict.contains band (image30m product)
  then set_image30m product (Dict.del band (image30m product))
  else product.

(** [os.path.join(tsdir, 'QI', 'QL_<code>', '<outdir>_QL_<code>.jpg')] *)
Definition quicklook_path (tsdir outdir code : string) : string :=
  Py.path_join tsdir ["QI"; "QL_" ++ code; Py.join "_" [outdir; "QL"; code] ++ ".jpg"].

(** [config.get("quicklook_jpeg_quality", 95)] *)
Definition quality_of (w : World) : pyval :=
  default (VInt 95) (config w !! "quicklook_jpeg_quality").

(** The store has what [postprocess] reads: the names, a working
    directory that is a string and an offset that [int] accepts. *)
Definition finalize_ready (w : World) (digits archive wd : string) (offset : Z) : Prop :=
  packager_ready w digits archive /\
  config w !! "wd" = Some (VStr wd) /\
  (forall w0, py_int (default VNone (config w !! "offset")) w0 = Ok offset w0).

(** The call [quicklook(product, self.images, band_list, qlpath, quality,
    offset=offset)] in a state. *)
Definition quicklook_of (w : World) (band_list : list string) (qlpath : string)
    (offset : Z) : Event :=
  Quicklook (images w) band_list qlpath (quality_of w) offset.

(** Two states that differ by their effects only. *)
Definition same_store (w w' : World) : Prop :=
  config w' = config w /\ qi w' = qi w /\ images w' = images w /\ arrays w' = arrays w.

(** The scene centre and the four columns of corner values after the
    corner loop on an extent of four corners. *)
Definition scene_centre `{ext : External} (e : ECMWF_Product) (x0 y0 x1 y1 x2 y2 x3 y3 : float)
  : Corners :=
  let sum a b c d :=
    Float.add f64 (Float.add f64 (Float.add f64 (Float.add f64 (Float.of_Z f64 0)
      (Float.mul f64 a quarter)) (Float.mul f64 b quarter)) (Float.mul f64 c quarter))
      (Float.mul f64 d quarter) in
  let column (get : ATMO_parameter -> float) :=
    [get (ATMO_project e y0 x0); get (ATMO_project e y1 x1);
     get (ATMO_project e y2 x2); get (ATMO_project e y3 x3)] in
  {| lon_sc := sum x0 x1 x2 x3; lat_sc := sum y0 y1 y2 y3;
     v_ctwv := column getTotalColumnWaterVapor; v_gtc03 := column getTotalOzone;
     v_msl := column getAirPressure; v_aot := column aod550 |}.


(** The state in which [S2L_Atmcor.process] runs the correction: its
    first record has been logged. *)
Definition started (w : World) : World :=
  with_trace (fun t => (t ++ [Log INFO "Start" []])%list) w.

(** The paths the configuration has been saved to, among the effects. *)
Definition snapshots (t : list Event) : list string :=
  omap (fun ev => match ev with Savetofile p => Some p | _ => None end) t.

(** [cfgpath]: where [postprocess] means to save the configuration. *)
Definition snapshot_path (tsdir outdir : string) : string :=
  Py.path_join tsdir ["QI"; Py.join "_" [outdir; "INFO"] ++ ".cfg"].

(* ===================================================================== *)
(** ** Strings *)

Lemma append_assoc (a b c : string) : (a ++ b) ++ c = a ++ b ++ c.
Proof.
  induction a as [|x a IH]; [reflexivity |].
  change (String x ((a ++ b) ++ c) = String x (a ++ b ++ c)). by rewrite IH.
Qed.

Lemma length_append (a b : string) :
  String.length (a ++ b) = (String.length a + String.length b)%nat.
Proof.
  induction a as [|x a IH]; [reflexivity |].
  change (S (String.length (a ++ b)) = S (String.length a + String.length b)).
  by rewrite IH.
Qed.

(** The proofs below unfold these by hand. *)
#[global] Arguments Float.add : simpl never.
#[global] Arguments Float.mul : simpl never.
#[global] Arguments Float.div : simpl never.
#[global] Arguments Float.cast : simpl never.
#[global] Arguments Float.of_Z : simpl never.
#[global] Arguments Float.dec : simpl never.
#[global] Arguments Float.trunc : simpl never.
#[global] Arguments Py.join : simpl never.
#[global] Arguments Py.path_join : simpl never.
#[global] Arguments Py.basename : simpl never.
#[global] Arguments Py.str_int : simpl never.
#[global] Arguments Py.rjust : simpl never.
#[global] Arguments Py.startswith : simpl never.
#[global] Arguments Py.int_of_string : simpl never.
#[global] Arguments String.append : simpl never.
#[global] Arguments strftime_Ymd : simpl never.
#[global] Arguments correction_curve : simpl never.
#[global] Arguments apply_fit : simpl never.
#[global] Arguments get_smac_coefficients : simpl never.
#[global] Arguments estimate : simpl never.
#[global] Arguments quarter : simpl never.
#[global] Arguments constant_values : simpl never.
#[global] Arguments r_toa : simpl never.
#[global] Arguments band_file : simpl never.

(* ===================================================================== *)
(** ** Rounding keeps the sign *)

Section Rounding.
Variable prec emax : Z.

Lemma shr_1_nonneg mrs : 0 <= shr_m mrs -> 0 <= shr_m (shr_1 mrs).
Proof.
  destruct mrs as [m r s]; simpl.
  destruct m as [|p|p]; [easy | destruct p; simpl; lia | lia].
Qed.

Lemma iter_pos_shr_1_nonneg p : forall mrs,
  0 <= shr_m mrs -> 0 <= shr_m (SpecFloat.iter_pos shr_1 p mrs).
Proof.
  induction p as [p IH|p IH|]; intros mrs H; simpl.
  - apply IH, IH, shr_1_nonneg, H.
  - apply IH, IH, H.
  - apply shr_1_nonneg, H.
Qed.

Lemma shr_nonneg mrs e n : 0 <= shr_m mrs -> 0 <= shr_m (fst (shr mrs e n)).
Proof.
  intros H. destruct n; simpl; auto using iter_pos_shr_1_nonneg.
Qed.

Lemma shr_record_of_loc_m m l : shr_m (shr_record_of_loc m l) = m.
Proof. destruct l as [|[]]; reflexivity. Qed.

Lemma shr_fexp_nonneg m e l : 0 <= m -> 0 <= shr_m (fst (shr_fexp prec emax m e l)).
Proof.
  intros H. unfold shr_fexp. apply shr_nonneg. now rewrite shr_record_of_loc_m.
Qed.

Lemma round_nearest_even_nonneg m l : 0 <= m -> 0 <= round_nearest_even m l.
Proof. intros H. destruct l as [|[]]; simpl; try lia. destruct (Z.even m); lia. Qed.

(** Rounding a non-negative mantissa never makes a NaN: the result is a
    zero, a finite number or an infinity of the sign given. *)
Lemma binary_round_aux_sign sx mx ex lx :
  0 <= mx -> has_sign sx (binary_round_aux prec emax sx mx ex lx).
Proof.
  intros H. unfold binary_round_aux.
  pose proof (shr_fexp_nonneg mx ex lx H) as H1.
  destruct (shr_fexp prec emax mx ex lx) as [mrs' e']. simpl in H1.
  pose proof (shr_fexp_nonneg _ e' loc_Exact
                (round_nearest_even_nonneg _ (loc_of_shr_record mrs') H1)) as H2.
  destruct (shr_fexp prec emax _ e' loc_Exact) as [mrs'' e'']. simpl in H2.
  destruct (shr_m mrs'') as [|p|p]; simpl; [reflexivity | | lia].
  destruct (e'' <=? emax - prec); reflexivity.
Qed.

Lemma binary_round_sign sx mx ex : has_sign sx (binary_round prec emax sx mx ex).
Proof.
  unfold binary_round. destruct (shl_align _ _ _) as [mz ez].
  apply binary_round_aux_sign. lia.
Qed.
End Rounding.

Lemma has_sign_true_le0 x : has_sign true x -> Float.leb x Float.pzero = true.
Proof.
  destruct x as [s|s| |s m e]; simpl; intros H; try subst; try reflexivity; contradiction.
Qed.

(** A number [<= 0] is still [<= 0] after conversion to any format. *)
Lemma cast_le0 fmt x :
  Float.leb x Float.pzero = true -> Float.leb (Float.cast fmt x) Float.pzero = true.
Proof.
  intros H. destruct x as [s|s| |s m e]; simpl in *; auto.
  destruct s; [| discriminate].
  apply has_sign_true_le0. unfold Float.cast. apply binary_round_sign.
Qed.

Lemma zero_le0 x : Float.is_zero x = true -> Float.leb x Float.pzero = true.
Proof. destruct x; simpl; intros H; try discriminate; reflexivity. Qed.

(* ===================================================================== *)
(** ** Grids and loops *)

Lemma pixel_map2d {A B} (f : A -> B) (a : list (list A)) i j :
  pixel (map2d f a) i j = f <$> pixel a i j.
Proof.
  unfold pixel, map2d. rewrite list_lookup_fmap.
  destruct (a !! i) as [row|]; simpl; [| reflexivity].
  apply list_lookup_fmap.
Qed.

Lemma pixel_zip2d {A B C} (f : A -> B -> C) (a : list (list A)) (b : list (list B)) i j :
  pixel (zip2d f a b) i j =
  match pixel a i j, pixel b i j with
  | Some x, Some y => Some (f x y)
  | _, _ => None
  end.
Proof.
  unfold pixel, zip2d. rewrite lookup_zip_with.
  destruct (a !! i) as [ra|]; simpl; [| reflexivity].
  destruct (b !! i) as [rb|]; simpl.
  - rewrite lookup_zip_with. destruct (ra !! j); simpl; [| reflexivity].
    destruct (rb !! j); reflexivity.
  - destruct (ra !! j); reflexivity.
Qed.

Section Fill.
Context {A : Type} (f : nat -> A).

(** Assigning [f i] to the cells [i] of a list, one index after the
    other, keeps the length ... *)
Lemma fill_length (idx : list nat) : forall l : list A,
  length (fold_left (fun r i => <[i := f i]> r) idx l) = length l.
Proof.
  induction idx as [|i idx IH]; intros l; simpl; [reflexivity |].
  rewrite IH. apply length_insert.
Qed.

(** ... and after the indices below [k] the cells below [k] hold the
    new values and the others what they held. *)
Lemma fill_lookup (k : nat) : forall (l : list A) (j : nat),
  (k <= length l)%nat ->
  fold_left (fun r i => <[i := f i]> r) (seq 0 k) l !! j =
  if decide (j < k)%nat then Some (f j) else l !! j.
Proof.
  induction k as [|k IH]; intros l j Hk.
  - simpl. destruct (decide (j < 0)%nat); [lia | reflexivity].
  - rewrite seq_S, fold_left_app. simpl.
    destruct (decide (j = k)) as [->|Hne].
    + rewrite list_lookup_insert_eq by (rewrite fill_length; lia).
      destruct (decide (k < S k)%nat); [reflexivity | lia].
    + rewrite list_lookup_insert_ne by congruence.
      rewrite IH by lia.
      destruct (decide (j < k)%nat), (decide (j < S k)%nat); try reflexivity; lia.
Qed.

Lemma fill_all (n : nat) (l : list A) :
  length l = n ->
  fold_left (fun r i => <[i := f i]> r) (seq 0 n) l = map f (seq 0 n).
Proof.
  intros Hn. apply list_eq. intros j.
  rewrite fill_lookup by lia.
  destruct (decide (j < n)%nat) as [Hj|Hj].
  - rewrite list_lookup_fmap, lookup_seq_lt by assumption. reflexivity.
  - rewrite list_lookup_fmap, lookup_seq_ge by lia.
    apply lookup_ge_None. lia.
Qed.
End Fill.

(* ===================================================================== *)
(** ** Running the blocks *)

Lemma bind_run {A B} (m : M A) (f : A -> M B) (w : World) :
  (m ≫= f) w = match m w with Ok a w' => f a w' | Raise e w' => Raise e w' end.
Proof. reflexivity. Qed.

Lemma with_trace_app (l1 l2 : list Event) (w : World) :
  with_trace (fun t => (t ++ l2)%list) (with_trace (fun t => (t ++ l1)%list) w) =
  with_trace (fun t => (t ++ (l1 ++ l2))%list) w.
Proof. unfold with_trace; simpl. by rewrite app_assoc. Qed.

(** Unfolds the operations of the monad, so that a block applied to a
    state computes as far as the state allows. *)
Ltac unfold_monad :=
  unfold getitem, deref, alloc, io, config_getboolean, config_get, config_set,
    qi_set, log, emit, modify, gets, expect, ret, raise, mbind, M_bind, mret, M_ret in *.

Ltac step := repeat (progress (unfold_monad; cbn)).

Lemma r_toa_length : length r_toa = 101%nat.
Proof. reflexivity. Qed.

Lemma r_toa_lookup i :
  (i < 101)%nat ->
  r_toa !! i = Some (Float.div f64 (Float.of_Z f64 (Z.of_nat i)) (Float.of_Z f64 100)).
Proof.
  intros Hi. unfold r_toa, np.arange.
  rewrite !list_lookup_fmap, lookup_seq_lt by assumption. reflexivity.
Qed.

Lemma r_toa_nearest i :
  (i < 101)%nat ->
  nearest (Z.of_nat i) 100
    (Float.div f64 (Float.of_Z f64 (Z.of_nat i)) (Float.of_Z f64 100)) = true.
Proof.
  intros Hi.
  assert (H : forallb (fun i => nearest (Z.of_nat i) 100
              (Float.div f64 (Float.of_Z f64 (Z.of_nat i)) (Float.of_Z f64 100)))
              (seq 0 101) = true) by (vm_compute; reflexivity).
  rewrite forallb_forall in H. apply H. apply in_seq. lia.
Qed.

Section Atmcor.
Context `{ext : External}.

Lemma get_cams_configuration_run w :
  get_cams_configuration w = Ok (cams_of (config w)) w.
Proof. reflexivity. Qed.

(** Without data, the state is the constants, and two errors are logged. *)
Lemma atmospheric_state_invalid e extent w :
  is_valid e = false ->
  atmospheric_state e extent w =
  Ok constant_values
     (with_trace (fun t => (t ++ [Log ERROR "!! No cams data found" [];
                                  Log ERROR "!! Use Constant values" []])%list) w).
Proof.
  intros H. unfold atmospheric_state. rewrite H.
  step. by rewrite with_trace_app.
Qed.

(** On an extent of four corners the statement completes; it only logs. *)
Lemma atmospheric_state_total e extent w :
  length extent = 8%nat ->
  exists atm logs,
    atmospheric_state e extent w = Ok atm (with_trace (fun t => (t ++ logs)%list) w).
Proof.
  intros Hl.
  destruct (is_valid e) eqn:Hv.
  - do 8 (destruct extent as [|? extent]; [discriminate Hl |]).
    unfold atmospheric_state. rewrite Hv.
    step. repeat rewrite with_trace_app. eauto.
  - rewrite atmospheric_state_invalid by exact Hv. eauto.
Qed.

Lemma smac_correction_config product array_in extent band w d atm w1 :
  strptime (obs_of product) obs_format = Some d ->
  atmospheric_state (ecmwf_data w d) extent (entry w) = Ok atm w1 ->
  config (state_of (smac_correction product array_in extent band w)) =
  record_state atm (config w1).
Proof.
  unfold obs_of, obs_format, ecmwf_data, entry. intros Hd Ha. unfold smac_correction.
  rewrite bind_run. cbn [log emit modify].
  rewrite bind_run, Hd. cbn [expect].
  unfold ret at 1. cbn [mret M_ret].
  rewrite bind_run, get_cams_configuration_run.
  rewrite bind_run. cbn [config with_trace]. rewrite Ha.
  step.
  destruct (get_smac_coefficients product band) as [f|]; step; [| reflexivity].
  destruct (arrays w1 !! array_in) as [a|]; step; [| reflexivity].
  repeat (match goal with
          | |- context [match ?l !! ?i with _ => _ end] => destruct (l !! i)
          end; step; [| reflexivity]).
  reflexivity.
Qed.

Lemma smac_correction_unsupported product array_in extent band w d atm w1 :
  strptime (obs_of product) obs_format = Some d ->
  atmospheric_state (ecmwf_data w d) extent (entry w) = Ok atm w1 ->
  get_smac_coefficients product band = None ->
  exists w',
    smac_correction product array_in extent band w = Ok array_in w' /\
    arrays w' = arrays w1 /\
    config w' = record_state atm (config w1) /\
    trace w' = (trace w1 ++ [Log DEBUG "{}" [VNone];
                             Log ERROR "No smac coefficients for {}" [VStr band]])%list.
Proof.
  unfold obs_of, obs_format, ecmwf_data, entry. intros Hd Ha Hc. unfold smac_correction.
  rewrite bind_run. cbn [log emit modify].
  rewrite bind_run, Hd. cbn [expect].
  unfold ret at 1. cbn [mret M_ret].
  rewrite bind_run, get_cams_configuration_run.
  rewrite bind_run. cbn [config with_trace]. rewrite Ha, Hc.
  step. eexists; split; [reflexivity |]. step.
  repeat split. by rewrite <- app_assoc.
Qed.

Lemma smac_correction_supported product array_in extent band w d atm w1 f a c0 c1 c2 r :
  strptime (obs_of product) obs_format = Some d ->
  atmospheric_state (ecmwf_data w d) extent (entry w) = Ok atm w1 ->
  get_smac_coefficients product band = Some f ->
  arrays w1 !! array_in = Some a ->
  let curve := correction_curve (sun_zenith_angle (mtl product))
                 (sun_azimuth_angle (mtl product)) atm (smac_coeff f) in
  pf_coefficients (poly_coefs curve) !! 2%nat = Some c0 ->
  pf_coefficients (poly_coefs curve) !! 1%nat = Some c1 ->
  pf_coefficients (poly_coefs curve) !! 0%nat = Some c2 ->
  pf_residuals (poly_coefs curve) !! 0%nat = Some r ->
  exists w',
    smac_correction product array_in extent band w = Ok (fresh (dom (arrays w1))) w' /\
    arrays w' = <[fresh (dom (arrays w1)) := apply_fit c0 c1 c2 a]> (arrays w1) /\
    config w' = record_state atm (config w1) /\
    trace w' = (trace w1 ++ [Log DEBUG "{}" [VStr f]; LogFit band c0 c1 c2 r])%list.
Proof.
  intros Hd Ha Hc Hin curve H0 H1 H2 Hr. subst curve.
  unfold obs_of, obs_format, ecmwf_data, entry in *. unfold smac_correction.
  rewrite bind_run. cbn [log emit modify].
  rewrite bind_run, Hd. cbn [expect].
  unfold ret at 1. cbn [mret M_ret].
  rewrite bind_run, get_cams_configuration_run.
  rewrite bind_run. cbn [config with_trace]. rewrite Ha, Hc.
  step. rewrite Hin. step. rewrite H0. step. rewrite H1. step. rewrite H2. step.
  rewrite Hr. step.
  eexists; split; [reflexivity |]. step.
  repeat split. by rewrite <- app_assoc.
Qed.

Lemma r_surf_SMAC_loop_map (inv : float -> float) :
  r_surf_SMAC_loop inv r_toa = map (fun i => inv (r_toa !!! i)) (seq 0 101).
Proof.
  unfold r_surf_SMAC_loop. apply (fill_all (fun i => inv (r_toa !!! i))).
  unfold np.zeros. apply length_replicate.
Qed.

Lemma apply_fit_pixel c0 c1 c2 a i j :
  pixel (apply_fit c0 c1 c2 a) i j = surface casting c0 c1 c2 <$> pixel a i j.
Proof.
  unfold apply_fit, np.mask_zero, np.add, np.scalar_add, np.scalar_mul, np.square32,
    np.le0, np.float32.
  rewrite !pixel_zip2d, !pixel_map2d.
  destruct (pixel a i j) as [x|]; [| reflexivity].
  cbn. unfold surface, quadratic.
  destruct (Float.leb (Float.cast f32 x) Float.pzero); reflexivity.
Qed.

(** With coefficients that all fit float32, value-based casting keeps
    the whole polynomial in float32; under NEP 50 all of it is in
    float64. *)
Lemma quadratic_value_based c0 c1 c2 t :
  np.fits_float32 c0 = true -> np.fits_float32 c1 = true -> np.fits_float32 c2 = true ->
  quadratic np.value_based c0 c1 c2 t = quadratic_in f32 c0 c1 c2 t.
Proof.
  intros H0 H1 H2. unfold quadratic, quadratic_in, np.result_type.
  by rewrite H0, H1, H2.
Qed.

Lemma quadratic_nep50 c0 c1 c2 t :
  quadratic np.nep50 c0 c1 c2 t = quadratic_in f64 c0 c1 c2 t.
Proof. reflexivity. Qed.

Lemma curve_of_toa product atm f : curve_toa (curve_of product atm f) = r_toa.
Proof. reflexivity. Qed.

Lemma curve_of_surf product atm f :
  curve_surf (curve_of product atm f) =
  map (fun i => inversion product atm (smac_coeff f) (r_toa !!! i)) (seq 0 101).
Proof.
  unfold curve_of, correction_curve. cbn [curve_surf].
  apply (r_surf_SMAC_loop_map (inversion product atm (smac_coeff f))).
Qed.

Lemma curve_of_fit product atm f :
  poly_coefs (curve_of product atm f) =
  np_polyfit (curve_toa (curve_of product atm f)) (curve_surf (curve_of product atm f)) 2.
Proof. reflexivity. Qed.

Lemma smac_correction_completes product array_in extent band w d f a :
  strptime (obs_of product) obs_format = Some d ->
  length extent = 8%nat ->
  get_smac_coefficients product band = Some f ->
  arrays w !! array_in = Some a ->
  fit_shape ->
  exists atm c0 c1 c2 res w',
    pf_coefficients (poly_coefs (curve_of product atm f)) = [c2; c1; c0] /\
    pf_residuals (poly_coefs (curve_of product atm f)) = [res] /\
    smac_correction product array_in extent band w = Ok (fresh (dom (arrays w))) w' /\
    arrays w' = <[fresh (dom (arrays w)) := apply_fit c0 c1 c2 a]> (arrays w) /\
    config w' = record_state atm (config w) /\
    last (trace w') = Some (LogFit band c0 c1 c2 res).
Proof.
  intros Hd Hl Hc Ha Hfit.
  destruct (atmospheric_state_total (ecmwf_data w d) extent (entry w) Hl)
    as (atm & logs & Hatm).
  destruct (Hfit (curve_surf (curve_of product atm f))) as [H3 H1].
  { rewrite curve_of_surf, length_map. apply length_seq. }
  rewrite <- (curve_of_toa product atm f), <- curve_of_fit in H3, H1.
  destruct (pf_coefficients (poly_coefs (curve_of product atm f)))
    as [|c2 [|c1 [|c0 [|]]]] eqn:Hp; try discriminate H3.
  destruct (pf_residuals (poly_coefs (curve_of product atm f)))
    as [|res [|]] eqn:Hr; try discriminate H1.
  destruct (smac_correction_supported product array_in extent band w d atm _ f a c0 c1 c2 res
              Hd Hatm Hc Ha) as (w' & Hrun & Harr & Hcfg & Htr).
  1-4: (unfold curve_of in Hp, Hr; rewrite ?Hp, ?Hr; reflexivity).
  exists atm, c0, c1, c2, res, w'. repeat split; try assumption.
  rewrite Htr, last_app. reflexivity.
Qed.

(** C1.  When the atmospheric dataset is not valid for the sensing time,
    the statement that resolves the atmospheric state completes with the
    four constants, which are the binary64 numbers that the literals 2.0,
    0.331, 1013.095 and 0.2 denote (2, and the correctly rounded values
    of the three fractions); and after [smac_correction], whether it returned or
    raised later on, the configuration store answers these four values
    under [uH2O], [uO3], [pressure] and [taup550]. *)
Theorem fallback_constants_recorded product array_in extent band w d :
  strptime (obs_of product) obs_format = Some d ->
  is_valid (ecmwf_data w d) = false ->
  let w' := state_of (smac_correction product array_in extent band w) in
  (exists w1,
     atmospheric_state (ecmwf_data w d) extent (entry w) = Ok constant_values w1) /\
  (nearest 2 1 (uH2O constant_values) = true /\
   nearest 331 1000 (uO3 constant_values) = true /\
   nearest 1013095 1000 (pressure constant_values) = true /\
   nearest 2 10 (taup550 constant_values) = true) /\
  constant_values =
    {| uH2O := S754_finite false 4503599627370496 (-51);
       uO3 := S754_finite false 5962765906638537 (-54);
       pressure := S754_finite false 8911277860333814 (-43);
       taup550 := S754_finite false 7205759403792794 (-55) |} /\
  config_get "uH2O" VNone w' = Ok (VFloat (uH2O constant_values)) w' /\
  config_get "uO3" VNone w' = Ok (VFloat (uO3 constant_values)) w' /\
  config_get "pressure" VNone w' = Ok (VFloat (pressure constant_values)) w' /\
  config_get "taup550" VNone w' = Ok (VFloat (taup550 constant_values)) w'.
Proof.
  intros Hd Hv w'.
  pose proof (atmospheric_state_invalid (ecmwf_data w d) extent (entry w) Hv) as Ha.
  split; [eauto |]. split; [by vm_compute |]. split; [by vm_compute |].
  assert (Hcfg : config w' = record_state constant_values (config w))
    by exact (smac_correction_config _ _ _ _ _ _ _ _ Hd Ha).
  unfold config_get, gets. rewrite Hcfg. unfold record_state.
  repeat split; by simplify_map_eq.
Qed.

(** C2.  When there is no coefficient file for the band of the product
    (the product names none, or the file it names does not exist),
    [smac_correction] returns the reference [array_in] it was given, every
    array alive keeps its pixels, and the last record logged is the error
    "No smac coefficients".  The sensing time parses and the extent has
    its four corners. *)
Theorem unsupported_band_returns_input product array_in extent band w d :
  strptime (obs_of product) obs_format = Some d ->
  length extent = 8%nat ->
  get_smac_coefficients product band = None ->
  exists w',
    smac_correction product array_in extent band w = Ok array_in w' /\
    arrays w' = arrays w /\
    last (trace w') = Some (Log ERROR "No smac coefficients for {}" [VStr band]).
Proof.
  intros Hd Hl Hc.
  destruct (atmospheric_state_total (ecmwf_data w d) extent (entry w) Hl)
    as (atm & logs & Ha).
  destruct (smac_correction_unsupported _ array_in _ _ _ _ _ _ Hd Ha Hc)
    as (w' & Hrun & Harr & _ & Htr).
  exists w'. split; [exact Hrun |]. split; [exact Harr |].
  rewrite Htr, last_app. reflexivity.
Qed.

(** C3.  When there are coefficients for the band, the curve
    [smac_correction] builds has 101 TOA samples and 101 surface samples;
    sample [i] of the first is the binary64 quotient [i / 100], nearest to
    [i] hundredths, from 0 at index 0 to 1 at index 100, and sample [i] of
    the second is [smac_inv] at that TOA value; the fit is
    [np.polyfit] of the two, of degree 2; its three coefficients and its
    residual are the ones of the last record logged when the call
    returns. *)
Theorem correction_curve_samples_and_fit product array_in extent band w d f a :
  strptime (obs_of product) obs_format = Some d ->
  length extent = 8%nat ->
  get_smac_coefficients product band = Some f ->
  arrays w !! array_in = Some a ->
  fit_shape ->
  exists atm c0 c1 c2 res r w',
    let curve := curve_of product atm f in
    smac_correction product array_in extent band w = Ok r w' /\
    config w' = record_state atm (config w) /\
    length (curve_toa curve) = 101%nat /\
    length (curve_surf curve) = 101%nat /\
    (forall i, (i < 101)%nat ->
       exists t,
         curve_toa curve !! i = Some t /\
         t = Float.div f64 (Float.of_Z f64 (Z.of_nat i)) (Float.of_Z f64 100) /\
         nearest (Z.of_nat i) 100 t = true /\
         curve_surf curve !! i = Some (inversion product atm (smac_coeff f) t)) /\
    curve_toa curve !! 0%nat = Some Float.pzero /\
    curve_toa curve !! 100%nat = Some (Float.of_Z f64 1) /\
    poly_coefs curve = np_polyfit (curve_toa curve) (curve_surf curve) 2 /\
    pf_coefficients (poly_coefs curve) = [c2; c1; c0] /\
    pf_residuals (poly_coefs curve) = [res] /\
    last (trace w') = Some (LogFit band c0 c1 c2 res).
Proof.
  intros Hd Hl Hc Ha Hfit.
  destruct (smac_correction_completes product array_in extent band w d f a Hd Hl Hc Ha Hfit)
    as (atm & c0 & c1 & c2 & res & w' & Hp & Hr & Hrun & _ & Hcfg & Hlast).
  exists atm, c0, c1, c2, res, (fresh (dom (arrays w))), w'.
  cbv zeta. rewrite curve_of_toa, curve_of_surf.
  split; [exact Hrun |]. split; [exact Hcfg |].
  split; [exact r_toa_length |].
  split; [rewrite length_map; apply length_seq |].
  split.
  { intros i Hi. eexists. split; [apply r_toa_lookup, Hi |].
    split; [reflexivity |]. split; [apply r_toa_nearest, Hi |].
    rewrite list_lookup_fmap, lookup_seq_lt by assumption. cbn.
    by rewrite (list_lookup_total_correct _ _ _ (r_toa_lookup i Hi)). }
  split; [exact (r_toa_lookup 0 ltac:(lia)) |].
  split; [exact (r_toa_lookup 100 ltac:(lia)) |].
  split; [rewrite curve_of_fit, curve_of_toa, curve_of_surf; reflexivity |].
  split; [exact Hp |]. split; [exact Hr | exact Hlast].
Qed.

(** C4.  When [smac_correction] corrects a band, it returns a new array
    and leaves the input array as it was; the coefficients [c0], [c1],
    [c2] are those of the fit of the curve built for the atmospheric
    state that the call records; pixel by pixel the new array is 0 where
    the float32 TOA value is [<= 0] and [c0 + c1 * toa + c2 * toa ** 2]
    elsewhere, each operation in the type NumPy gives it: all in float32
    under value-based casting when the three coefficients fit float32,
    the product with [c2] and the last sum in float64 when [c2] alone
    does not fit, all but the float32 square in float64 under NEP 50; a
    pixel whose input value is [<= 0] is 0 in the output, and an input
    of zeros gives an output of zeros. *)
Theorem fit_applied_and_masked product array_in extent band w d f a :
  strptime (obs_of product) obs_format = Some d ->
  length extent = 8%nat ->
  get_smac_coefficients product band = Some f ->
  arrays w !! array_in = Some a ->
  fit_shape ->
  exists atm c0 c1 c2 r w' out,
    smac_correction product array_in extent band w = Ok r w' /\
    config w' = record_state atm (config w) /\
    pf_coefficients (poly_coefs (curve_of product atm f)) = [c2; c1; c0] /\
    arrays w' !! r = Some out /\
    arrays w' !! array_in = Some a /\
    (forall i j, pixel out i j = surface casting c0 c1 c2 <$> pixel a i j) /\
    (forall i j x, pixel a i j = Some x ->
       Float.leb (Float.cast f32 x) Float.pzero = false ->
       pixel out i j = Some (quadratic casting c0 c1 c2 (Float.cast f32 x)) /\
       (casting = np.value_based ->
        np.fits_float32 c0 = true -> np.fits_float32 c1 = true ->
        np.fits_float32 c2 = true ->
        pixel out i j = Some (quadratic_in f32 c0 c1 c2 (Float.cast f32 x))) /\
       (casting = np.value_based ->
        np.fits_float32 c0 = true -> np.fits_float32 c1 = true ->
        np.fits_float32 c2 = false ->
        let t := Float.cast f32 x in
        pixel out i j =
          Some (Float.add f64
                  (Float.cast f64
                     (Float.add f32 (Float.cast f32 c0)
                        (Float.mul f32 (Float.cast f32 c1) t)))
                  (Float.mul f64 c2 (Float.cast f64 (Float.mul f32 t t))))) /\
       (casting = np.nep50 ->
        pixel out i j = Some (quadratic_in f64 c0 c1 c2 (Float.cast f32 x)))) /\
    (forall i j x, pixel a i j = Some x ->
       Float.leb x Float.pzero = true -> pixel out i j = Some Float.pzero) /\
    ((forall i j x, pixel a i j = Some x -> Float.is_zero x = true) ->
     forall i j y, pixel out i j = Some y -> y = Float.pzero).
Proof.
  intros Hd Hl Hc Ha Hfit.
  destruct (smac_correction_completes product array_in extent band w d f a Hd Hl Hc Ha Hfit)
    as (atm & c0 & c1 & c2 & res & w' & Hp & Hr & Hrun & Harr & Hcfg & _).
  assert (Hfresh : fresh (dom (arrays w)) <> array_in).
  { intros Heq. apply (is_fresh (dom (arrays w))). rewrite Heq.
    apply elem_of_dom. eauto. }
  exists atm, c0, c1, c2, (fresh (dom (arrays w))), w', (apply_fit c0 c1 c2 a).
  split; [exact Hrun |]. split; [exact Hcfg |]. split; [exact Hp |].
  split; [rewrite Harr; apply lookup_insert_eq |].
  split; [rewrite Harr, lookup_insert_ne by exact Hfresh; exact Ha |].
  split; [intros i j; apply apply_fit_pixel |].
  split; [| split].
  - intros i j x Hx Hpos.
    assert (Hpix : pixel (apply_fit c0 c1 c2 a) i j =
                   Some (quadratic casting c0 c1 c2 (Float.cast f32 x))).
    { rewrite apply_fit_pixel, Hx. cbn. unfold surface. by rewrite Hpos. }
    split; [exact Hpix |]. split.
    + intros Hrule H0 H1 H2. rewrite Hpix, Hrule.
      by rewrite quadratic_value_based.
    + split.
      * intros Hrule H0 H1 H2 t. rewrite Hpix, Hrule.
        unfold quadratic, np.result_type. by rewrite H0, H1, H2.
      * intros Hrule. by rewrite Hpix, Hrule, quadratic_nep50.
  - intros i j x Hx Hle. rewrite apply_fit_pixel, Hx. cbn. unfold surface.
    by rewrite (cast_le0 f32 x Hle).
  - intros Hzero i j y. rewrite apply_fit_pixel.
    destruct (pixel a i j) as [x|] eqn:Hx; cbn; [| discriminate].
    intros [= <-]. unfold surface.
    by rewrite (cast_le0 f32 x (zero_le0 x (Hzero i j x Hx))).
Qed.

(** C8.  [S2L_Atmcor.postprocess]: with [use_sen2cor] it records
    [AC_PROCESSOR = SEN2COR] and leaves the four atmospheric fields of the
    quality indicators as they were; without [use_sen2cor] and with
    [use_smac] it records [AC_PROCESSOR = SMAC] and, under
    [GRANULE_MEAN_WV], [OZONE_VALUE], [PRESSURE] and [GRANULE_MEAN_AOT],
    what the store holds under [uH2O], [uO3], [pressure] and [taup550],
    which are the scalars of the atmospheric state once [smac_correction]
    has recorded it; with neither it records nothing. *)
Theorem quality_annotation product w :
  (getboolean (config w !! "use_sen2cor") = true ->
   exists w',
     S2L_Atmcor_postprocess product w = Ok tt w' /\
     qi w' = <["AC_PROCESSOR" := VStr "SEN2COR"]> (qi w) /\
     (forall key, key ∈ ["GRANULE_MEAN_WV"; "OZONE_VALUE"; "PRESSURE"; "GRANULE_MEAN_AOT"] ->
        qi w' !! key = qi w !! key)) /\
  (getboolean (config w !! "use_sen2cor") = false ->
   getboolean (config w !! "use_smac") = true ->
   exists w',
     S2L_Atmcor_postprocess product w = Ok tt w' /\
     qi w' !! "AC_PROCESSOR" = Some (VStr "SMAC") /\
     qi w' !! "GRANULE_MEAN_WV" = Some (default VNone (config w !! "uH2O")) /\
     qi w' !! "OZONE_VALUE" = Some (default VNone (config w !! "uO3")) /\
     qi w' !! "PRESSURE" = Some (default VNone (config w !! "pressure")) /\
     qi w' !! "GRANULE_MEAN_AOT" = Some (default VNone (config w !! "taup550")) /\
     (forall atm cfg, config w = record_state atm cfg ->
        qi w' !! "GRANULE_MEAN_WV" = Some (VFloat (uH2O atm)) /\
        qi w' !! "OZONE_VALUE" = Some (VFloat (uO3 atm)) /\
        qi w' !! "PRESSURE" = Some (VFloat (pressure atm)) /\
        qi w' !! "GRANULE_MEAN_AOT" = Some (VFloat (taup550 atm)))) /\
  (getboolean (config w !! "use_sen2cor") = false ->
   getboolean (config w !! "use_smac") = false ->
   S2L_Atmcor_postprocess product w = Ok tt w).
Proof.
  unfold S2L_Atmcor_postprocess. repeat split.
  - intros H. step. rewrite H. step. eexists. split; [reflexivity |]. cbn.
    split; [reflexivity |].
    intros key Hk. apply lookup_insert_ne. intros <-.
    repeat (apply elem_of_cons in Hk as [Hk|Hk]; [discriminate Hk |]).
    by apply elem_of_nil in Hk.
  - intros H1 H2. step. rewrite H1. step. rewrite H2. step.
    eexists. split; [reflexivity |]. cbn.
    do 5 (split; [by simplify_map_eq |]).
    intros atm cfg ->. unfold record_state. repeat split; by simplify_map_eq.
  - intros H1 H2. step. rewrite H1. step. rewrite H2. reflexivity.
Qed.
End Atmcor.

(* ===================================================================== *)
(** ** The packager *)

Lemma quicklooks_app t1 t2 : quicklooks (t1 ++ t2) = (quicklooks t1 ++ quicklooks t2)%list.
Proof. unfold quicklooks. induction t1 as [|e t1 IH]; simpl; [reflexivity |].
  destruct (is_quicklook e); simpl; by rewrite IH. Qed.

(** A check on every integer of a range, by computation. *)
Lemma range_check (P : Z -> bool) (lo : Z) (n : nat) :
  forallb (fun k => P (lo + Z.of_nat k)) (seq 0 n) = true ->
  forall z, lo <= z < lo + Z.of_nat n -> P z = true.
Proof.
  intros H z Hz. rewrite forallb_forall in H.
  replace z with (lo + Z.of_nat (Z.to_nat (z - lo))) by lia.
  apply H, in_seq. lia.
Qed.

Lemma str_int_4 (y : Z) :
  1000 <= y <= 9999 -> String.length (Py.str_int y) = 4%nat.
Proof.
  intros Hy. apply Nat.eqb_eq.
  apply (range_check (fun y => Nat.eqb (String.length (Py.str_int y)) 4) 1000 (Z.to_nat 9000));
    [by vm_compute | lia].
Qed.

Lemma rjust_2 (n : Z) :
  0 <= n <= 99 -> String.length (Py.rjust 2 "0" (Py.str_int n)) = 2%nat.
Proof.
  intros Hn. apply Nat.eqb_eq.
  apply (range_check (fun n => Nat.eqb (String.length (Py.rjust 2 "0" (Py.str_int n))) 2)
           0 100); [by vm_compute | lia].
Qed.

Lemma rjust_3 (n : Z) :
  0 <= n <= 999 -> String.length (Py.rjust 3 "0" (Py.str_int n)) = 3%nat.
Proof.
  intros Hn. apply Nat.eqb_eq.
  apply (range_check (fun n => Nat.eqb (String.length (Py.rjust 3 "0" (Py.str_int n))) 3)
           0 1000); [by vm_compute | lia].
Qed.

Lemma strftime_Ymd_length d :
  1000 <= year d <= 9999 -> 1 <= month d <= 12 -> 1 <= day d <= 31 ->
  String.length (strftime_Ymd d) = 8%nat.
Proof.
  intros Hy Hm Hd. unfold strftime_Ymd.
  rewrite !length_append, str_int_4, !rjust_2 by lia. reflexivity.
Qed.

Lemma startswith_T tile :
  (if Py.startswith "T" tile then Py.tail1 tile else tile) = tile_token tile.
Proof.
  destruct tile as [|c rest]; [reflexivity |].
  unfold Py.startswith, tile_token. simpl.
  destruct (ascii_dec "T" c) as [<-|Hne].
  - destruct rest; reflexivity.
  - destruct c as [[] [] [] [] [] [] [] []]; try reflexivity. by destruct Hne.
Qed.


Section Packager.
Context `{ext : External}.

Lemma format_0gt3_digits v digits w :
  orbit_digits v = Some digits -> format_0gt3 v w = Ok (Py.rjust 3 "0" digits) w.
Proof.
  destruct v as [| |n| |s]; simpl; try discriminate.
  - destruct (0 <=? n); [| discriminate]. by intros [= <-].
  - by intros [= <-].
Qed.

Lemma base_path_run product w digits archive :
  packager_ready w digits archive ->
  base_path product w = Ok (outdir_of product digits, tile_token (mgrs (mtl product))) w.
Proof.
  intros [(v & Hv & Hd) _]. unfold base_path.
  rewrite bind_run. unfold config_get at 1, gets at 1. rewrite Hv. cbn [default from_option].
  rewrite bind_run, (format_0gt3_digits _ _ _ Hd). rewrite startswith_T.
  reflexivity.
Qed.

Lemma band_file_eq product digits band res :
  band_file (outdir_of product digits) band res =
  band_file_name (mgrs (mtl product)) (acqdate product) (sensor_name product) digits band res.
Proof.
  unfold band_file, band_file_name, outdir_of, Py.join.
  by rewrite !append_assoc.
Qed.

Lemma py_int_float x res w :
  Float.trunc x = Some res -> py_int (VFloat x) w = Ok res w.
Proof.
  intros H. destruct x; try (by inversion H); unfold py_int; by rewrite H.
Qed.

Lemma archive_dir_run w digits archive :
  packager_ready w digits archive ->
  (config_get "archive_dir" VNone ≫= as_str) w = Ok archive w.
Proof. intros [_ H]. step. by rewrite H. Qed.

Lemma lookup_after_write w band (a b : pyval) :
  (<["imageout_" ++ band := a]> (<["imageout_dir" := b]> (config w))) !! "hlsplus" =
  config w !! "hlsplus".
Proof.
  rewrite lookup_insert_ne; [by apply lookup_insert_ne |].
  intros H. cbv in H. discriminate H.
Qed.

Lemma process_run product image band w digits archive res hlsplus :
  packager_ready w digits archive ->
  Float.trunc (xRes image) = Some res ->
  getboolean (config w !! "hlsplus") = hlsplus ->
  (forall ev, io_fails ev = false) ->
  let newpath := band_path product archive digits band res in
  let newpath_30m := band_path product archive digits band 30 in
  let image' := image_written image (Some newpath) in
  exists w',
    S2L_Packager_process product image band w =
      Ok (product_after hlsplus product band, image') w' /\
    trace w' = (trace w ++ primary_write image newpath ++
                secondary_output hlsplus product band newpath newpath_30m)%list /\
    images w' = Dict.set band (filepath image') (images w) /\
    config w' = <["imageout_" ++ band := VStr (filename image')]>
                  (<["imageout_dir" := VStr (dirpath image')]> (config w)) /\
    qi w' = qi w /\ arrays w' = arrays w.
Proof.
  intros Hready Hres Hhls Hio newpath newpath_30m image'.
  unfold S2L_Packager_process.
  rewrite bind_run, (base_path_run _ _ _ _ Hready).
  rewrite bind_run, (py_int_float _ _ _ Hres).
  rewrite bind_run, (archive_dir_run _ _ _ Hready).
  rewrite !band_file_eq.
  fold (tsdir_of product archive). fold (band_path product archive digits band res).
  fold (band_path product archive digits band 30). fold newpath newpath_30m.
  step. rewrite !Hio. step.
  rewrite lookup_after_write, Hhls.
  unfold secondary_output, product_after, family_S2, family_L8_L9, precomputed_output,
    Dict.contains, resampled_output.
  destruct hlsplus; step.
  2: { eexists. split; [reflexivity |]. step. rewrite <- !app_assoc. by repeat split. }
  destruct (String.eqb (sensor product) "S2"); step;
    destruct (String.eqb (sensor product) "L8" || String.eqb (sensor product) "L9"); step;
    try destruct (Dict.get band (image30m product)); step; rewrite ?Hio; step;
    (eexists; split; [reflexivity |]); step; rewrite <- ?app_assoc; by repeat split.
Qed.

Lemma copy_auxiliary_run product outdir tsdir w wd :
  config w !! "wd" = Some (VStr wd) ->
  (forall ev, io_fails ev = false) ->
  exists evs,
    copy_auxiliary product outdir tsdir w = Ok tt (with_trace (fun t => (t ++ evs)%list) w) /\
    quicklooks evs = [].
Proof.
  intros Hwd Hio. unfold copy_auxiliary.
  repeat (progress (step; rewrite ?Hio, ?Hwd)).
  destruct (truthy (tile_metadata (mtl product))) as [md|];
    repeat (progress (step; rewrite ?Hio, ?Hwd));
    destruct (path_exists (Py.path_join tsdir ["QI"]));
    repeat (progress (step; rewrite ?Hio, ?Hwd));
    destruct (path_exists (Py.path_join wd [name product; "correl_res.txt"]));
    repeat (progress (step; rewrite ?Hio, ?Hwd));
    repeat rewrite with_trace_app; eexists; (split; [reflexivity | reflexivity]).
Qed.

Lemma copy_auxiliary_frame product outdir tsdir w :
  let w1 := state_of (copy_auxiliary product outdir tsdir w) in
  images w1 = images w /\ quicklooks (trace w1) = quicklooks (trace w).
Proof.
  unfold copy_auxiliary. step.
  repeat (match goal with
          | |- context [io_fails ?e] => destruct (io_fails e)
          | |- context [path_exists ?p] => destruct (path_exists p)
          | |- context [truthy ?o] => destruct (truthy o)
          | |- context [config w !! ?k] => destruct (config w !! k) as [[]|]
          end; step);
    (split; [reflexivity |]);
    rewrite ?quicklooks_app; cbn; by rewrite ?app_nil_r.
Qed.

Lemma quicklook_run band_list qlpath w offset :
  (forall w0, py_int (default VNone (config w !! "offset")) w0 = Ok offset w0) ->
  (forall ev, io_fails ev = false) ->
  quicklook band_list qlpath w =
  Ok tt (with_trace (fun t => (t ++ [quicklook_of w band_list qlpath offset])%list) w).
Proof.
  intros Hoff Hio. unfold quicklook.
  rewrite bind_run. unfold gets at 1.
  rewrite bind_run. unfold config_get at 1, gets at 1.
  rewrite bind_run. rewrite bind_run. unfold config_get at 1, gets at 1.
  rewrite Hoff. unfold io. rewrite Hio. reflexivity.
Qed.

Lemma quicklook_selection_empty outdir tsdir w :
  images w = Dict.empty -> quicklook_selection outdir tsdir w = Raise IndexError w.
Proof.
  intros H. unfold quicklook_selection. rewrite bind_run. unfold gets at 1. rewrite H.
  reflexivity.
Qed.

Lemma quicklook_selection_one outdir tsdir w offset b :
  Dict.keys (images w) = [b] ->
  (forall w0, py_int (default VNone (config w !! "offset")) w0 = Ok offset w0) ->
  (forall ev, io_fails ev = false) ->
  quicklook_selection outdir tsdir w =
  Ok tt (with_trace
           (fun t => (t ++ [quicklook_of w [b] (quicklook_path tsdir outdir b) offset])%list) w).
Proof.
  intros Hk Hoff Hio. unfold quicklook_selection. rewrite bind_run. unfold gets at 1.
  unfold Dict.len. rewrite Hk. cbn [length Nat.ltb Nat.leb].
  rewrite bind_run. unfold getitem at 1. cbn [lookup list_lookup expect].
  unfold ret at 1. cbn [mret M_ret].
  rewrite bind_run. unfold getitem at 1. cbn [lookup list_lookup expect].
  unfold ret at 1. cbn [mret M_ret].
  by rewrite (quicklook_run _ _ _ _ Hoff Hio).
Qed.

Lemma quicklook_selection_many outdir tsdir w offset :
  (2 <= Dict.len (images w))%nat ->
  (forall w0, py_int (default VNone (config w !! "offset")) w0 = Ok offset w0) ->
  (forall ev, io_fails ev = false) ->
  quicklook_selection outdir tsdir w =
  Ok tt (with_trace
           (fun t => (t ++ [quicklook_of w ["B04"; "B03"; "B02"]
                              (quicklook_path tsdir outdir "B432") offset;
                            quicklook_of w ["B12"; "B11"; "B8A"]
                              (quicklook_path tsdir outdir "B12118A") offset])%list) w).
Proof.
  intros Hn Hoff Hio. unfold quicklook_selection. rewrite bind_run. unfold gets at 1.
  replace (1 <? Dict.len (images w))%nat with true by (symmetry; apply Nat.ltb_lt; lia).
  rewrite bind_run, (quicklook_run _ _ _ _ Hoff Hio).
  rewrite (quicklook_run _ _ _ offset) by assumption.
  by rewrite with_trace_app.
Qed.

Lemma base_path_state product w x w1 : base_path product w = Ok x w1 -> w1 = w.
Proof.
  unfold base_path. step.
  destruct (config w !! "relative_orbit") as [[]|]; step; by intros [= _ <-].
Qed.

Lemma as_str_state key w x w1 :
  (config_get key VNone ≫= as_str) w = Ok x w1 -> w1 = w.
Proof. step. destruct (config w !! key) as [[]|]; step; by intros [= _ <-]. Qed.

(** The steps of [postprocess] up to the quicklooks, on a ready state. *)
Lemma postprocess_run product w digits archive :
  packager_ready w digits archive ->
  S2L_Packager_postprocess product w =
  match copy_auxiliary product (outdir_of product digits) (tsdir_of product archive) w with
  | Ok _ w1 =>
      match quicklook_selection (outdir_of product digits) (tsdir_of product archive) w1 with
      | Ok _ w2 => Ok tt (with_images Dict.clear w2)
      | Raise e w2 => Raise e w2
      end
  | Raise e w1 => Raise e w1
  end.
Proof.
  intros Hready. unfold S2L_Packager_postprocess.
  rewrite bind_run, (base_path_run _ _ _ _ Hready).
  rewrite bind_run, (archive_dir_run _ _ _ Hready).
  reflexivity.
Qed.

(** C6.  [S2L_Packager.postprocess] on a state where the orbit, the
    archive directory, the working directory and the offset are set and
    no file operation fails: with exactly one band in the registry it
    completes and calls [quicklook] once, with that band alone and the
    path [QI/QL_<band>/<outdir>_QL_<band>.jpg]; with two bands or more it
    completes and calls [quicklook] twice, for [B04, B03, B02] under the
    code B432 and then for [B12, B11, B8A] under the code B12118A. *)
Theorem quicklooks_by_band_count product w digits archive wd offset :
  finalize_ready w digits archive wd offset ->
  (forall ev, io_fails ev = false) ->
  let outdir := outdir_of product digits in
  let tsdir := tsdir_of product archive in
  (forall b, Dict.keys (images w) = [b] ->
     exists w',
       S2L_Packager_postprocess product w = Ok tt w' /\
       quicklooks (trace w') =
         (quicklooks (trace w) ++
          [Quicklook (images w) [b] (quicklook_path tsdir outdir b) (quality_of w) offset])%list) /\
  ((2 <= Dict.len (images w))%nat ->
     exists w',
       S2L_Packager_postprocess product w = Ok tt w' /\
       quicklooks (trace w') =
         (quicklooks (trace w) ++
          [Quicklook (images w) ["B04"; "B03"; "B02"] (quicklook_path tsdir outdir "B432")
             (quality_of w) offset;
           Quicklook (images w) ["B12"; "B11"; "B8A"] (quicklook_path tsdir outdir "B12118A")
             (quality_of w) offset])%list).
Proof.
  intros (Hready & Hwd & Hoff) Hio outdir tsdir.
  destruct (copy_auxiliary_run product outdir tsdir w wd Hwd Hio) as (evs & Hcopy & Hevs).
  split.
  - intros b Hb. rewrite (postprocess_run _ _ _ _ Hready). fold outdir tsdir.
    rewrite Hcopy.
    rewrite (quicklook_selection_one outdir tsdir _ offset b) by assumption.
    eexists. split; [reflexivity |]. cbn.
    by rewrite !quicklooks_app, Hevs, app_nil_r.
  - intros Hn. rewrite (postprocess_run _ _ _ _ Hready). fold outdir tsdir.
    rewrite Hcopy.
    rewrite (quicklook_selection_many outdir tsdir _ offset) by assumption.
    eexists. split; [reflexivity |]. cbn.
    by rewrite !quicklooks_app, Hevs, app_nil_r.
Qed.

Lemma postprocess_clears product w w' :
  S2L_Packager_postprocess product w = Ok tt w' -> images w' = Dict.empty.
Proof.
  unfold S2L_Packager_postprocess.
  rewrite bind_run. destruct (base_path product w) as [[outdir tilecode] w1|]; [| discriminate].
  rewrite bind_run.
  destruct ((config_get "archive_dir" VNone ≫= as_str) w1) as [archive w2|]; [| discriminate].
  rewrite bind_run. destruct (copy_auxiliary _ _ _ w2) as [? w3|]; [| discriminate].
  rewrite bind_run. destruct (quicklook_selection _ _ w3) as [? w4|]; [| discriminate].
  by intros [= <-].
Qed.

(** C7.  The registry [S2L_Packager.images] is empty when the class is
    defined; it is empty in the state a completed [postprocess] leaves,
    hence after every product that has been packaged and finalized; so in
    a run from the initial registry, it is empty in the state in which
    the packaging of each next product begins. *)
Theorem registry_empty_between_products jobs w w' :
  images w = S2L_Packager_images ->
  package_all jobs w = Ok tt w' ->
  images w' = Dict.empty /\
  (forall job w0 w1, package_product job w0 = Ok tt w1 -> images w1 = Dict.empty) /\
  (forall product w0 w1, S2L_Packager_postprocess product w0 = Ok tt w1 ->
     images w1 = Dict.empty) /\
  (forall before after w1,
     jobs = (before ++ after)%list -> package_all before w = Ok tt w1 ->
     images w1 = Dict.empty).
Proof.
  intros Hw Hrun.
  assert (Hpost : forall product w0 w1,
             S2L_Packager_postprocess product w0 = Ok tt w1 -> images w1 = Dict.empty)
    by exact postprocess_clears.
  assert (Hjob : forall job w0 w1, package_product job w0 = Ok tt w1 -> images w1 = Dict.empty).
  { intros job w0 w1. unfold package_product. rewrite bind_run.
    destruct (package_bands _ _ w0) as [p w2|]; [| discriminate]. apply Hpost. }
  assert (Hall : forall l w0 w1,
             images w0 = Dict.empty -> package_all l w0 = Ok tt w1 -> images w1 = Dict.empty).
  { induction l as [|job l IH]; intros w0 w1 H0; simpl.
    - by intros [= <-].
    - rewrite bind_run. destruct (package_product job w0) as [[] w2|] eqn:Hj; [| discriminate].
      apply IH. by apply (Hjob job w0). }
  split; [by apply (Hall jobs w) |]. split; [exact Hjob |]. split; [exact Hpost |].
  intros before after w1 _. by apply Hall.
Qed.

(** C10.  With an empty registry, the quicklook step of [postprocess]
    takes the [else] branch and raises [IndexError] on [band_list[0]]
    without a call to [quicklook]; [postprocess] never completes from such
    a state, and where the steps before the quicklooks succeed, it is this
    [IndexError] that it raises, the registry still empty. *)
Theorem finalize_empty_registry_fails product w :
  images w = Dict.empty ->
  (forall outdir tsdir, quicklook_selection outdir tsdir w = Raise IndexError w) /\
  (forall w', S2L_Packager_postprocess product w <> Ok tt w') /\
  (forall digits archive wd,
     packager_ready w digits archive ->
     config w !! "wd" = Some (VStr wd) ->
     (forall ev, io_fails ev = false) ->
     exists w',
       S2L_Packager_postprocess product w = Raise IndexError w' /\
       quicklooks (trace w') = quicklooks (trace w) /\
       images w' = Dict.empty).
Proof.
  intros Hw. split; [| split].
  - intros outdir tsdir. by apply quicklook_selection_empty.
  - intros w'. unfold S2L_Packager_postprocess.
    rewrite bind_run.
    destruct (base_path product w) as [[outdir tilecode] w1|] eqn:Hb; [| discriminate].
    apply base_path_state in Hb as ->.
    rewrite bind_run.
    destruct ((config_get "archive_dir" VNone ≫= as_str) w) as [archive w2|] eqn:Ha;
      [| discriminate].
    apply as_str_state in Ha as ->.
    rewrite bind_run.
    pose proof (copy_auxiliary_frame product outdir (Py.path_join archive [tilecode]) w)
      as [Hi _].
    destruct (copy_auxiliary _ _ _ w) as [? w3|]; [| discriminate].
    cbn [state_of] in Hi.
    rewrite bind_run, quicklook_selection_empty by (by rewrite Hi). discriminate.
  - intros digits archive wd Hready Hwd Hio.
    rewrite (postprocess_run _ _ _ _ Hready).
    destruct (copy_auxiliary_run product (outdir_of product digits) (tsdir_of product archive)
                w wd Hwd Hio) as (evs & -> & Hevs).
    rewrite quicklook_selection_empty by exact Hw.
    eexists. split; [reflexivity |]. cbn.
    split; [by rewrite quicklooks_app, Hevs, app_nil_r | exact Hw].
Qed.

Lemma process_prefix product image band w digits archive res :
  packager_ready w digits archive ->
  Float.trunc (xRes image) = Some res ->
  let newpath := band_path product archive digits band res in
  io_fails (ImageWrite image ["COMPRESS=LZW"] false (Some newpath)) = false ->
  exists rest,
    trace (state_of (S2L_Packager_process product image band w)) =
    (trace w ++ primary_write image newpath ++ rest)%list.
Proof.
  intros Hready Hres newpath Hio.
  unfold S2L_Packager_process.
  rewrite bind_run, (base_path_run _ _ _ _ Hready).
  rewrite bind_run, (py_int_float _ _ _ Hres).
  rewrite bind_run, (archive_dir_run _ _ _ Hready).
  rewrite !band_file_eq.
  fold (tsdir_of product archive). fold (band_path product archive digits band res).
  fold (band_path product archive digits band 30). fold newpath.
  step. rewrite Hio. step.
  repeat (match goal with
          | |- context [getboolean ?v] => destruct (getboolean v)
          | |- context [io_fails ?e] => destruct (io_fails e)
          | |- context [String.eqb ?a ?b] => destruct (String.eqb a b)
          | |- context [Dict.contains ?a ?b] => unfold Dict.contains
          | |- context [Dict.get ?a ?b] => destruct (Dict.get a b)
          end; step);
    eexists; rewrite <- ?app_assoc; cbn; reflexivity.
Qed.

(** C5.  [S2L_Packager.process] writes the band to
    [archive_dir/<tile>/<outdir>/<name>], where [<name>] is made, in this
    order, of [L2F], the tile code without its leading [T] if it has one,
    the acquisition date as year, month and day (8 digits from year 1000
    on), the sensor name, [R] and the relative orbit right-aligned on 3
    characters with zeros (3 digits up to orbit 999), the band, and the
    integer resolution followed by [m.TIF]; for tile T32TQM, 2021-05-04,
    S2A, orbit 7, band B04 and resolution 10 the name is
    [L2F_32TQM_20210504_S2A_R007_B04_10m.TIF]. *)
Theorem band_file_naming product image band w digits archive res :
  packager_ready w digits archive ->
  Float.trunc (xRes image) = Some res ->
  let tile := mgrs (mtl product) in
  let date := acqdate product in
  let name := band_file_name tile date (sensor_name product) digits band res in
  let newpath := band_path product archive digits band res in
  io_fails (ImageWrite image ["COMPRESS=LZW"] false (Some newpath)) = false ->
  (exists rest,
     trace (state_of (S2L_Packager_process product image band w)) =
     (trace w ++ [Log DEBUG ("New: " ++ newpath) [];
                  ImageWrite image ["COMPRESS=LZW"] false (Some newpath)] ++ rest)%list) /\
  newpath = Py.path_join archive
              [tile_token tile; product_dir tile date (sensor_name product) digits; name] /\
  name = "L2F_" ++ tile_token tile ++ "_" ++ strftime_Ymd date ++ "_" ++
         sensor_name product ++ "_R" ++ Py.rjust 3 "0" digits ++ "_" ++ band ++ "_" ++
         Py.str_int res ++ "m.TIF" /\
  (forall rest, tile = String "T" rest -> tile_token tile = rest) /\
  (Py.startswith "T" tile = false -> tile_token tile = tile) /\
  (1000 <= year date <= 9999 -> 1 <= month date <= 12 -> 1 <= day date <= 31 ->
   String.length (strftime_Ymd date) = 8%nat) /\
  (forall n, 0 <= n <= 999 -> digits = Py.str_int n ->
             String.length (Py.rjust 3 "0" digits) = 3%nat) /\
  (tile = "T32TQM" -> (year date = 2021 /\ month date = 5 /\ day date = 4) ->
   sensor_name product = "S2A" -> digits = "7" -> band = "B04" -> res = 10 ->
   name = "L2F_32TQM_20210504_S2A_R007_B04_10m.TIF").
Proof.
  intros Hready Hres tile date name newpath Hio.
  split; [exact (process_prefix product image band w digits archive res Hready Hres Hio) |].
  split; [reflexivity |].
  split.
  { unfold name, band_file_name, product_dir.
    rewrite !append_assoc. reflexivity. }
  split; [by intros rest -> |].
  split.
  { destruct tile as [|c rest]; [reflexivity |].
    unfold Py.startswith, tile_token. cbn [String.prefix].
    destruct (ascii_dec "T" c) as [<-|Hne]; [destruct rest; discriminate |].
    intros _. destruct c as [[] [] [] [] [] [] [] []]; try reflexivity. by destruct Hne. }
  split; [apply strftime_Ymd_length |].
  split; [intros n Hn ->; by apply rjust_3 |].
  intros Ht (Hy & Hm & Hd) Hs Hdig Hb Hr.
  unfold name, band_file_name, product_dir, strftime_Ymd.
  rewrite Ht, Hy, Hm, Hd, Hs, Hdig, Hb, Hr. reflexivity.
Qed.

(** C9, as amended.  In [hlsplus] mode, when no file operation fails,
    [process] completes and, after the band itself: for the sensor [S2] it
    opens the band just written, resamples it to 30 m and writes the
    result; for the sensors [L8] and [L9] it writes the precomputed 30 m
    image of the band if the product holds one, and removes it from the
    product, and writes nothing more if the product holds none; for any
    other sensor it writes nothing more. *)
Theorem secondary_output_by_family product image band w digits archive res :
  packager_ready w digits archive ->
  Float.trunc (xRes image) = Some res ->
  getboolean (config w !! "hlsplus") = true ->
  (forall ev, io_fails ev = false) ->
  let newpath := band_path product archive digits band res in
  let newpath_30m := band_path product archive digits band 30 in
  exists product' image' w' extra,
    S2L_Packager_process product image band w = Ok (product', image') w' /\
    trace w' = (trace w ++ primary_write image newpath ++ extra)%list /\
    (sensor product = "S2" ->
       extra = [Log INFO "Resampling to 30m: Start..." [];
                ImageOpen newpath;
                Resample (image_open newpath) 30 newpath_30m;
                ImageWrite (resample (image_open newpath) 30 newpath_30m)
                  ["COMPRESS=LZW"] true None;
                Log INFO "Resampling to 30m: End" []] /\
       product' = product) /\
    (sensor product = "L8" \/ sensor product = "L9" ->
       forall precomputed, Dict.get band (image30m product) = Some precomputed ->
       extra = [ImageWrite precomputed ["COMPRESS=LZW"] false (Some newpath_30m)] /\
       product' = set_image30m product (Dict.del band (image30m product))) /\
    (sensor product = "L8" \/ sensor product = "L9" ->
       Dict.get band (image30m product) = None ->
       extra = [] /\ product' = product) /\
    (sensor product <> "S2" -> sensor product <> "L8" -> sensor product <> "L9" ->
       extra = [] /\ product' = product).
Proof.
  intros Hready Hres Hhls Hio newpath newpath_30m.
  destruct (process_run product image band w digits archive res true Hready Hres Hhls Hio)
    as (w' & Hrun & Htr & _).
  exists (product_after true product band), (image_written image (Some newpath)), w',
    (secondary_output true product band newpath newpath_30m).
  split; [exact Hrun |]. split; [exact Htr |].
  unfold secondary_output, product_after, family_S2, family_L8_L9, precomputed_output,
    resampled_output, Dict.contains. cbn [andb].
  split; [| split; [| split]].
  - intros ->. by cbn.
  - intros Hs precomputed Hget. rewrite Hget.
    destruct Hs as [-> | ->]; by cbn.
  - intros Hs Hget. rewrite Hget.
    destruct Hs as [-> | ->]; by cbn.
  - intros H2 H8 H9. apply String.eqb_neq in H2, H8, H9. rewrite H2, H8, H9. by cbn.
Qed.
End Packager.

(* ===================================================================== *)
(** ** Further properties

    What the two files do besides: how they fail, what they leave
    untouched, and how their blocks compose. *)

Lemma same_store_refl w : same_store w w.
Proof. by repeat split. Qed.

Lemma same_store_trace f w : same_store w (with_trace f w).
Proof. by repeat split. Qed.

Lemma same_store_trans w1 w2 w3 : same_store w1 w2 -> same_store w2 w3 -> same_store w1 w3.
Proof.
  intros (H1 & H2 & H3 & H4) (G1 & G2 & G3 & G4).
  repeat split; congruence.
Qed.

Ltac step_in H := repeat (progress (unfold_monad; cbn in H)).

(** *** Paths and texts *)

Lemma path_join_absolute a l b :
  Py.startswith "/" b = true -> Py.path_join a (l ++ [b]) = b.
Proof.
  intros H. unfold Py.path_join. rewrite fold_left_app. cbn [fold_left].
  unfold Py.path_join2. by rewrite H.
Qed.

Lemma path_join_absolute2 a x b :
  Py.startswith "/" b = true -> Py.path_join a [x; b] = b.
Proof. exact (path_join_absolute a [x] b). Qed.

Lemma startswith_slash s : Py.startswith "/" s = true -> exists rest, s = String "/" rest.
Proof.
  destruct s as [|c rest]; [discriminate |].
  unfold Py.startswith. cbn [String.prefix].
  destruct (ascii_dec "/" c) as [<-|]; [eauto | discriminate].
Qed.

Lemma path_join2_absolute a b :
  Py.startswith "/" a = true -> Py.startswith "/" (Py.path_join2 a b) = true.
Proof.
  intros Ha. unfold Py.path_join2.
  destruct (Py.startswith "/" b) eqn:Hb; [exact Hb |].
  apply startswith_slash in Ha as [rest ->].
  assert (H : forall t, Py.startswith "/" (String "/" rest ++ t) = true).
  { intros t. change (String "/" rest ++ t) with (String "/" (rest ++ t)).
    unfold Py.startswith. cbn [String.prefix].
    destruct (ascii_dec "/" "/") as [_|Hne]; [by destruct (rest ++ t) | by destruct Hne]. }
  destruct (_ || _)%bool; apply H.
Qed.

Lemma path_join_startswith a l :
  Py.startswith "/" a = true -> Py.startswith "/" (Py.path_join a l) = true.
Proof.
  unfold Py.path_join. revert a.
  induction l as [|b l IH]; intros a Ha; [exact Ha |].
  cbn [fold_left]. apply IH. by apply path_join2_absolute.
Qed.









Lemma prefix_append a b : String.prefix a (a ++ b) = true.
Proof.
  induction a as [|c a IH]; [by destruct b |].
  change (String c a ++ b) with (String c (a ++ b)). cbn [String.prefix].
  destruct (ascii_dec c c) as [_|Hne]; [exact IH | by destruct Hne].
Qed.

Lemma imageout_other band key :
  Py.startswith "imageout_" key = false -> "imageout_" ++ band <> key.
Proof.
  intros H <-. unfold Py.startswith in H. by rewrite prefix_append in H.
Qed.

Lemma imageout_dir_ne band : band <> "dir" -> "imageout_" ++ band <> "imageout_dir".
Proof. intros Hb H. apply Hb. cbv in H. congruence. Qed.

Lemma snapshots_app t1 t2 : snapshots (t1 ++ t2) = (snapshots t1 ++ snapshots t2)%list.
Proof. apply omap_app. Qed.

(** *** Floating-point numbers and grids *)

Lemma mul_nan_r fmt x : Float.mul fmt x S754_nan = S754_nan.
Proof. by destruct x. Qed.

Lemma add_nan_r fmt x : Float.add fmt x S754_nan = S754_nan.
Proof. by destruct x. Qed.

Lemma add_nan_l fmt x : Float.add fmt S754_nan x = S754_nan.
Proof. by destruct x. Qed.

Lemma convert_nan a b : Float.convert a b S754_nan = S754_nan.
Proof. unfold Float.convert. by destruct (Float.eqb_format a b). Qed.

Lemma zip_with_map_same {A B C D} (f : B -> C -> D) (g : A -> B) (h : A -> C) l :
  zip_with f (map g l) (map h l) = map (fun x => f (g x) (h x)) l.
Proof. induction l as [|x l IH]; [reflexivity |]. cbn. by rewrite IH. Qed.

Lemma zip2d_map2d_same {A B C D} (f : B -> C -> D) (g : A -> B) (h : A -> C) a :
  zip2d f (map2d g a) (map2d h a) = map2d (fun x => f (g x) (h x)) a.
Proof.
  unfold zip2d, map2d. rewrite zip_with_map_same.
  apply map_ext. intros row. apply zip_with_map_same.
Qed.

Lemma map2d_map2d {A B C} (f : B -> C) (g : A -> B) a :
  map2d f (map2d g a) = map2d (fun x => f (g x)) a.
Proof.
  unfold map2d. rewrite map_map. apply map_ext. intros row. apply map_map.
Qed.

(** *** The registry, a Python dictionary *)

Section DictFacts.
Context {V : Type}.
Implicit Types (d : Dict.t V) (k : string) (v : V).

Lemma dict_get_set_eq k v d : Dict.get k (Dict.set k v d) = Some v.
Proof.
  induction d as [|[k' v'] d IH]; cbn.
  - by rewrite String.eqb_refl.
  - destruct (String.eqb k' k) eqn:E; cbn; [by rewrite String.eqb_refl | by rewrite E].
Qed.

Lemma dict_get_set_ne k k' v d : k <> k' -> Dict.get k' (Dict.set k v d) = Dict.get k' d.
Proof.
  intros Hne. apply String.eqb_neq in Hne.
  induction d as [|[k0 v0] d IH]; cbn.
  - by rewrite Hne.
  - destruct (String.eqb k0 k) eqn:E; cbn.
    + apply String.eqb_eq in E as ->. by rewrite Hne.
    + by rewrite IH.
Qed.

Lemma dict_keys_set k v d :
  Dict.keys (Dict.set k v d) =
  if Dict.contains k d then Dict.keys d else (Dict.keys d ++ [k])%list.
Proof.
  unfold Dict.contains, Dict.keys.
  induction d as [|[k0 v0] d IH]; cbn; [reflexivity |].
  destruct (String.eqb k0 k) eqn:E; cbn.
  - apply String.eqb_eq in E as ->. reflexivity.
  - rewrite IH. by destruct (Dict.get k d).
Qed.

Lemma dict_get_absent k d : k ∉ Dict.keys d -> Dict.get k d = None.
Proof.
  unfold Dict.keys. induction d as [|[k0 v0] d IH]; cbn; [reflexivity |].
  intros Hk. destruct (String.eqb k0 k) eqn:E.
  - apply String.eqb_eq in E as ->. destruct Hk. by left.
  - apply IH. intros Hin. apply Hk. by right.
Qed.

Lemma dict_get_del_eq k d : NoDup (Dict.keys d) -> Dict.get k (Dict.del k d) = None.
Proof.
  unfold Dict.keys. induction d as [|[k0 v0] d IH]; cbn; [reflexivity |].
  intros Hnd. apply NoDup_cons in Hnd as [Hk0 Hnd].
  destruct (String.eqb k0 k) eqn:E; cbn.
  - apply String.eqb_eq in E as ->. by apply dict_get_absent.
  - rewrite E. by apply IH.
Qed.

Lemma dict_get_del_ne k k' d : k <> k' -> Dict.get k' (Dict.del k d) = Dict.get k' d.
Proof.
  intros Hne. apply String.eqb_neq in Hne.
  induction d as [|[k0 v0] d IH]; cbn; [reflexivity |].
  destruct (String.eqb k0 k) eqn:E; cbn.
  - apply String.eqb_eq in E as ->. by rewrite Hne.
  - by rewrite IH.
Qed.
End DictFacts.

(** *** The atmospheric correction *)

Section AtmcorFrame.
Context `{ext : External}.

Lemma corner_step_state e extent c i w :
  state_of (corner_step e extent c i w) = w.
Proof.
  unfold corner_step. step.
  repeat (match goal with
          | |- context [extent !! ?k] => destruct (extent !! k)
          end; step; [| reflexivity]).
  reflexivity.
Qed.

Lemma for_each_corner_state e extent l : forall c w,
  state_of (for_each (corner_step e extent) l c w) = w.
Proof.
  induction l as [|i l IH]; intros c w; [reflexivity |].
  cbn [for_each]. rewrite bind_run.
  pose proof (corner_step_state e extent c i w) as H.
  destruct (corner_step e extent c i w) as [c' w1|x w1]; cbn [state_of] in H; subst w1.
  - apply IH.
  - reflexivity.
Qed.

(** Resolving the atmospheric state only logs. *)
Lemma atmospheric_state_frame e extent w :
  same_store w (state_of (atmospheric_state e extent w)).
Proof.
  unfold atmospheric_state. destruct (is_valid e).
  - rewrite bind_run.
    match goal with |- context [for_each ?b ?l ?c w] =>
      pose proof (for_each_corner_state e extent l c w) as H;
      destruct (for_each b l c w) as [c' w1|x w1] end;
      cbn [state_of] in H; subst w1; step; by repeat split.
  - step. by repeat split.
Qed.

(** Every outcome of [smac_correction] at once: what it leaves of the
    store and of the arrays, and what it returns. *)
Lemma smac_correction_outcome product array_in extent band w :
  let r := smac_correction product array_in extent band w in
  qi (state_of r) = qi w /\
  images (state_of r) = images w /\
  (config (state_of r) = config w \/
   exists atm, config (state_of r) = record_state atm (config w)) /\
  (forall k a, arrays w !! k = Some a -> arrays (state_of r) !! k = Some a) /\
  (forall x w', r = Ok x w' -> x = array_in \/ arrays w !! x = None) /\
  (forall x w', r = Ok x w' -> exists atm, config w' = record_state atm (config w)).
Proof.
  intros r. pose proof (eq_refl r) as Hr. unfold r at 1 in Hr. clearbody r.
  unfold smac_correction in Hr.
  rewrite bind_run in Hr. cbn [log emit modify] in Hr.
  rewrite bind_run in Hr.
  destruct (strptime _ _) as [d|]; cbn [expect] in Hr.
  2: { subst r. cbn. repeat split; auto; discriminate. }
  unfold ret at 1 in Hr. cbn [mret M_ret] in Hr.
  rewrite bind_run, get_cams_configuration_run in Hr.
  rewrite bind_run in Hr. cbn [config with_trace] in Hr.
  match type of Hr with context [atmospheric_state ?e extent ?w0] =>
    pose proof (atmospheric_state_frame e extent w0) as (Hc & Hq & Hi & Ha);
    destruct (atmospheric_state e extent w0) as [atm w1|x w1] end;
    cbn [state_of config qi images arrays with_trace] in Hc, Hq, Hi, Ha.
  2: { subst r. cbn. rewrite Hc, Hq, Hi, Ha. repeat split; auto; discriminate. }
  assert (Hfresh : forall k a, arrays w !! k = Some a -> fresh (dom (arrays w1)) <> k).
  { intros k a Hk Heq. apply (is_fresh (dom (arrays w1))). rewrite Heq, Ha.
    apply elem_of_dom. eauto. }
  step_in Hr.
  destruct (get_smac_coefficients product band) as [f|]; step_in Hr.
  2: { subst r. cbn. rewrite Hc, Hq, Hi, Ha. repeat split; eauto.
       - intros x w' [= <- _]. by left.
       - intros x w' [= _ <-]. cbn. rewrite Hc. eauto. }
  destruct (arrays w1 !! array_in) as [a|]; step_in Hr.
  2: { subst r. cbn. rewrite Hc, Hq, Hi, Ha. repeat split; eauto; discriminate. }
  repeat (match type of Hr with
          | context [match ?l !! ?i with _ => _ end] => destruct (l !! i)
          end; step_in Hr;
          [| subst r; cbn; rewrite Hc, Hq, Hi, Ha; repeat split; eauto; discriminate]).
  subst r. cbn. rewrite Hc, Hq, Hi. repeat split; eauto.
  - intros k a0 Hk. rewrite lookup_insert_ne by (by apply (Hfresh k a0)).
    by rewrite Ha.
  - intros x w' [= <- _]. right.
    apply not_elem_of_dom. rewrite <- Ha. apply is_fresh.
  - intros x w' [= _ <-]. cbn. rewrite Hc. eauto.
Qed.

Lemma smac_correction_other_keys product array_in extent band w key :
  key ∉ ["uH2O"; "uO3"; "pressure"; "taup550"] ->
  config (state_of (smac_correction product array_in extent band w)) !! key = config w !! key.
Proof.
  intros Hk.
  destruct (smac_correction_outcome product array_in extent band w)
    as (_ & _ & Hc & _).
  destruct Hc as [-> | [atm ->]]; [reflexivity |].
  unfold record_state.
  rewrite !lookup_insert_ne; [reflexivity | | | |];
    intros <-; apply Hk; repeat constructor.
Qed.

(** The corner loop on an extent that has four corners. *)
Lemma atmospheric_state_valid e x0 y0 x1 y1 x2 y2 x3 y3 rest w :
  is_valid e = true ->
  let extent := x0 :: y0 :: x1 :: y1 :: x2 :: y2 :: x3 :: y3 :: rest in
  let c := scene_centre e x0 y0 x1 y1 x2 y2 x3 y3 in
  exists w',
    atmospheric_state e extent w =
      Ok {| uH2O := estimate extent (v_ctwv c) c;
            uO3 := estimate extent (v_gtc03 c) c;
            pressure := estimate extent (v_msl c) c;
            taup550 := estimate extent (v_aot c) c |} w' /\
    same_store w w'.
Proof.
  intros Hv extent c. unfold atmospheric_state. rewrite Hv.
  subst extent c. unfold scene_centre.
  step. eexists. split; [reflexivity |]. by repeat split.
Qed.

Lemma apply_fit_map2d c0 c1 c2 a :
  apply_fit c0 c1 c2 a = map2d (surface casting c0 c1 c2) a.
Proof.
  unfold apply_fit, np.mask_zero, np.add, np.scalar_add, np.scalar_mul, np.square32,
    np.le0, np.float32.
  cbv zeta. rewrite !map2d_map2d, !zip2d_map2d_same.
  unfold map2d. apply map_ext. intros row. apply map_ext. intros x.
  unfold surface, quadratic.
  destruct (Float.leb (Float.cast f32 x) Float.pzero); reflexivity.
Qed.

(** X1.  When [strptime] rejects the text of the sensing time,
    [smac_correction] raises [ValueError] having done nothing but log its
    first record: the store, the quality indicators, the registry and the
    arrays are as they were. *)
Theorem smac_correction_unparsable_time product array_in extent band w :
  strptime (obs_of product) obs_format = None ->
  smac_correction product array_in extent band w = Raise ValueError (entry w).
Proof.
  unfold obs_of, obs_format. intros H. unfold smac_correction.
  rewrite bind_run. cbn [log emit modify]. rewrite bind_run, H. reflexivity.
Qed.

(** X2.  With a valid atmospheric dataset and an extent of fewer than
    eight coordinates, the corner loop reads past the end of the extent:
    [smac_correction] raises [IndexError] before it records anything in
    the configuration store. *)
Theorem smac_correction_short_extent product array_in extent band w d :
  strptime (obs_of product) obs_format = Some d ->
  is_valid (ecmwf_data w d) = true ->
  (length extent < 8)%nat ->
  smac_correction product array_in extent band w = Raise IndexError (entry w).
Proof.
  unfold obs_of, obs_format, ecmwf_data. intros Hd Hv Hl. unfold smac_correction.
  rewrite bind_run. cbn [log emit modify]. rewrite bind_run, Hd. cbn [expect].
  unfold ret at 1. cbn [mret M_ret].
  rewrite bind_run, get_cams_configuration_run.
  rewrite bind_run. cbn [config with_trace].
  unfold atmospheric_state. rewrite Hv.
  do 8 (destruct extent as [|? extent]; [step; reflexivity |]).
  cbn in Hl. lia.
Qed.

(** X3.  Whatever [smac_correction] does, returning or raising, it
    leaves the quality indicators and the registry of the packager as
    they were, it changes no key of the configuration store other than
    [uH2O], [uO3], [pressure] and [taup550], and these four it sets all
    together, to the scalars of one atmospheric state, or not at all. *)
Theorem smac_correction_store product array_in extent band w :
  let w' := state_of (smac_correction product array_in extent band w) in
  qi w' = qi w /\
  images w' = images w /\
  (forall key, key ∉ ["uH2O"; "uO3"; "pressure"; "taup550"] ->
     config w' !! key = config w !! key) /\
  (config w' = config w \/
   exists atm,
     config w' !! "uH2O" = Some (VFloat (uH2O atm)) /\
     config w' !! "uO3" = Some (VFloat (uO3 atm)) /\
     config w' !! "pressure" = Some (VFloat (pressure atm)) /\
     config w' !! "taup550" = Some (VFloat (taup550 atm))).
Proof.
  intros w'.
  destruct (smac_correction_outcome product array_in extent band w)
    as (Hq & Hi & Hc & _).
  fold w' in Hq, Hi, Hc.
  split; [exact Hq |]. split; [exact Hi |]. split.
  - intros key Hk. by apply smac_correction_other_keys.
  - destruct Hc as [Hc | [atm Hc]]; [by left | right].
    exists atm. rewrite Hc. unfold record_state. repeat split; by simplify_map_eq.
Qed.

(** X4.  [smac_correction] never writes into an array that exists: every
    live array, the input among them, holds the same values afterwards;
    and the array it returns is the input itself or one that did not
    exist before the call. *)
Theorem smac_correction_arrays product array_in extent band w :
  let r := smac_correction product array_in extent band w in
  (forall k a, arrays w !! k = Some a -> arrays (state_of r) !! k = Some a) /\
  (forall x w', r = Ok x w' -> x = array_in \/ arrays w !! x = None).
Proof.
  intros r.
  destruct (smac_correction_outcome product array_in extent band w)
    as (_ & _ & _ & Ha & Hr & _).
  split; assumption.
Qed.

(** X5.  With a valid dataset, the four scalars that [smac_correction]
    records are the planes that [compute_model] fits through the corner
    values, taken at the scene centre: the centre is the sum of the four
    longitudes, and of the four latitudes, each times 0.25, added up from
    0 in the order of the corners; corner [i] is sampled at latitude
    [extent[2i+1]] and longitude [extent[2i]]; coordinates beyond the
    eighth are not read by the loop. *)
Theorem smac_correction_estimated_state product array_in band w d x0 y0 x1 y1 x2 y2 x3 y3 rest :
  strptime (obs_of product) obs_format = Some d ->
  is_valid (ecmwf_data w d) = true ->
  let extent := x0 :: y0 :: x1 :: y1 :: x2 :: y2 :: x3 :: y3 :: rest in
  let c := scene_centre (ecmwf_data w d) x0 y0 x1 y1 x2 y2 x3 y3 in
  let w' := state_of (smac_correction product array_in extent band w) in
  config w' !! "uH2O" = Some (VFloat (estimate extent (v_ctwv c) c)) /\
  config w' !! "uO3" = Some (VFloat (estimate extent (v_gtc03 c) c)) /\
  config w' !! "pressure" = Some (VFloat (estimate extent (v_msl c) c)) /\
  config w' !! "taup550" = Some (VFloat (estimate extent (v_aot c) c)).
Proof.
  intros Hd Hv extent c w'.
  destruct (atmospheric_state_valid (ecmwf_data w d) x0 y0 x1 y1 x2 y2 x3 y3 rest (entry w) Hv)
    as (w1 & Ha & _).
  assert (H : config w' = record_state _ (config w1))
    by exact (smac_correction_config product array_in extent band w d _ w1 Hd Ha).
  rewrite H. unfold record_state. repeat split; by simplify_map_eq.
Qed.

(** X6.  The corrected grid has the shape of the input grid: as many
    rows, and each row as long as the input row. *)
Theorem apply_fit_shape c0 c1 c2 a :
  map length (apply_fit c0 c1 c2 a) = map length a.
Proof.
  rewrite apply_fit_map2d. unfold map2d. rewrite map_map.
  apply map_ext. intros row. apply length_map.
Qed.

(** X7.  A pixel that is not a number stays so: the mask [Bands_toa <= 0]
    is false on NaN, so the pixel is not forced to 0, and the polynomial
    of NaN is NaN. *)
Theorem apply_fit_nan c0 c1 c2 a i j :
  pixel a i j = Some S754_nan -> pixel (apply_fit c0 c1 c2 a) i j = Some S754_nan.
Proof.
  intros H. rewrite apply_fit_pixel. unfold Float.float in *. rewrite H. cbn.
  unfold surface, quadratic. cbn.
  by rewrite !mul_nan_r, !convert_nan, !mul_nan_r, convert_nan, add_nan_r, convert_nan,
    add_nan_l.
Qed.

(** X8.  [get_smac_coefficients] answers a path exactly when the product
    names a coefficient file for the band and the file
    [<smac directory>/COEFS/<name>] exists, and the path is that one; and
    when the name the product gives is an absolute path, the directory of
    the [smac] module plays no part: the name itself is tested and
    returned. *)
Theorem get_smac_coefficients_exists product band :
  (forall f, get_smac_coefficients product band = Some f <->
     exists filename,
       get_smac_filename product band = Some filename /\
       f = Py.path_join smac_directory ["COEFS"; filename] /\
       path_exists f = true) /\
  (forall filename,
     get_smac_filename product band = Some filename ->
     Py.startswith "/" filename = true ->
     get_smac_coefficients product band =
       if path_exists filename then Some filename else None).
Proof.
  unfold get_smac_coefficients. split.
  - intros f. destruct (get_smac_filename product band) as [filename|].
    + destruct (path_exists _) eqn:He; split.
      * intros [= <-]. eauto.
      * intros (fn & [= <-] & -> & _). reflexivity.
      * discriminate.
      * intros (fn & [= <-] & -> & Hx). congruence.
    + split; [discriminate | intros (fn & Hfn & _); discriminate].
  - intros filename -> Habs.
    by rewrite (path_join_absolute2 smac_directory "COEFS" filename Habs).
Qed.

(** X13.  [S2L_Atmcor.postprocess] always completes; it changes neither
    the configuration store, nor the registry, nor an array, and it emits
    nothing; of the quality indicators it changes at most
    [AC_PROCESSOR], [GRANULE_MEAN_WV], [OZONE_VALUE], [PRESSURE] and
    [GRANULE_MEAN_AOT]. *)
Theorem atmcor_postprocess_frame product w :
  exists w',
    S2L_Atmcor_postprocess product w = Ok tt w' /\
    config w' = config w /\ images w' = images w /\ arrays w' = arrays w /\
    trace w' = trace w /\
    (forall key,
       key ∉ ["AC_PROCESSOR"; "GRANULE_MEAN_WV"; "OZONE_VALUE"; "PRESSURE"; "GRANULE_MEAN_AOT"] ->
       qi w' !! key = qi w !! key).
Proof.
  unfold S2L_Atmcor_postprocess. step.
  destruct (getboolean (config w !! "use_sen2cor")); step;
    [| destruct (getboolean (config w !! "use_smac")); step];
    (eexists; split; [reflexivity |]); cbn; (do 4 (split; [reflexivity |]));
    intros key Hk; rewrite ?lookup_insert_ne; try reflexivity;
    intros <-; apply Hk; repeat constructor.
Qed.
End AtmcorFrame.

Section AtmcorProcess.
Context `{ext : External} `{img : Imaging}.

(** [process] with [use_smac], in terms of [smac_correction]. *)
Lemma process_run_smac product image band w :
  getboolean (config w !! "use_smac") = true ->
  S2L_Atmcor_process product image band w =
  match smac_correction product (array image) (getCorners image) band (started w) with
  | Ok array_out w1 =>
      if getboolean (config w1 !! "generate_intermediate_products") then
        if io_fails (ImageWrite image ["COMPRESS=LZW"] false None) then Raise OSError w1
        else Ok (duplicate image (output_file product band) array_out)
               (with_trace (fun t => (t ++ [ImageWrite image ["COMPRESS=LZW"] false None;
                                            Log INFO "End" []])%list) w1)
      else Ok (duplicate image (output_file product band) array_out)
             (with_trace (fun t => (t ++ [Log INFO "End" []])%list) w1)
  | Raise e w1 => Raise e w1
  end.
Proof.
  intros H. unfold S2L_Atmcor_process, started.
  rewrite bind_run. cbn [log emit modify].
  rewrite bind_run. unfold config_getboolean at 1, gets at 1. cbn [config with_trace]. rewrite H.
  rewrite bind_run. rewrite bind_run.
  destruct (smac_correction _ _ _ _ _) as [array_out w1|e w1]; [| reflexivity].
  step.
  destruct (getboolean (config w1 !! "generate_intermediate_products")); step.
  - destruct (io_fails _); step; [reflexivity |]. by rewrite with_trace_app.
  - reflexivity.
Qed.

(** X9.  Without [use_smac], [S2L_Atmcor.process] returns the image it
    was given, the same object, and does nothing but log three records:
    no array is read or made, the store is not touched, nothing is
    written. *)
Theorem process_without_smac product image band w :
  getboolean (config w !! "use_smac") = false ->
  S2L_Atmcor_process product image band w =
  Ok image
     (with_trace (fun t => (t ++ [Log INFO "Start" [];
                                  Log INFO "Atmo corr already done with sen2cor" [];
                                  Log INFO "End" []])%list) w).
Proof.
  intros H. unfold S2L_Atmcor_process. step. rewrite H. step.
  unfold with_trace. cbn. by rewrite <- !app_assoc.
Qed.

(** X10.  [S2L_Atmcor.process] catches nothing: when [smac_correction]
    raises, [process] raises the same exception in the state the
    correction left, so no image is duplicated or written and the record
    [End] is not logged. *)
Theorem process_failure_propagates product image band w e w1 :
  getboolean (config w !! "use_smac") = true ->
  smac_correction product (array image) (getCorners image) band (started w) = Raise e w1 ->
  S2L_Atmcor_process product image band w = Raise e w1.
Proof.
  intros H Hs. by rewrite process_run_smac, Hs.
Qed.

(** X11.  With [use_smac], when the correction returns an array,
    [process] returns the duplicate of the input image under the output
    file name of the band, holding that array; and with
    [generate_intermediate_products] the image it writes is the input
    image, not the corrected duplicate.  The flag is the one of the store
    before the call, which the correction does not change. *)
Theorem process_with_smac product image band w array_out w1 :
  getboolean (config w !! "use_smac") = true ->
  smac_correction product (array image) (getCorners image) band (started w) = Ok array_out w1 ->
  io_fails (ImageWrite image ["COMPRESS=LZW"] false None) = false ->
  let written :=
    if getboolean (config w !! "generate_intermediate_products")
    then [ImageWrite image ["COMPRESS=LZW"] false None] else [] in
  S2L_Atmcor_process product image band w =
  Ok (duplicate image (output_file product band) array_out)
     (with_trace (fun t => (t ++ written ++ [Log INFO "End" []])%list) w1).
Proof.
  intros H Hs Hio written. rewrite process_run_smac by exact H.
  pose proof (smac_correction_other_keys product (array image) (getCorners image) band
                (started w) "generate_intermediate_products") as Hk.
  rewrite Hs in *. cbn [state_of started config with_trace] in Hk.
  rewrite Hk by (intros Hin; repeat (apply elem_of_cons in Hin as [Hin|Hin]; [discriminate Hin |]);
                 by apply elem_of_nil in Hin).
  subst written. rewrite Hio.
  by destruct (getboolean (config w !! "generate_intermediate_products")).
Qed.

(** X12.  [process] and then [postprocess]: with [use_smac] and without
    [use_sen2cor], once [process] has completed, the store holds the
    scalars of one atmospheric state, the flags are as before, and
    [postprocess] completes and records [AC_PROCESSOR = SMAC] and those
    same four scalars in the quality indicators. *)
Theorem process_then_postprocess product image band w out w' :
  getboolean (config w !! "use_sen2cor") = false ->
  getboolean (config w !! "use_smac") = true ->
  S2L_Atmcor_process product image band w = Ok out w' ->
  exists atm w'',
    config w' = record_state atm (config w) /\
    S2L_Atmcor_postprocess product w' = Ok tt w'' /\
    qi w'' !! "AC_PROCESSOR" = Some (VStr "SMAC") /\
    qi w'' !! "GRANULE_MEAN_WV" = Some (VFloat (uH2O atm)) /\
    qi w'' !! "OZONE_VALUE" = Some (VFloat (uO3 atm)) /\
    qi w'' !! "PRESSURE" = Some (VFloat (pressure atm)) /\
    qi w'' !! "GRANULE_MEAN_AOT" = Some (VFloat (taup550 atm)).
Proof.
  intros H1 H2 Hp. rewrite process_run_smac in Hp by exact H2.
  destruct (smac_correction_outcome product (array image) (getCorners image) band (started w))
    as (_ & _ & _ & _ & _ & Hc).
  destruct (smac_correction _ _ _ _ _) as [array_out w1|e w1]; [| discriminate Hp].
  destruct (Hc array_out w1 eq_refl) as [atm Hatm]. cbn [started config with_trace] in Hatm.
  assert (Hcfg : config w' = record_state atm (config w)).
  { destruct (getboolean (config w1 !! "generate_intermediate_products"));
      [destruct (io_fails _); [discriminate Hp |] |];
      injection Hp as _ <-; exact Hatm. }
  assert (Hs1 : getboolean (config w' !! "use_sen2cor") = false).
  { rewrite Hcfg. unfold record_state. by rewrite !lookup_insert_ne by discriminate. }
  assert (Hs2 : getboolean (config w' !! "use_smac") = true).
  { rewrite Hcfg. unfold record_state. by rewrite !lookup_insert_ne by discriminate. }
  assert (Hu : config w' !! "uH2O" = Some (VFloat (uH2O atm)) /\
               config w' !! "uO3" = Some (VFloat (uO3 atm)) /\
               config w' !! "pressure" = Some (VFloat (pressure atm)) /\
               config w' !! "taup550" = Some (VFloat (taup550 atm))).
  { rewrite Hcfg. unfold record_state. repeat split; by simplify_map_eq. }
  destruct Hu as (Hu1 & Hu2 & Hu3 & Hu4).
  exists atm. unfold S2L_Atmcor_postprocess.
  step. rewrite Hs1. step. rewrite Hs2. step.
  eexists. split; [exact Hcfg |]. split; [reflexivity |]. cbn.
  rewrite Hu1, Hu2, Hu3, Hu4. cbn.
  repeat split; by simplify_map_eq.
Qed.
End AtmcorProcess.

(** *** The packager *)

Section PackagerProcess.
Context `{ext : External}.

Lemma base_path_orbit product w v digits :
  config w !! "relative_orbit" = Some v -> orbit_digits v = Some digits ->
  base_path product w = Ok (outdir_of product digits, tile_token (mgrs (mtl product))) w.
Proof.
  intros Hv Hd. unfold base_path.
  rewrite bind_run. unfold config_get at 1, gets at 1. rewrite Hv. cbn [default from_option].
  rewrite bind_run, (format_0gt3_digits _ _ _ Hd). rewrite startswith_T.
  reflexivity.
Qed.

Lemma process_other_keys w band (a b : pyval) key :
  Py.startswith "imageout_" key = false ->
  (<["imageout_" ++ band := a]> (<["imageout_dir" := b]> (config w))) !! key = config w !! key.
Proof.
  intros Hk. rewrite lookup_insert_ne by (by apply imageout_other).
  apply lookup_insert_ne. by apply (imageout_other "dir").
Qed.

Lemma secondary_output_quicklooks hlsplus product band newpath newpath_30m :
  quicklooks (secondary_output hlsplus product band newpath newpath_30m) = [].
Proof.
  unfold secondary_output, resampled_output, precomputed_output.
  destruct hlsplus; [| reflexivity].
  destruct (family_S2 product), (family_L8_L9 product); try reflexivity;
    by destruct (Dict.get band (image30m product)).
Qed.

Lemma product_after_names hlsplus product band digits archive :
  outdir_of (product_after hlsplus product band) digits = outdir_of product digits /\
  tsdir_of (product_after hlsplus product band) archive = tsdir_of product archive.
Proof. unfold product_after. by destruct (_ && _ && _). Qed.

Lemma process_keeps_ready w w' band (a b : pyval) digits archive wd offset :
  config w' = <["imageout_" ++ band := a]> (<["imageout_dir" := b]> (config w)) ->
  finalize_ready w digits archive wd offset ->
  finalize_ready w' digits archive wd offset /\ quality_of w' = quality_of w /\
  getboolean (config w' !! "hlsplus") = getboolean (config w !! "hlsplus").
Proof.
  intros Hcfg ((Horb & Harch) & Hwd & Hoff).
  assert (Hk : forall key, Py.startswith "imageout_" key = false ->
                           config w' !! key = config w !! key).
  { intros key Hkey. rewrite Hcfg. by apply process_other_keys. }
  unfold finalize_ready, packager_ready, quality_of.
  rewrite !Hk by reflexivity. by repeat split.
Qed.

Lemma family_exclusive product : family_L8_L9 product = true -> family_S2 product = false.
Proof.
  unfold family_L8_L9, family_S2. intros H.
  apply orb_true_iff in H as [H|H]; apply String.eqb_eq in H; by rewrite H.
Qed.

(** X14.  When [S2L_Packager.process] completes, the registry answers
    the path of the written image under the band and is unchanged under
    every other band; the store answers the file name of the image under
    [imageout_<band>] and, for a band other than [dir], its directory
    under [imageout_dir]; every key that does not begin with [imageout_]
    holds what it held; the quality indicators and the arrays are
    untouched. *)
Theorem process_declares_output product image band w digits archive res :
  packager_ready w digits archive ->
  Float.trunc (xRes image) = Some res ->
  (forall ev, io_fails ev = false) ->
  let image' := image_written image (Some (band_path product archive digits band res)) in
  exists product' w',
    S2L_Packager_process product image band w = Ok (product', image') w' /\
    Dict.get band (images w') = Some (filepath image') /\
    (forall b, b <> band -> Dict.get b (images w') = Dict.get b (images w)) /\
    config w' !! ("imageout_" ++ band) = Some (VStr (filename image')) /\
    (band <> "dir" -> config w' !! "imageout_dir" = Some (VStr (dirpath image'))) /\
    (forall key, Py.startswith "imageout_" key = false -> config w' !! key = config w !! key) /\
    qi w' = qi w /\ arrays w' = arrays w.
Proof.
  intros Hready Hres Hio image'.
  destruct (process_run product image band w digits archive res _ Hready Hres eq_refl Hio)
    as (w' & Hrun & _ & Him & Hcfg & Hqi & Harr).
  eexists _, w'. split; [exact Hrun |]. fold image' in Him, Hcfg.
  split; [rewrite Him; apply dict_get_set_eq |].
  split; [intros b Hb; rewrite Him; by apply dict_get_set_ne |].
  split; [rewrite Hcfg; apply lookup_insert_eq |].
  split.
  { intros Hb. rewrite Hcfg, lookup_insert_ne by (by apply imageout_dir_ne).
    apply lookup_insert_eq. }
  split; [intros key Hk; rewrite Hcfg; by apply process_other_keys |].
  by split.
Qed.

(** X15.  The order of the registry, which decides the band of the
    grayscale quicklook: packaging a band that the registry holds keeps
    the bands and their order, packaging a new band appends it. *)
Theorem process_registry_order product image band w digits archive res :
  packager_ready w digits archive ->
  Float.trunc (xRes image) = Some res ->
  (forall ev, io_fails ev = false) ->
  Dict.keys (images (state_of (S2L_Packager_process product image band w))) =
  if Dict.contains band (images w) then Dict.keys (images w)
  else (Dict.keys (images w) ++ [band])%list.
Proof.
  intros Hready Hres Hio.
  destruct (process_run product image band w digits archive res _ Hready Hres eq_refl Hio)
    as (w' & Hrun & _ & Him & _).
  rewrite Hrun. cbn [state_of]. rewrite Him. apply dict_keys_set.
Qed.

(** X16.  When the write of the band fails, [process] fails with the
    error of the write ([OSError] here) having logged the path only: the
    band is not registered and the store is not changed. *)
Theorem process_write_failure product image band w digits archive res :
  packager_ready w digits archive ->
  Float.trunc (xRes image) = Some res ->
  let newpath := band_path product archive digits band res in
  io_fails (ImageWrite image ["COMPRESS=LZW"] false (Some newpath)) = true ->
  S2L_Packager_process product image band w =
  Raise OSError (with_trace (fun t => (t ++ [Log DEBUG ("New: " ++ newpath) []])%list) w).
Proof.
  intros Hready Hres newpath Hio.
  unfold S2L_Packager_process.
  rewrite bind_run, (base_path_run _ _ _ _ Hready).
  rewrite bind_run, (py_int_float _ _ _ Hres).
  rewrite bind_run, (archive_dir_run _ _ _ Hready).
  rewrite !band_file_eq.
  fold (tsdir_of product archive). fold (band_path product archive digits band res).
  fold newpath.
  step. rewrite Hio. reflexivity.
Qed.

(** X17.  [int(res)] on a resolution that is not finite: for NaN
    [process] raises [ValueError], for an infinity [OverflowError], in
    both cases before the archive directory is read and with nothing
    logged, written or registered. *)
Theorem process_resolution_not_finite product image band w v digits :
  config w !! "relative_orbit" = Some v -> orbit_digits v = Some digits ->
  (xRes image = S754_nan ->
     S2L_Packager_process product image band w = Raise ValueError w) /\
  (forall s, xRes image = S754_infinity s ->
     S2L_Packager_process product image band w = Raise OverflowError w).
Proof.
  intros Hv Hd. unfold S2L_Packager_process.
  rewrite bind_run, (base_path_orbit _ _ _ _ Hv Hd). rewrite bind_run.
  split; [intros -> | intros s ->]; reflexivity.
Qed.

(** X18.  Without a relative orbit in the store ([get] answers [None]),
    [base_path] raises [TypeError] on the format, so [process] and
    [postprocess] both raise it at once, the state unchanged: nothing is
    written, copied or registered. *)
Theorem packager_missing_orbit product image band w :
  default VNone (config w !! "relative_orbit") = VNone ->
  S2L_Packager_process product image band w = Raise TypeError w /\
  S2L_Packager_postprocess product w = Raise TypeError w.
Proof.
  intros H.
  split; [unfold S2L_Packager_process | unfold S2L_Packager_postprocess];
    unfold base_path; rewrite !bind_run; unfold config_get at 1, gets at 1;
    by rewrite H.
Qed.

(** X19.  When the store holds no string under [archive_dir],
    [os.path.join] raises [TypeError]: [process] raises it before it logs
    or writes anything, and [postprocess] before it copies anything, the
    state unchanged. *)
Theorem packager_missing_archive_dir product image band w v digits res :
  config w !! "relative_orbit" = Some v -> orbit_digits v = Some digits ->
  Float.trunc (xRes image) = Some res ->
  (forall s, config w !! "archive_dir" <> Some (VStr s)) ->
  S2L_Packager_process product image band w = Raise TypeError w /\
  S2L_Packager_postprocess product w = Raise TypeError w.
Proof.
  intros Hv Hd Hres Ha.
  assert (H : (config_get "archive_dir" VNone ≫= as_str) w = Raise TypeError w).
  { step. destruct (config w !! "archive_dir") as [[]|] eqn:E; try reflexivity.
    by destruct (Ha s). }
  split.
  - unfold S2L_Packager_process.
    rewrite bind_run, (base_path_orbit _ _ _ _ Hv Hd).
    rewrite bind_run, (py_int_float _ _ _ Hres).
    by rewrite bind_run, H.
  - unfold S2L_Packager_postprocess.
    rewrite bind_run, (base_path_orbit _ _ _ _ Hv Hd).
    by rewrite bind_run, H.
Qed.

(** X20.  Without [hlsplus], whatever the sensor, [process] logs the
    path and writes the band, and that is all: no other image is opened,
    resampled or written, and the product comes back as it was, its
    precomputed 30 m images included. *)
Theorem process_without_hlsplus product image band w digits archive res :
  packager_ready w digits archive ->
  Float.trunc (xRes image) = Some res ->
  getboolean (config w !! "hlsplus") = false ->
  (forall ev, io_fails ev = false) ->
  let newpath := band_path product archive digits band res in
  exists w',
    S2L_Packager_process product image band w =
      Ok (product, image_written image (Some newpath)) w' /\
    trace w' = (trace w ++ [Log DEBUG ("New: " ++ newpath) [];
                            ImageWrite image ["COMPRESS=LZW"] false (Some newpath)])%list.
Proof.
  intros Hready Hres Hhls Hio newpath.
  destruct (process_run product image band w digits archive res false Hready Hres Hhls Hio)
    as (w' & Hrun & Htr & _).
  exists w'. split; [exact Hrun |].
  rewrite Htr. unfold secondary_output, primary_write. by rewrite app_nil_r.
Qed.

(** X21.  In [hlsplus] mode, the precomputed 30 m image of a band of an
    L8 or L9 product is written once: after [process] the product no
    longer holds an image for the band and still holds the others, and a
    second [process] of the band, on the product and the state the first
    one left, writes the band and nothing else. *)
Theorem precomputed_image_written_once product image image2 band w digits archive res res2 pre :
  packager_ready w digits archive ->
  Float.trunc (xRes image) = Some res ->
  Float.trunc (xRes image2) = Some res2 ->
  getboolean (config w !! "hlsplus") = true ->
  (forall ev, io_fails ev = false) ->
  family_L8_L9 product = true ->
  NoDup (Dict.keys (image30m product)) ->
  Dict.get band (image30m product) = Some pre ->
  exists product' image' w',
    S2L_Packager_process product image band w = Ok (product', image') w' /\
    Dict.get band (image30m product') = None /\
    (forall b, b <> band -> Dict.get b (image30m product') = Dict.get b (image30m product)) /\
    exists w'',
      S2L_Packager_process product' image2 band w' =
        Ok (product', image_written image2 (Some (band_path product archive digits band res2))) w'' /\
      trace w'' = (trace w' ++ primary_write image2 (band_path product archive digits band res2))%list.
Proof.
  intros Hready Hres Hres2 Hhls Hio Hfam Hnd Hget.
  destruct (process_run product image band w digits archive res true Hready Hres Hhls Hio)
    as (w1 & Hrun & _ & _ & Hcfg & _).
  assert (Hafter : product_after true product band =
                   set_image30m product (Dict.del band (image30m product))).
  { unfold product_after, Dict.contains. by rewrite Hfam, Hget. }
  rewrite Hafter in Hrun.
  set (product' := set_image30m product (Dict.del band (image30m product))) in *.
  assert (Hgone : Dict.get band (image30m product') = None)
    by (by apply dict_get_del_eq).
  eexists product', _, w1. split; [exact Hrun |]. split; [exact Hgone |].
  split; [intros b Hb; by apply dict_get_del_ne |].
  assert (Hk : forall key, Py.startswith "imageout_" key = false ->
                           config w1 !! key = config w !! key).
  { intros key Hkey. rewrite Hcfg. by apply process_other_keys. }
  assert (Hready1 : packager_ready w1 digits archive).
  { destruct Hready as [Horb Harch]. unfold packager_ready.
    rewrite !Hk by reflexivity. by split. }
  assert (Hhls1 : getboolean (config w1 !! "hlsplus") = true)
    by (by rewrite Hk).
  destruct (process_run product' image2 band w1 digits archive res2 true Hready1 Hres2 Hhls1 Hio)
    as (w2 & Hrun2 & Htr2 & _).
  exists w2.
  assert (Hsame : product_after true product' band = product').
  { unfold product_after, Dict.contains. rewrite Hgone. by rewrite andb_false_r. }
  rewrite Hsame in Hrun2. split; [exact Hrun2 |].
  rewrite Htr2. unfold secondary_output, precomputed_output.
  assert (Hf2 : family_S2 product' = false) by (by apply (family_exclusive product)).
  rewrite Hf2, Hgone. change (family_L8_L9 product') with (family_L8_L9 product).
  rewrite Hfam. by rewrite !app_nil_r.
Qed.

End PackagerProcess.

Section PackagerFinalize.
Context `{ext : External}.

Lemma base_path_frame product w : state_of (base_path product w) = w.
Proof.
  unfold base_path. step.
  by destruct (config w !! "relative_orbit") as [[]|].
Qed.

Lemma as_str_frame key w : state_of ((config_get key VNone ≫= as_str) w) = w.
Proof. step. by destruct (config w !! key) as [[]|]. Qed.

Lemma py_int_frame v w : state_of (py_int v w) = w.
Proof.
  destruct v as [| |n|x|s]; try reflexivity.
  - destruct x; try reflexivity; unfold py_int; by destruct (Float.trunc _).
  - unfold py_int. by destruct (Py.int_of_string s).
Qed.

Lemma quicklook_store band_list qlpath w :
  same_store w (state_of (quicklook band_list qlpath w)).
Proof.
  unfold quicklook.
  rewrite bind_run. unfold gets at 1.
  rewrite bind_run. unfold config_get at 1, gets at 1.
  rewrite bind_run. rewrite bind_run. unfold config_get at 1, gets at 1.
  pose proof (py_int_frame (default VNone (config w !! "offset")) w) as H.
  destruct (py_int _ w) as [n w1|e w1]; cbn [state_of] in H; subst w1;
    [| apply same_store_refl].
  unfold io. destruct (io_fails _); [apply same_store_refl |].
  apply same_store_trace.
Qed.

Lemma quicklook_selection_store outdir tsdir w :
  same_store w (state_of (quicklook_selection outdir tsdir w)).
Proof.
  unfold quicklook_selection. rewrite bind_run. unfold gets at 1.
  destruct (1 <? Dict.len (images w))%nat.
  - rewrite bind_run.
    match goal with |- context [quicklook ?l ?p w] =>
      pose proof (quicklook_store l p w) as H1; destruct (quicklook l p w) as [? w1|e w1]
    end; cbn [state_of] in H1; [| exact H1].
    eapply same_store_trans; [exact H1 | apply quicklook_store].
  - destruct (Dict.keys (images w)) as [|b l]; [apply same_store_refl |].
    rewrite bind_run. unfold getitem at 1. cbn [lookup list_lookup expect].
    unfold ret at 1. cbn [mret M_ret].
    rewrite bind_run. unfold getitem at 1. cbn [lookup list_lookup expect].
    unfold ret at 1. cbn [mret M_ret].
    apply quicklook_store.
Qed.

Lemma copy_auxiliary_store product outdir tsdir w :
  same_store w (state_of (copy_auxiliary product outdir tsdir w)).
Proof.
  unfold copy_auxiliary. step.
  repeat (match goal with
          | |- context [io_fails ?e] => destruct (io_fails e)
          | |- context [path_exists ?p] => destruct (path_exists p)
          | |- context [truthy ?o] => destruct (truthy o)
          | |- context [config w !! ?k] => destruct (config w !! k) as [[]|]
          end; step);
    by repeat split.
Qed.

Lemma copy_auxiliary_effects product outdir tsdir w wd :
  config w !! "wd" = Some (VStr wd) ->
  (forall ev, io_fails ev = false) ->
  exists evs,
    copy_auxiliary product outdir tsdir w = Ok tt (with_trace (fun t => (t ++ evs)%list) w) /\
    quicklooks evs = [] /\
    snapshots evs = [Py.path_join wd [name product; snapshot_path tsdir outdir]].
Proof.
  intros Hwd Hio. unfold copy_auxiliary.
  repeat (progress (step; rewrite ?Hio, ?Hwd)).
  destruct (truthy (tile_metadata (mtl product))) as [md|];
    repeat (progress (step; rewrite ?Hio, ?Hwd));
    destruct (path_exists (Py.path_join tsdir ["QI"]));
    repeat (progress (step; rewrite ?Hio, ?Hwd));
    destruct (path_exists (Py.path_join wd [name product; "correl_res.txt"]));
    repeat (progress (step; rewrite ?Hio, ?Hwd));
    repeat rewrite with_trace_app; eexists; (split; [reflexivity | split; reflexivity]).
Qed.

Lemma quicklook_selection_run outdir tsdir w offset :
  images w <> Dict.empty ->
  (forall w0, py_int (default VNone (config w !! "offset")) w0 = Ok offset w0) ->
  (forall ev, io_fails ev = false) ->
  exists evs,
    quicklook_selection outdir tsdir w = Ok tt (with_trace (fun t => (t ++ evs)%list) w) /\
    snapshots evs = [].
Proof.
  intros Hne Hoff Hio.
  destruct (images w) as [|[b v] [|[b' v'] l]] eqn:E; [by destruct Hne | |].
  - rewrite (quicklook_selection_one outdir tsdir w offset b); [eauto | by rewrite E | done..].
  - rewrite (quicklook_selection_many outdir tsdir w offset); [eauto | | done..].
    rewrite E. cbn. lia.
Qed.

Lemma quicklook_selection_no_offset outdir tsdir w :
  images w <> Dict.empty ->
  default VNone (config w !! "offset") = VNone ->
  quicklook_selection outdir tsdir w = Raise TypeError w.
Proof.
  intros Hne Hoff.
  assert (Hq : forall l p, quicklook l p w = Raise TypeError w).
  { intros l p. unfold quicklook.
    rewrite bind_run. unfold gets at 1.
    rewrite bind_run. unfold config_get at 1, gets at 1.
    rewrite bind_run. rewrite bind_run. unfold config_get at 1, gets at 1.
    by rewrite Hoff. }
  unfold quicklook_selection. rewrite bind_run. unfold gets at 1.
  destruct (1 <? Dict.len (images w))%nat.
  - by rewrite bind_run, Hq.
  - destruct (images w) as [|[b v] l] eqn:E; [by destruct Hne |].
    cbn [Dict.keys map fst].
    rewrite bind_run. unfold getitem at 1. cbn [lookup list_lookup expect].
    unfold ret at 1. cbn [mret M_ret].
    rewrite bind_run. unfold getitem at 1. cbn [lookup list_lookup expect].
    unfold ret at 1. cbn [mret M_ret].
    apply Hq.
Qed.

(** X23.  [S2L_Packager.postprocess] never changes the configuration
    store, the quality indicators or an array, and it empties the
    registry only at its very end: whenever it raises, the registry is
    what it was. *)
Theorem postprocess_failure_keeps_registry product w :
  let r := S2L_Packager_postprocess product w in
  config (state_of r) = config w /\ qi (state_of r) = qi w /\
  arrays (state_of r) = arrays w /\
  (forall e w', r = Raise e w' -> images w' = images w).
Proof.
  intros r. subst r. unfold S2L_Packager_postprocess.
  rewrite bind_run.
  pose proof (base_path_frame product w) as Hb.
  destruct (base_path product w) as [[outdir tilecode] w1|e1 w1];
    cbn [state_of] in Hb; subst w1.
  2: { cbn. repeat split; auto. by intros e w' [= _ <-]. }
  rewrite bind_run.
  pose proof (as_str_frame "archive_dir" w) as Ha.
  destruct ((config_get "archive_dir" VNone ≫= as_str) w) as [archive w1|e1 w1];
    cbn [state_of] in Ha; subst w1.
  2: { cbn. repeat split; auto. by intros e w' [= _ <-]. }
  rewrite bind_run.
  pose proof (copy_auxiliary_store product outdir (Py.path_join archive [tilecode]) w)
    as (Hc1 & Hq1 & Hi1 & Ha1).
  destruct (copy_auxiliary _ _ _ w) as [? w1|e1 w1];
    cbn [state_of] in Hc1, Hq1, Hi1, Ha1.
  2: { cbn. repeat split; auto. by intros e w' [= _ <-]. }
  rewrite bind_run.
  pose proof (quicklook_selection_store outdir (Py.path_join archive [tilecode]) w1)
    as (Hc2 & Hq2 & Hi2 & Ha2).
  destruct (quicklook_selection _ _ w1) as [? w2|e2 w2];
    cbn [state_of] in Hc2, Hq2, Hi2, Ha2.
  - cbn. repeat split; try congruence. discriminate.
  - cbn. repeat split; congruence.
Qed.

(** X24.  Without an offset in the store, [int(None)] raises
    [TypeError] while the arguments of the first [quicklook] call are
    evaluated: on a registry that is not empty, [postprocess] has then
    copied the auxiliary files and saved the configuration, it has made
    no quicklook, and the registry is not emptied. *)
Theorem postprocess_missing_offset product w digits archive wd :
  packager_ready w digits archive ->
  config w !! "wd" = Some (VStr wd) ->
  (forall ev, io_fails ev = false) ->
  images w <> Dict.empty ->
  default VNone (config w !! "offset") = VNone ->
  exists w',
    S2L_Packager_postprocess product w = Raise TypeError w' /\
    quicklooks (trace w') = quicklooks (trace w) /\
    images w' = images w /\
    snapshots (trace w') =
      (snapshots (trace w) ++
       [Py.path_join wd [name product;
          snapshot_path (tsdir_of product archive) (outdir_of product digits)]])%list.
Proof.
  intros Hready Hwd Hio Hne Hoff.
  rewrite (postprocess_run _ _ _ _ Hready).
  destruct (copy_auxiliary_effects product (outdir_of product digits) (tsdir_of product archive)
              w wd Hwd Hio) as (evs & -> & Hql & Hsn).
  rewrite quicklook_selection_no_offset by assumption.
  eexists. split; [reflexivity |]. cbn.
  rewrite quicklooks_app, snapshots_app, Hql, Hsn, app_nil_r. by repeat split.
Qed.

(** X25.  With an absolute archive directory, the configuration is
    saved to [<archive_dir>/<tile>/QI/<outdir>_INFO.cfg] itself: in
    [os.path.join(wd, product.name, cfgpath)] the absolute [cfgpath]
    discards the working directory and the product name.  On a state
    that is ready and a registry that is not empty, [postprocess]
    completes and this is the one path it saves the configuration to. *)
Theorem snapshot_path_absolute product w digits archive wd offset :
  finalize_ready w digits archive wd offset ->
  (forall ev, io_fails ev = false) ->
  images w <> Dict.empty ->
  Py.startswith "/" archive = true ->
  exists w',
    S2L_Packager_postprocess product w = Ok tt w' /\
    snapshots (trace w') =
      (snapshots (trace w) ++
       [snapshot_path (tsdir_of product archive) (outdir_of product digits)])%list.
Proof.
  intros (Hready & Hwd & Hoff) Hio Hne Habs.
  rewrite (postprocess_run _ _ _ _ Hready).
  destruct (copy_auxiliary_effects product (outdir_of product digits) (tsdir_of product archive)
              w wd Hwd Hio) as (evs & -> & _ & Hsn).
  destruct (quicklook_selection_run (outdir_of product digits) (tsdir_of product archive)
              (with_trace (fun t => (t ++ evs)%list) w) offset Hne Hoff Hio)
    as (evs' & -> & Hsn').
  eexists. split; [reflexivity |]. cbn.
  rewrite !snapshots_app, Hsn, Hsn', app_nil_r.
  rewrite path_join_absolute2; [reflexivity |].
  unfold snapshot_path. apply path_join_startswith.
  unfold tsdir_of. by apply path_join_startswith.
Qed.

(** X26.  A product of one band, from an empty registry to the end:
    [process] and then [postprocess] complete, the one quicklook made is
    the grayscale one of that band, computed from a registry that holds
    exactly the band just written, and the registry is empty at the
    end. *)
Theorem package_single_band product image band w digits archive wd offset res :
  finalize_ready w digits archive wd offset ->
  Float.trunc (xRes image) = Some res ->
  (forall ev, io_fails ev = false) ->
  images w = Dict.empty ->
  let image' := image_written image (Some (band_path product archive digits band res)) in
  exists w',
    package_product (product, [(image, band)]) w = Ok tt w' /\
    images w' = Dict.empty /\
    quicklooks (trace w') =
      (quicklooks (trace w) ++
       [Quicklook [(band, filepath image')] [band]
          (quicklook_path (tsdir_of product archive) (outdir_of product digits) band)
          (quality_of w) offset])%list.
Proof.
  intros Hfin Hres Hio Hempty image'.
  pose proof Hfin as (Hready & _ & _).
  destruct (process_run product image band w digits archive res _ Hready Hres eq_refl Hio)
    as (w1 & Hrun & Htr & Him & Hcfg & _).
  fold image' in Hrun, Him, Hcfg.
  destruct (process_keeps_ready w w1 band _ _ digits archive wd offset Hcfg Hfin)
    as ((Hready1 & Hwd1 & Hoff1) & Hq1 & _).
  unfold package_product. cbn [fst snd package_bands].
  rewrite !bind_run, Hrun. unfold ret at 1. cbn [mret M_ret].
  rewrite (postprocess_run _ _ _ _ Hready1).
  destruct (product_after_names (getboolean (config w !! "hlsplus")) product band digits archive)
    as [-> ->].
  destruct (copy_auxiliary_run product (outdir_of product digits) (tsdir_of product archive)
              w1 wd Hwd1 Hio) as (evs & Hcopy & Hevs).
  match goal with |- context [copy_auxiliary ?p _ _ _] =>
    replace (copy_auxiliary p (outdir_of product digits) (tsdir_of product archive) w1)
      with (copy_auxiliary product (outdir_of product digits) (tsdir_of product archive) w1)
  end.
  2: { unfold product_after. by destruct (_ && _ && _). }
  rewrite Hcopy.
  rewrite (quicklook_selection_one _ _ _ offset band); [| | assumption..].
  2: { cbn [images with_trace]. rewrite Him, Hempty. reflexivity. }
  eexists. split; [reflexivity |]. split; [reflexivity |].
  cbn. unfold quicklook_of. cbn [images with_trace].
  rewrite !quicklooks_app, Hevs, Htr, !quicklooks_app, secondary_output_quicklooks.
  rewrite Him, Hempty. unfold quality_of in *. cbn [config with_trace]. rewrite Hq1.
  cbn. by rewrite !app_nil_r.
Qed.
End PackagerFinalize.

(* ===================================================================== *)
(** ** The properties on the concrete run *)

Import Sample.

Lemma sample_fit_shape (valid : bool) (present : string -> bool) :
  fit_shape (ext := collaborators valid present).
Proof. intros ys _. split; reflexivity. Qed.

(** Band B04 of the sample product without CAMS data: the constants are
    resolved and recorded. *)
Lemma fallback_constants_recorded_witness :
  let w := world settings in
  let w' := state_of (smac_correction (ext := without_cams) s2_product 0%nat extent "B04" w) in
  strptime (External := without_cams) (obs_of s2_product) obs_format = Some sensing_time /\
  is_valid (External := without_cams) (ecmwf_data w sensing_time) = false /\
  config_get "uH2O" VNone w' = Ok (VFloat (uH2O constant_values)) w' /\
  config_get "uO3" VNone w' = Ok (VFloat (uO3 constant_values)) w' /\
  config_get "pressure" VNone w' = Ok (VFloat (pressure constant_values)) w' /\
  config_get "taup550" VNone w' = Ok (VFloat (taup550 constant_values)) w'.
Proof.
  intros w w'. split; [reflexivity |]. split; [reflexivity |].
  apply (fallback_constants_recorded (ext := without_cams) s2_product 0%nat extent "B04"
           w sensing_time eq_refl eq_refl).
Defined.

(** Band B05 has no coefficients: the array comes back as it is. *)
Lemma unsupported_band_returns_input_witness :
  let w := world settings in
  strptime (External := with_cams) (obs_of s2_product) obs_format = Some sensing_time /\
  length extent = 8%nat /\
  get_smac_coefficients (ext := with_cams) s2_product "B05" = None /\
  exists w',
    smac_correction (ext := with_cams) s2_product 0%nat extent "B05" w = Ok 0%nat w' /\
    arrays w' = arrays w /\
    last (trace w') = Some (Log ERROR "No smac coefficients for {}" [VStr "B05"]).
Proof.
  intros w. split; [reflexivity |]. split; [reflexivity |]. split; [reflexivity |].
  apply (unsupported_band_returns_input (ext := with_cams) s2_product 0%nat extent "B05"
           w sensing_time eq_refl eq_refl eq_refl).
Defined.


(** Band B04 has coefficients: the curve is built and the fit logged. *)
Lemma correction_curve_samples_and_fit_witness :
  let w := world settings in
  strptime (External := with_cams) (obs_of s2_product) obs_format = Some sensing_time /\
  length extent = 8%nat /\
  get_smac_coefficients (ext := with_cams) s2_product "B04" = Some coef_B04 /\
  arrays w !! 0%nat = Some toa /\
  fit_shape (ext := with_cams) /\
  exists atm c0 c1 c2 res r w',
    smac_correction (ext := with_cams) s2_product 0%nat extent "B04" w = Ok r w' /\
    length (curve_toa (curve_of (ext := with_cams) s2_product atm coef_B04)) = 101%nat /\
    length (curve_surf (curve_of (ext := with_cams) s2_product atm coef_B04)) = 101%nat /\
    pf_coefficients (poly_coefs (curve_of (ext := with_cams) s2_product atm coef_B04))
      = [c2; c1; c0] /\
    last (trace w') = Some (LogFit "B04" c0 c1 c2 res).
Proof.
  intros w. split; [reflexivity |]. split; [reflexivity |]. split; [reflexivity |].
  split; [reflexivity |]. split; [apply sample_fit_shape |].
  destruct (correction_curve_samples_and_fit (ext := with_cams) s2_product 0%nat extent "B04"
              w sensing_time coef_B04 toa eq_refl eq_refl eq_refl eq_refl
              (sample_fit_shape true (fun _ => true)))
    as (atm & c0 & c1 & c2 & res & r & w' & Hrun & _ & Ht & Hs & _ & _ & _ & _ & Hp & _ & Hl).
  exists atm, c0, c1, c2, res, r, w'. repeat split; assumption.
Defined.

(** The same call: pixel (0, 2) of the input is -0.1 and comes out as 0,
    and the input array is still there. *)
Lemma fit_applied_and_masked_witness :
  let w := world settings in
  strptime (External := with_cams) (obs_of s2_product) obs_format = Some sensing_time /\
  length extent = 8%nat /\
  get_smac_coefficients (ext := with_cams) s2_product "B04" = Some coef_B04 /\
  arrays w !! 0%nat = Some toa /\
  fit_shape (ext := with_cams) /\
  exists r w' out,
    smac_correction (ext := with_cams) s2_product 0%nat extent "B04" w = Ok r w' /\
    arrays w' !! r = Some out /\
    arrays w' !! 0%nat = Some toa /\
    pixel out 0 2 = Some Float.pzero.
Proof.
  intros w. split; [reflexivity |]. split; [reflexivity |]. split; [reflexivity |].
  split; [reflexivity |]. split; [apply sample_fit_shape |].
  destruct (fit_applied_and_masked (ext := with_cams) s2_product 0%nat extent "B04"
              w sensing_time coef_B04 toa eq_refl eq_refl eq_refl eq_refl
              (sample_fit_shape true (fun _ => true)))
    as (atm & c0 & c1 & c2 & r & w' & out & Hrun & _ & _ & Hout & Hin & _ & _ & Hle & _).
  exists r, w', out. repeat split; try assumption.
  apply (Hle 0%nat 2%nat (Float.dec (-1) 1)); reflexivity.
Defined.

(** The sample of the naming rule. *)
Lemma band_file_naming_witness :
  let w := world settings in
  let img := image "/wd/B04.tif" 0%nat in
  let newpath := "/archive/32TQM/L2F_32TQM_20210504_S2A_R007/L2F_32TQM_20210504_S2A_R007_B04_10m.TIF" in
  packager_ready w "7" "/archive" /\
  Float.trunc (xRes img) = Some 10 /\
  io_fails (External := without_cams)
    (ImageWrite img ["COMPRESS=LZW"] false (Some newpath)) = false /\
  band_file_name "T32TQM" sensing_time "S2A" "7" "B04" 10
    = "L2F_32TQM_20210504_S2A_R007_B04_10m.TIF" /\
  exists rest,
    trace (state_of (S2L_Packager_process (ext := without_cams) s2_product img "B04" w)) =
    ([Log DEBUG ("New: " ++ newpath) [];
      ImageWrite img ["COMPRESS=LZW"] false (Some newpath)] ++ rest)%list.
Proof.
  intros w img newpath.
  assert (Hready : packager_ready w "7" "/archive").
  { split; [exists (VInt 7); split; reflexivity | reflexivity]. }
  split; [exact Hready |]. split; [reflexivity |]. split; [reflexivity |].
  destruct (band_file_naming (ext := without_cams) s2_product img "B04" w "7" "/archive" 10
              Hready eq_refl eq_refl)
    as (Htrace & _ & _ & _ & _ & _ & _ & Hname).
  split; [apply Hname; repeat split; reflexivity | exact Htrace].
Defined.

Lemma sample_ready (bands : Dict.t string) (cfg : gmap string pyval) :
  cfg = settings \/ cfg = hls_settings ->
  finalize_ready (packaged bands cfg) "7" "/archive" "/wd" 0.
Proof.
  intros [-> | ->];
    (split; [split; [exists (VInt 7); split; reflexivity | reflexivity] |]);
    (split; [reflexivity | intros w0; reflexivity]).
Qed.


(** One band packaged: one quicklook, of that band; two bands: the two
    composites. *)
Lemma quicklooks_by_band_count_witness :
  finalize_ready (packaged one_band settings) "7" "/archive" "/wd" 0 /\
  finalize_ready (packaged two_bands settings) "7" "/archive" "/wd" 0 /\
  (forall ev, io_fails (External := without_cams) ev = false) /\
  (exists w',
     S2L_Packager_postprocess (ext := without_cams) s2_product (packaged one_band settings)
       = Ok tt w' /\
     quicklooks (trace w') =
       [Quicklook one_band ["B04"]
          "/archive/32TQM/QI/QL_B04/L2F_32TQM_20210504_S2A_R007_QL_B04.jpg" (VInt 95) 0]) /\
  (exists w',
     S2L_Packager_postprocess (ext := without_cams) s2_product (packaged two_bands settings)
       = Ok tt w' /\
     quicklooks (trace w') =
       [Quicklook two_bands ["B04"; "B03"; "B02"]
          "/archive/32TQM/QI/QL_B432/L2F_32TQM_20210504_S2A_R007_QL_B432.jpg" (VInt 95) 0;
        Quicklook two_bands ["B12"; "B11"; "B8A"]
          "/archive/32TQM/QI/QL_B12118A/L2F_32TQM_20210504_S2A_R007_QL_B12118A.jpg"
          (VInt 95) 0]).
Proof.
  split; [apply sample_ready; by left |]. split; [apply sample_ready; by left |].
  split; [reflexivity |]. split.
  - apply (quicklooks_by_band_count (ext := without_cams) s2_product
             (packaged one_band settings) "7" "/archive" "/wd" 0
             (sample_ready one_band settings (or_introl eq_refl)) (fun _ => eq_refl)).
    reflexivity.
  - apply (quicklooks_by_band_count (ext := without_cams) s2_product
             (packaged two_bands settings) "7" "/archive" "/wd" 0
             (sample_ready two_bands settings (or_introl eq_refl)) (fun _ => eq_refl)).
    cbn. lia.
Defined.

(** Two products packaged in a row from the initial registry. *)
Lemma registry_empty_between_products_witness :
  let w := world settings in
  let w' := state_of (package_all (ext := without_cams) jobs w) in
  images w = S2L_Packager_images /\
  package_all (ext := without_cams) jobs w = Ok tt w' /\
  images w' = Dict.empty.
Proof.
  intros w w'.
  assert (Hrun : package_all (ext := without_cams) jobs w = Ok tt w')
    by (vm_compute; reflexivity).
  split; [reflexivity |]. split; [exact Hrun |].
  apply (registry_empty_between_products (ext := without_cams) jobs w w' eq_refl Hrun).
Defined.

(** The sen2cor flag, then the smac flag alone. *)
Lemma quality_annotation_witness :
  let sen2cor := world (<["use_sen2cor" := VBool true]> (<["use_smac" := VBool true]> settings)) in
  let smac := world (<["use_smac" := VBool true]> (<["uH2O" := VFloat (Float.dec 20 1)]> settings)) in
  (exists w',
     S2L_Atmcor_postprocess (ext := without_cams) s2_product sen2cor = Ok tt w' /\
     qi w' = <["AC_PROCESSOR" := VStr "SEN2COR"]> (qi sen2cor)) /\
  (exists w',
     S2L_Atmcor_postprocess (ext := without_cams) s2_product smac = Ok tt w' /\
     qi w' !! "AC_PROCESSOR" = Some (VStr "SMAC") /\
     qi w' !! "GRANULE_MEAN_WV" = Some (VFloat (Float.dec 20 1))).
Proof.
  intros sen2cor smac. split.
  - destruct (proj1 (quality_annotation (ext := without_cams) s2_product sen2cor) eq_refl)
      as (w' & Hrun & Hqi & _).
    exists w'. by split.
  - destruct (proj1 (proj2 (quality_annotation (ext := without_cams) s2_product smac))
                eq_refl eq_refl)
      as (w' & Hrun & Hp & Hwv & _).
    exists w'. repeat split; assumption.
Defined.

(** In [hlsplus] mode, a Landsat 8 band whose 30 m image the product
    carries: that image is written next to the band. *)
Lemma secondary_output_by_family_witness :
  let w := world hls_settings in
  let img := image "/wd/B04.tif" 0%nat in
  packager_ready w "7" "/archive" /\
  Float.trunc (xRes img) = Some 10 /\
  getboolean (External := without_cams) (config w !! "hlsplus") = true /\
  (forall ev, io_fails (External := without_cams) ev = false) /\
  exists product' image' w' extra,
    S2L_Packager_process (ext := without_cams) l8_product_30m img "B04" w
      = Ok (product', image') w' /\
    extra = [ImageWrite (ImageFile (Float.of_Z f64 30) "/wd/B04_30m.tif" "/wd" "B04_30m.tif" 1%nat)
               ["COMPRESS=LZW"] false
               (Some "/archive/32TQM/L2F_32TQM_20210504_LC08_R007/L2F_32TQM_20210504_LC08_R007_B04_30m.TIF")] /\
    image30m product' = [].
Proof.
  intros w img.
  assert (Hready : packager_ready w "7" "/archive").
  { split; [exists (VInt 7); split; reflexivity | reflexivity]. }
  split; [exact Hready |]. split; [reflexivity |]. split; [reflexivity |].
  split; [reflexivity |].
  destruct (secondary_output_by_family (ext := without_cams) l8_product_30m img "B04" w
              "7" "/archive" 10 Hready eq_refl eq_refl (fun _ => eq_refl))
    as (product' & image' & w' & extra & Hrun & _ & _ & Hpre & _ & _).
  destruct (Hpre (or_introl eq_refl) _ eq_refl) as [Hextra Hprod].
  exists product', image', w', extra. split; [exact Hrun |]. split; [exact Hextra |].
  rewrite Hprod. reflexivity.
Defined.

(** C9 as stated fails: in [hlsplus] mode, for a Landsat 8 product that
    carries no 30 m image of band B10, [process] completes and the only
    image written is the band itself. *)
Lemma precomputed_image_absent_nothing_written :
  let w := world hls_settings in
  let img := image "/wd/B10.tif" 0%nat in
  let newpath :=
    "/archive/32TQM/L2F_32TQM_20210504_LC08_R007/L2F_32TQM_20210504_LC08_R007_B10_10m.TIF" in
  sensor l8_product = "L8" /\
  getboolean (External := without_cams) (config w !! "hlsplus") = true /\
  exists image' w',
    S2L_Packager_process (ext := without_cams) l8_product img "B10" w
      = Ok (l8_product, image') w' /\
    trace w' = [Log DEBUG ("New: " ++ newpath) [];
                ImageWrite img ["COMPRESS=LZW"] false (Some newpath)].
Proof.
  intros w img newpath. split; [reflexivity |]. split; [reflexivity |].
  eexists _, _. split; vm_compute; reflexivity.
Qed.

(** Finalizing with nothing packaged. *)
Lemma finalize_empty_registry_fails_witness :
  let w := world settings in
  images w = Dict.empty /\
  exists w',
    S2L_Packager_postprocess (ext := without_cams) s2_product w = Raise IndexError w' /\
    quicklooks (trace w') = quicklooks (trace w) /\
    images w' = Dict.empty.
Proof.
  intros w. split; [reflexivity |].
  destruct (finalize_empty_registry_fails (ext := without_cams) s2_product w eq_refl)
    as (_ & _ & Hrun).
  apply (Hrun "7" "/archive" "/wd").
  - split; [exists (VInt 7); split; reflexivity | reflexivity].
  - reflexivity.
  - reflexivity.
Defined.
(** *** The further properties on the concrete run *)

(** No sensing time can be parsed: the correction stops at once. *)
Lemma smac_correction_unparsable_time_witness :
  let w := world settings in
  strptime (External := unparsable) (obs_of s2_product) obs_format = None /\
  smac_correction (ext := unparsable) s2_product 0%nat extent "B04" w =
    Raise ValueError (entry w).
Proof.
  intros w. split; [reflexivity |].
  apply (smac_correction_unparsable_time (ext := unparsable) s2_product 0%nat extent "B04"
           w eq_refl).
Defined.

(** An extent of one corner only. *)
Lemma smac_correction_short_extent_witness :
  let w := world settings in
  let corner := [Float.of_Z f64 10; Float.of_Z f64 45] in
  strptime (External := with_cams) (obs_of s2_product) obs_format = Some sensing_time /\
  is_valid (External := with_cams) (ecmwf_data w sensing_time) = true /\
  smac_correction (ext := with_cams) s2_product 0%nat corner "B04" w =
    Raise IndexError (entry w).
Proof.
  intros w corner. split; [reflexivity |]. split; [reflexivity |].
  apply (smac_correction_short_extent (ext := with_cams) s2_product 0%nat corner "B04"
           w sensing_time eq_refl eq_refl).
  simpl. lia.
Defined.

(** The sample extent with CAMS data: the water vapour recorded is the
    plane through the corner values at the scene centre. *)
Lemma smac_correction_estimated_state_witness :
  let w := world settings in
  let x i := Float.of_Z f64 i in
  let c := scene_centre (ext := with_cams) (ecmwf_data w sensing_time)
             (x 10) (x 45) (x 11) (x 45) (x 11) (x 44) (x 10) (x 44) in
  let w' := state_of (smac_correction (ext := with_cams) s2_product 0%nat extent "B04" w) in
  strptime (External := with_cams) (obs_of s2_product) obs_format = Some sensing_time /\
  is_valid (External := with_cams) (ecmwf_data w sensing_time) = true /\
  config w' !! "uH2O" = Some (VFloat (estimate (ext := with_cams) extent (v_ctwv c) c)).
Proof.
  intros w x c w'. split; [reflexivity |]. split; [reflexivity |].
  apply (smac_correction_estimated_state (ext := with_cams) s2_product 0%nat "B04" w
           sensing_time (x 10) (x 45) (x 11) (x 45) (x 11) (x 44) (x 10) (x 44) []
           eq_refl eq_refl).
Defined.

(** Pixel (1, 1) of the sample array is not a number. *)
Lemma apply_fit_nan_witness :
  pixel toa 1 1 = Some S754_nan /\
  pixel (apply_fit (ext := without_cams) (Float.dec (-1) 2) (Float.of_Z f64 1) Float.pzero toa)
    1 1 = Some S754_nan.
Proof.
  split; [reflexivity |].
  apply (apply_fit_nan (ext := without_cams) (Float.dec (-1) 2) (Float.of_Z f64 1) Float.pzero
           toa 1%nat 1%nat eq_refl).
Defined.

(** The sample store does not switch the correction on. *)
Lemma process_without_smac_witness :
  let w := world settings in
  let img := image "/wd/B04.tif" 0%nat in
  getboolean (External := without_cams) (config w !! "use_smac") = false /\
  exists w',
    S2L_Atmcor_process (ext := without_cams) (img := imaging) s2_product img "B04" w =
      Ok img w' /\
    same_store w w'.
Proof.
  intros w img. split; [reflexivity |].
  eexists. split.
  - apply (process_without_smac (ext := without_cams) (img := imaging) s2_product img "B04" w
             eq_refl).
  - apply same_store_trace.
Defined.

(** The correction is on and the sensing time cannot be parsed. *)
Lemma process_failure_propagates_witness :
  let w := world smac_settings in
  let img := image "/wd/B04.tif" 0%nat in
  getboolean (External := unparsable) (config w !! "use_smac") = true /\
  S2L_Atmcor_process (ext := unparsable) (img := imaging) s2_product img "B04" w =
    Raise ValueError (entry (started w)).
Proof.
  intros w img. split; [reflexivity |].
  apply (process_failure_propagates (ext := unparsable) (img := imaging) s2_product img "B04"
           w ValueError (entry (started w)) eq_refl eq_refl).
Defined.

(** Band B04 corrected with intermediate products: the image written is
    the input image. *)
Lemma process_with_smac_witness :
  let w := world smac_settings_intermediate in
  let img := image "/wd/B04.tif" 0%nat in
  getboolean (External := with_cams) (config w !! "use_smac") = true /\
  io_fails (External := with_cams) (ImageWrite img ["COMPRESS=LZW"] false None) = false /\
  exists array_out w1,
    smac_correction (ext := with_cams) s2_product 0%nat extent "B04" (started w) =
      Ok array_out w1 /\
    S2L_Atmcor_process (ext := with_cams) (img := imaging) s2_product img "B04" w =
      Ok (ImageFile (Float.of_Z f64 10) "/wd/atmcor_B04.tif" "/wd" "atmcor_B04.tif" array_out)
         (with_trace (fun t => (t ++ [ImageWrite img ["COMPRESS=LZW"] false None;
                                      Log INFO "End" []])%list) w1).
Proof.
  intros w img. split; [reflexivity |]. split; [reflexivity |].
  destruct (smac_correction (ext := with_cams) s2_product 0%nat extent "B04" (started w))
    as [array_out w1|e w1] eqn:Hs; [| vm_compute in Hs; discriminate Hs].
  exists array_out, w1. split; [reflexivity |].
  apply (process_with_smac (ext := with_cams) (img := imaging) s2_product img "B04" w
           array_out w1 eq_refl Hs eq_refl).
Defined.

(** Band B04 corrected without CAMS data, then the quality annotation. *)
Lemma process_then_postprocess_witness :
  let w := world smac_settings in
  let img := image "/wd/B04.tif" 0%nat in
  getboolean (External := without_cams) (config w !! "use_sen2cor") = false /\
  getboolean (External := without_cams) (config w !! "use_smac") = true /\
  exists out w' atm w'',
    S2L_Atmcor_process (ext := without_cams) (img := imaging) s2_product img "B04" w =
      Ok out w' /\
    S2L_Atmcor_postprocess (ext := without_cams) s2_product w' = Ok tt w'' /\
    config w' !! "uH2O" = Some (VFloat (uH2O atm)) /\
    qi w'' !! "GRANULE_MEAN_WV" = Some (VFloat (uH2O atm)).
Proof.
  intros w img. split; [reflexivity |]. split; [reflexivity |].
  destruct (S2L_Atmcor_process (ext := without_cams) (img := imaging) s2_product img "B04" w)
    as [out w'|e w'] eqn:Hp; [| vm_compute in Hp; discriminate Hp].
  destruct (process_then_postprocess (ext := without_cams) (img := imaging) s2_product img "B04"
              w out w' eq_refl eq_refl Hp)
    as (atm & w'' & Hcfg & Hpost & _ & Hwv & _).
  exists out, w', atm, w''. split; [reflexivity |]. split; [exact Hpost |].
  split; [| exact Hwv].
  rewrite Hcfg. reflexivity.
Defined.

Lemma sample_packager_ready (cfg : gmap string pyval) :
  cfg = settings \/ cfg = hls_settings ->
  packager_ready (world cfg) "7" "/archive".
Proof.
  intros [-> | ->]; (split; [exists (VInt 7); split; reflexivity | reflexivity]).
Qed.

(** Band B04 of the sample product: what the registry and the store
    declare. *)
Lemma process_declares_output_witness :
  let w := world settings in
  let img := image "/wd/B04.tif" 0%nat in
  let newpath :=
    "/archive/32TQM/L2F_32TQM_20210504_S2A_R007/L2F_32TQM_20210504_S2A_R007_B04_10m.TIF" in
  packager_ready w "7" "/archive" /\
  Float.trunc (xRes img) = Some 10 /\
  (forall ev, io_fails (External := without_cams) ev = false) /\
  exists product' image' w',
    S2L_Packager_process (ext := without_cams) s2_product img "B04" w =
      Ok (product', image') w' /\
    Dict.get "B04" (images w') = Some newpath /\
    config w' !! "imageout_B04" = Some (VStr "L2F_32TQM_20210504_S2A_R007_B04_10m.TIF") /\
    config w' !! "archive_dir" = Some (VStr "/archive").
Proof.
  intros w img newpath.
  assert (Hready : packager_ready w "7" "/archive") by (apply sample_packager_ready; by left).
  split; [exact Hready |]. split; [reflexivity |]. split; [reflexivity |].
  destruct (process_declares_output (ext := without_cams) s2_product img "B04" w "7" "/archive"
              10 Hready eq_refl (fun _ => eq_refl))
    as (product' & w' & Hrun & Hreg & _ & Hout & _ & Hkeys & _).
  eexists product', _, w'. split; [exact Hrun |].
  split; [exact Hreg |]. split; [exact Hout |].
  rewrite (Hkeys "archive_dir" eq_refl). reflexivity.
Defined.

(** B8A is new to a registry of B04 and B03 and goes last. *)
Lemma process_registry_order_witness :
  let w := packaged [("B04", "/a/B04.TIF"); ("B03", "/a/B03.TIF")] settings in
  let img := image "/wd/B8A.tif" 0%nat in
  packager_ready w "7" "/archive" /\
  Float.trunc (xRes img) = Some 10 /\
  (forall ev, io_fails (External := without_cams) ev = false) /\
  Dict.keys (images (state_of (S2L_Packager_process (ext := without_cams) s2_product img "B8A" w)))
    = ["B04"; "B03"; "B8A"].
Proof.
  intros w img.
  assert (Hready : packager_ready w "7" "/archive").
  { split; [exists (VInt 7); split; reflexivity | reflexivity]. }
  split; [exact Hready |]. split; [reflexivity |]. split; [reflexivity |].
  apply (process_registry_order (ext := without_cams) s2_product img "B8A" w "7" "/archive" 10
           Hready eq_refl (fun _ => eq_refl)).
Defined.

(** No image can be written: the band is not registered. *)
Lemma process_write_failure_witness :
  let w := world settings in
  let img := image "/wd/B04.tif" 0%nat in
  let newpath :=
    "/archive/32TQM/L2F_32TQM_20210504_S2A_R007/L2F_32TQM_20210504_S2A_R007_B04_10m.TIF" in
  packager_ready w "7" "/archive" /\
  Float.trunc (xRes img) = Some 10 /\
  io_fails (External := failing_writes)
    (ImageWrite img ["COMPRESS=LZW"] false (Some newpath)) = true /\
  S2L_Packager_process (ext := failing_writes) s2_product img "B04" w =
    Raise OSError (with_trace (fun t => (t ++ [Log DEBUG ("New: " ++ newpath) []])%list) w).
Proof.
  intros w img newpath.
  assert (Hready : packager_ready w "7" "/archive") by (apply sample_packager_ready; by left).
  split; [exact Hready |]. split; [reflexivity |]. split; [reflexivity |].
  apply (process_write_failure (ext := failing_writes) s2_product img "B04" w "7" "/archive" 10
           Hready eq_refl eq_refl).
Defined.

(** An image whose resolution is not a number. *)
Lemma process_resolution_not_finite_witness :
  let w := world settings in
  let img := ImageFile S754_nan "/wd/B04.tif" "/wd" "B04.tif" 0%nat in
  config w !! "relative_orbit" = Some (VInt 7) /\
  orbit_digits (VInt 7) = Some "7" /\
  S2L_Packager_process (ext := without_cams) s2_product img "B04" w = Raise ValueError w.
Proof.
  intros w img. split; [reflexivity |]. split; [reflexivity |].
  apply (proj1 (process_resolution_not_finite (ext := without_cams) s2_product img "B04" w
                  (VInt 7) "7" eq_refl eq_refl)).
  reflexivity.
Defined.

(** An empty store. *)
Lemma packager_missing_orbit_witness :
  let w := world ∅ in
  let img := image "/wd/B04.tif" 0%nat in
  default VNone (config w !! "relative_orbit") = VNone /\
  S2L_Packager_process (ext := without_cams) s2_product img "B04" w = Raise TypeError w /\
  S2L_Packager_postprocess (ext := without_cams) s2_product w = Raise TypeError w.
Proof.
  intros w img. split; [reflexivity |].
  apply (packager_missing_orbit (ext := without_cams) s2_product img "B04" w eq_refl).
Defined.

(** A store that holds the orbit only. *)
Lemma packager_missing_archive_dir_witness :
  let w := world {[ "relative_orbit" := VInt 7 ]} in
  let img := image "/wd/B04.tif" 0%nat in
  config w !! "archive_dir" = None /\
  S2L_Packager_process (ext := without_cams) s2_product img "B04" w = Raise TypeError w /\
  S2L_Packager_postprocess (ext := without_cams) s2_product w = Raise TypeError w.
Proof.
  intros w img. split; [reflexivity |].
  apply (packager_missing_archive_dir (ext := without_cams) s2_product img "B04" w
           (VInt 7) "7" 10 eq_refl eq_refl eq_refl).
  intros s H. vm_compute in H. discriminate H.
Defined.

(** Without [hlsplus], the Landsat 8 product keeps its 30 m image. *)
Lemma process_without_hlsplus_witness :
  let w := world settings in
  let img := image "/wd/B04.tif" 0%nat in
  packager_ready w "7" "/archive" /\
  Float.trunc (xRes img) = Some 10 /\
  getboolean (External := without_cams) (config w !! "hlsplus") = false /\
  (forall ev, io_fails (External := without_cams) ev = false) /\
  exists image' w',
    S2L_Packager_process (ext := without_cams) l8_product_30m img "B04" w =
      Ok (l8_product_30m, image') w' /\
    length (trace w') = 2%nat.
Proof.
  intros w img.
  assert (Hready : packager_ready w "7" "/archive") by (apply sample_packager_ready; by left).
  split; [exact Hready |]. split; [reflexivity |]. split; [reflexivity |].
  split; [reflexivity |].
  destruct (process_without_hlsplus (ext := without_cams) l8_product_30m img "B04" w
              "7" "/archive" 10 Hready eq_refl eq_refl (fun _ => eq_refl))
    as (w' & Hrun & Htr).
  eexists _, w'. split; [exact Hrun |]. rewrite Htr. reflexivity.
Defined.

(** In [hlsplus] mode, the 30 m image of band B04 is gone after the
    first call. *)
Lemma precomputed_image_written_once_witness :
  let w := world hls_settings in
  let img := image "/wd/B04.tif" 0%nat in
  packager_ready w "7" "/archive" /\
  Float.trunc (xRes img) = Some 10 /\
  getboolean (External := without_cams) (config w !! "hlsplus") = true /\
  (forall ev, io_fails (External := without_cams) ev = false) /\
  family_L8_L9 l8_product_30m = true /\
  exists product' image' w',
    S2L_Packager_process (ext := without_cams) l8_product_30m img "B04" w =
      Ok (product', image') w' /\
    Dict.get "B04" (image30m product') = None.
Proof.
  intros w img.
  assert (Hready : packager_ready w "7" "/archive") by (apply sample_packager_ready; by right).
  split; [exact Hready |]. split; [reflexivity |]. split; [reflexivity |].
  split; [reflexivity |]. split; [reflexivity |].
  destruct (precomputed_image_written_once (ext := without_cams) l8_product_30m img img "B04" w
              "7" "/archive" 10 10
              (ImageFile (Float.of_Z f64 30) "/wd/B04_30m.tif" "/wd" "B04_30m.tif" 1%nat)
              Hready eq_refl eq_refl eq_refl (fun _ => eq_refl) eq_refl
              (NoDup_singleton "B04") eq_refl)
    as (product' & image' & w' & Hrun & Hgone & _).
  exists product', image', w'. split; [exact Hrun | exact Hgone].
Defined.


(** One band registered and no offset in the store. *)
Lemma postprocess_missing_offset_witness :
  let cfg : gmap string pyval :=
    list_to_map [("relative_orbit", VInt 7); ("archive_dir", VStr "/archive");
                 ("wd", VStr "/wd")] in
  let w := packaged one_band cfg in
  packager_ready w "7" "/archive" /\
  config w !! "wd" = Some (VStr "/wd") /\
  (forall ev, io_fails (External := without_cams) ev = false) /\
  default VNone (config w !! "offset") = VNone /\
  exists w',
    S2L_Packager_postprocess (ext := without_cams) s2_product w = Raise TypeError w' /\
    quicklooks (trace w') = [] /\
    images w' = one_band.
Proof.
  intros cfg w.
  assert (Hready : packager_ready w "7" "/archive").
  { split; [exists (VInt 7); split; reflexivity | reflexivity]. }
  split; [exact Hready |]. split; [reflexivity |]. split; [reflexivity |].
  split; [reflexivity |].
  destruct (postprocess_missing_offset (ext := without_cams) s2_product w "7" "/archive" "/wd"
              Hready eq_refl (fun _ => eq_refl))
    as (w' & Hrun & Hql & Him & _).
  - discriminate.
  - reflexivity.
  - exists w'. split; [exact Hrun |]. split; [exact Hql | exact Him].
Defined.

(** The sample archive directory is absolute. *)
Lemma snapshot_path_absolute_witness :
  let w := packaged one_band settings in
  finalize_ready w "7" "/archive" "/wd" 0 /\
  (forall ev, io_fails (External := without_cams) ev = false) /\
  Py.startswith "/" "/archive" = true /\
  exists w',
    S2L_Packager_postprocess (ext := without_cams) s2_product w = Ok tt w' /\
    snapshots (trace w') = ["/archive/32TQM/QI/L2F_32TQM_20210504_S2A_R007_INFO.cfg"].
Proof.
  intros w.
  split; [apply sample_ready; by left |]. split; [reflexivity |]. split; [reflexivity |].
  apply (snapshot_path_absolute (ext := without_cams) s2_product w "7" "/archive" "/wd" 0
           (sample_ready one_band settings (or_introl eq_refl)) (fun _ => eq_refl)).
  - discriminate.
  - reflexivity.
Defined.

(** Band B04 of the sample product, packaged and finalized. *)
Lemma package_single_band_witness :
  let w := world settings in
  let img := image "/wd/B04.tif" 0%nat in
  let newpath :=
    "/archive/32TQM/L2F_32TQM_20210504_S2A_R007/L2F_32TQM_20210504_S2A_R007_B04_10m.TIF" in
  finalize_ready w "7" "/archive" "/wd" 0 /\
  Float.trunc (xRes img) = Some 10 /\
  (forall ev, io_fails (External := without_cams) ev = false) /\
  images w = Dict.empty /\
  exists w',
    package_product (ext := without_cams) (s2_product, [(img, "B04")]) w = Ok tt w' /\
    images w' = Dict.empty /\
    quicklooks (trace w') =
      [Quicklook [("B04", newpath)] ["B04"]
         "/archive/32TQM/QI/QL_B04/L2F_32TQM_20210504_S2A_R007_QL_B04.jpg" (VInt 95) 0].
Proof.
  intros w img newpath.
  assert (Hfin : finalize_ready w "7" "/archive" "/wd" 0)
    by exact (sample_ready Dict.empty settings (or_introl eq_refl)).
  split; [exact Hfin |]. split; [reflexivity |]. split; [reflexivity |].
  split; [reflexivity |].
  apply (package_single_band (ext := without_cams) s2_product img "B04" w "7" "/archive" "/wd"
           0 10 Hfin eq_refl (fun _ => eq_refl) eq_refl).
Defined.
